(** * missile-launcher: a command-line driver for a USB rocket launcher

    Shallow embedding of [missile-launcher.c] and proofs about the
    command framing, the status bits, the timed-movement and
    fire-until-confirmed sequences and the option parser.

    The HID library, the clock and the two output streams are the
    program's environment.  The HID calls are an interface ([HidApi])
    over an arbitrary bus state; every call the program makes is
    recorded, with its result, in a trace. *)

From Stdlib Require Import ZArith List String Ascii Bool Lia.
Import ListNotations.
Open Scope Z_scope.

(** ** Constants of the source *)

Definition LAUNCHER_VID : Z := 0x0a81.
Definition LAUNCHER_PID : Z := 0x0701.

Definition CMD_MOVE_DOWN  : Z := 0x01.
Definition CMD_MOVE_UP    : Z := 0x02.
Definition CMD_MOVE_LEFT  : Z := 0x04.
Definition CMD_MOVE_RIGHT : Z := 0x08.
Definition CMD_FIRE       : Z := 0x10.
Definition CMD_STOP       : Z := 0x20.
Definition CMD_GET_STATUS : Z := 0x40.

Definition STATUS_DOWN_LIMIT   : Z := 0x01.
Definition STATUS_UP_LIMIT     : Z := 0x02.
Definition STATUS_LEFT_LIMIT   : Z := 0x04.
Definition STATUS_RIGHT_LIMIT  : Z := 0x08.
Definition STATUS_DEVICE_FIRED : Z := 0x10.

Definition MOVE_HOLD_TIME_US : Z := 100000.
Definition FIRE_HOLD_TIME_US : Z := 500000.

Definition EXIT_SUCCESS : Z := 0.
Definition EXIT_FAILURE : Z := 1.

(** Conversions to the unsigned types of the source. *)
Definition uint8 (z : Z) : Z := z mod 256.
Definition useconds (z : Z) : Z := z mod 2 ^ 32.

(** ** Plain data of the source *)

Inductive movement : Type :=
| MOVEMENT_NONE
| MOVEMENT_TILT_UP
| MOVEMENT_TILT_DOWN
| MOVEMENT_PAN_LEFT
| MOVEMENT_PAN_RIGHT.

(** The [switch] of [move_turret]: the command byte, or [None] for the
    [default] branch. *)
Definition movement_cmd (m : movement) : option Z :=
  match m with
  | MOVEMENT_TILT_UP => Some CMD_MOVE_UP
  | MOVEMENT_TILT_DOWN => Some CMD_MOVE_DOWN
  | MOVEMENT_PAN_LEFT => Some CMD_MOVE_LEFT
  | MOVEMENT_PAN_RIGHT => Some CMD_MOVE_RIGHT
  | MOVEMENT_NONE => None
  end.

(** [struct arguments]; [arg_movement] is its field [movement]. *)
Record arguments : Type := mkArguments {
  arg_movement      : movement;
  movement_duration : Z;
  fire              : bool;
  display_status    : bool
}.

(** ** The C library's [strtoul]

    [strtoul(nptr, &endptr, 0)] as the C standard describes it, for a
    64-bit [unsigned long]: white space, an optional sign, the base
    taken from the prefix, the longest run of digits of that base.
    Without a digit nothing is converted: the value is 0 and [endptr] is
    [nptr].  A value out of range gives [ULONG_MAX]; a minus sign
    negates in the unsigned type.  The result is the value and the
    string [endptr] points to. *)
Definition ULONG_MAX : Z := 2 ^ 64 - 1.

Definition code (c : ascii) : Z := Z.of_N (N_of_ascii c).

Definition isspace (c : ascii) : bool :=
  (code c =? 32) || ((9 <=? code c) && (code c <=? 13)).

Fixpoint skip_space (s : string) : string :=
  match s with
  | String c s' => if isspace c then skip_space s' else s
  | EmptyString => s
  end.

Definition digit_value (c : ascii) : option Z :=
  let n := code c in
  if (48 <=? n) && (n <=? 57) then Some (n - 48)
  else if (97 <=? n) && (n <=? 122) then Some (n - 97 + 10)
  else if (65 <=? n) && (n <=? 90) then Some (n - 65 + 10)
  else None.

Definition is_digit_of (base : Z) (c : ascii) : bool :=
  match digit_value c with
  | Some d => d <? base
  | None => false
  end.

(** Value of the longest prefix of digits, whether there was a digit,
    and the rest. *)
Fixpoint scan_digits (base acc : Z) (any : bool) (s : string)
  : Z * bool * string :=
  match s with
  | String c s' =>
      match digit_value c with
      | Some d =>
          if d <? base then scan_digits base (acc * base + d) true s'
          else (acc, any, s)
      | None => (acc, any, s)
      end
  | EmptyString => (acc, any, s)
  end.

Definition strip_sign (s : string) : bool * string :=
  match s with
  | String "-" t => (true, t)
  | String "+" t => (false, t)
  | _ => (false, s)
  end.

Definition detect_base (s : string) : Z * string :=
  match s with
  | String "0" (String x (String h t)) =>
      if ((code x =? code "x") || (code x =? code "X")) && is_digit_of 16 h
      then (16, String h t)
      else (8, s)
  | String "0" _ => (8, s)
  | _ => (10, s)
  end.

Definition strtoul (nptr : string) : Z * string :=
  let (neg, s1) := strip_sign (skip_space nptr) in
  let (base, s2) := detect_base s1 in
  let '(v, any, rest) := scan_digits base 0 false s2 in
  if negb any then (0, nptr)
  else if ULONG_MAX <? v then (ULONG_MAX, rest)
  else ((if neg then (- v) mod 2 ^ 64 else v), rest).

(** ** Results of the command-line parser *)

Definition ARGP_KEY_ARG : Z := 0.
Definition ARGP_ERR_UNKNOWN : Z := 7.
Definition EX_USAGE : Z := 64.

(** How a call of the parser callback ends: it returns [ret] with the
    updated arguments, or [argp_usage] prints the usage and exits, or a
    null [arg] is dereferenced. *)
Inductive parsed : Type :=
| Returned (r : Z) (a : arguments)
| UsageExit
| NullDeref.

Definition set_movement (m : movement) (a : arguments) : arguments :=
  mkArguments m (movement_duration a) (fire a) (display_status a).
Definition set_duration (d : Z) (a : arguments) : arguments :=
  mkArguments (arg_movement a) d (fire a) (display_status a).
Definition set_fire (a : arguments) : arguments :=
  mkArguments (arg_movement a) (movement_duration a) true (display_status a).
Definition set_display_status (a : arguments) : arguments :=
  mkArguments (arg_movement a) (movement_duration a) (fire a) true.

(** How a run of [main] ends: the process exits with a status, or
    [fire_missile] is still polling when the fuel of the model is spent,
    or the parser dereferenced a null [arg]. *)
Inductive run : Type :=
| Exit (status : Z)
| Polling
| Undefined.

Definition default_arguments : arguments :=
  mkArguments MOVEMENT_NONE MOVE_HOLD_TIME_US false false.

Definition is_none (m : movement) : bool :=
  match m with MOVEMENT_NONE => true | _ => false end.

(** ** The environment *)

(** What the program does to the outside world, in program order. *)
Inductive event : Type :=
| HidOpen  (vid pid : Z) (opened : bool)
| HidWrite (buf : list Z) (res : Z)
| HidRead  (len : Z) (res : Z) (data : list Z)
| HidClose
| Usleep   (us : Z).

(** The HID library over a bus state [B].  [hid_write] and [hid_read]
    return the library's [int] result (negative on error); [hid_read]
    also returns the bytes it copied into the caller's buffer.
    [hid_open] says whether a device handle was returned. *)
Class HidApi (B : Type) : Type := {
  hid_open  : Z -> Z -> B -> bool * B;
  hid_write : list Z -> B -> Z * B;
  hid_read  : Z -> B -> (Z * list Z) * B;
  hid_close : B -> B
}.

(** A scripted bus for running the driver: the results of the writes
    and of the reads to come, in order.  When a script is used up a
    write returns the length of the report and a read delivers a status
    byte with the fired bit. *)
Record script : Type := mkScript {
  open_result   : bool;
  write_results : list Z;
  read_results  : list (Z * list Z)
}.

Definition script_write (buf : list Z) (s : script) : Z * script :=
  match write_results s with
  | [] => (Z.of_nat (List.length buf), s)
  | r :: rs => (r, mkScript (open_result s) rs (read_results s))
  end.

Definition script_read (len : Z) (s : script) : (Z * list Z) * script :=
  match read_results s with
  | [] => ((1, [STATUS_DEVICE_FIRED]), s)
  | r :: rs => (r, mkScript (open_result s) (write_results s) rs)
  end.

#[export] Instance scripted : HidApi script := {|
  hid_open := fun _ _ s => (open_result s, s);
  hid_write := script_write;
  hid_read := script_read;
  hid_close := fun s => s
|}.

Section Launcher.

Context {B : Type} {hid : HidApi B}.

Record world : Type := mkWorld {
  bus    : B;
  trace  : list event;
  stderr : list string;
  stdout : list string
}.

(** State passing over the world. *)
Definition io (A : Type) : Type := world -> A * world.

Definition ret {A : Type} (a : A) : io A := fun w => (a, w).

Definition bind {A C : Type} (m : io A) (k : A -> io C) : io C :=
  fun w => let (a, w1) := m w in k a w1.

Notation "x <- m ;; k" := (bind m (fun x => k))
  (at level 61, m at next level, right associativity).
Notation "m ;;; k" := (bind m (fun _ => k))
  (at level 61, right associativity).

Definition emit (e : event) (b : B) (w : world) : world :=
  mkWorld b (trace w ++ [e]) (stderr w) (stdout w).

Definition io_hid_open (vid pid : Z) : io bool := fun w =>
  let (ok, b) := hid_open vid pid (bus w) in (ok, emit (HidOpen vid pid ok) b w).

Definition io_hid_write (buf : list Z) : io Z := fun w =>
  let (r, b) := hid_write buf (bus w) in (r, emit (HidWrite buf r) b w).

Definition io_hid_read (len : Z) : io (Z * list Z) := fun w =>
  let '(r, data, b) := hid_read len (bus w) in
  ((r, data), emit (HidRead len r data) b w).

Definition io_hid_close : io unit := fun w =>
  (tt, emit HidClose (hid_close (bus w)) w).

Definition usleep (us : Z) : io unit := fun w =>
  (tt, emit (Usleep us) (bus w) w).

(** One line written to the error stream by [fprintf(stderr, ...)] and
    to the output stream by [printf]; the newline is left out. *)
Definition eprintln (line : string) : io unit := fun w =>
  (tt, mkWorld (bus w) (trace w) (stderr w ++ [line]) (stdout w)).

Definition println (line : string) : io unit := fun w =>
  (tt, mkWorld (bus w) (trace w) (stderr w) (stdout w ++ [line])).

(** ** The driver *)

(** [send_command]: the two-byte output report. *)
Definition send_command (cmd : Z) : io Z :=
  let buf := [0; uint8 cmd] in
  r <- io_hid_write buf ;;
  if r <? 0
  then eprintln "Output report write failed" ;;; ret (-1)
  else ret 0.

(** A one-byte buffer after [hid_read] copied [data] into it. *)
Definition stored (data : list Z) (old : Z) : Z :=
  match data with
  | [] => old
  | b :: _ => uint8 b
  end.

(** [get_status]: [status] is the caller's byte, passed in and out. *)
Definition get_status (status : Z) : io (Z * Z) :=
  r <- send_command CMD_GET_STATUS ;;
  if negb (r =? 0)
  then eprintln "Failed to send command to fetch status" ;;; ret (-1, status)
  else
    rd <- io_hid_read 1 ;;
    let status' := stored (snd rd) status in
    if fst rd <? 0
    then eprintln "Failed to read input report" ;;; ret (-1, status')
    else ret (0, status').

(** The C truth value of [status & mask]. *)
Definition flag (status mask : Z) : bool := negb (Z.land status mask =? 0).

Definition bool_str (b : bool) : string := if b then "true" else "false".

(** [print_status]; [junk] is the indeterminate initial content of
    the local [status]. *)
Definition print_status (junk : Z) : io Z :=
  rs <- get_status junk ;;
  let status := snd rs in
  if negb (fst rs =? 0)
  then eprintln "Failed to retrieve status information" ;;; ret (-1)
  else
    println ("Tilt up limit:      " ++ bool_str (flag status STATUS_UP_LIMIT)) ;;;
    println ("Tilt down limit:    " ++ bool_str (flag status STATUS_DOWN_LIMIT)) ;;;
    println ("Pan left limit:     " ++ bool_str (flag status STATUS_LEFT_LIMIT)) ;;;
    println ("Pan right limit:    " ++ bool_str (flag status STATUS_RIGHT_LIMIT)) ;;;
    println ("Fire complete:      " ++ bool_str (flag status STATUS_DEVICE_FIRED)) ;;;
    ret 0.

(** The [do ... while] loop of [fire_missile].  One unit of fuel is one
    iteration; [None] means the loop is still running when the fuel is
    spent.  The result carries [ret]. *)
Fixpoint fire_poll (fuel : nat) (status : Z) : io (option Z) :=
  match fuel with
  | O => ret None
  | S fuel' =>
      rs <- get_status status ;;
      r <- (if negb (fst rs =? 0)
            then eprintln "Failed to get status" ;;; ret (-1)
            else ret 0) ;;
      if negb (flag (snd rs) STATUS_DEVICE_FIRED) && (r =? 0)
      then fire_poll fuel' (snd rs)
      else ret (Some r)
  end.

(** [fire_missile]; [junk] is the indeterminate initial content of the
    local [status]. *)
Definition fire_missile (fuel : nat) (junk : Z) : io (option Z) :=
  r <- send_command CMD_FIRE ;;
  if negb (r =? 0)
  then eprintln "Failed to perform requested movement" ;;; ret (Some (-1))
  else
    polled <- fire_poll fuel junk ;;
    match polled with
    | None => ret None
    | Some r1 =>
        if r1 =? 0
        then
          usleep FIRE_HOLD_TIME_US ;;;
          r2 <- send_command CMD_STOP ;;
          if negb (r2 =? 0)
          then eprintln "Failed to stop firing" ;;; ret (Some (-1))
          else ret (Some 0)
        else ret (Some r1)
    end.

Definition move_turret (m : movement) (duration : Z) : io Z :=
  match movement_cmd m with
  | None => eprintln "Unrecognized movement" ;;; ret (-1)
  | Some cmd =>
      r <- send_command cmd ;;
      if negb (r =? 0)
      then eprintln "Failed to perform requested movement" ;;; ret (-1)
      else
        usleep duration ;;;
        r2 <- send_command CMD_STOP ;;
        if negb (r2 =? 0)
        then eprintln "Failed to stop movement" ;;; ret (-1)
        else ret 0
  end.

(** ** Command line *)

(** [parse_opt]: [arg] is [None] for a null pointer; [arg_num] is
    [state->arg_num]. *)
Definition parse_opt (key : Z) (arg : option string) (arg_num : Z)
    (a : arguments) : io parsed :=
  if key =? code "m" then
    match arg with
    | None => ret NullDeref
    | Some s =>
        if (s =? "up")%string then ret (Returned 0 (set_movement MOVEMENT_TILT_UP a))
        else if (s =? "down")%string then ret (Returned 0 (set_movement MOVEMENT_TILT_DOWN a))
        else if (s =? "left")%string then ret (Returned 0 (set_movement MOVEMENT_PAN_LEFT a))
        else if (s =? "right")%string then ret (Returned 0 (set_movement MOVEMENT_PAN_RIGHT a))
        else eprintln ("Invalid movement: " ++ s) ;;; ret UsageExit
    end
  else if key =? code "f" then ret (Returned 0 (set_fire a))
  else if key =? code "t" then
    match arg with
    | None => ret NullDeref
    | Some s =>
        let (duration_ms, endptr) := strtoul s in
        (* [arg != '\0'] compares the pointer, not the first character *)
        let arg_not_null := match arg with Some _ => true | None => false end in
        if arg_not_null && (endptr =? EmptyString)%string && (duration_ms <? 10000)
        then ret (Returned 0 (set_duration (useconds (duration_ms * 1000)) a))
        else eprintln "Invalid duration specified" ;;; ret UsageExit
    end
  else if key =? code "p" then ret (Returned 0 (set_display_status a))
  else if key =? ARGP_KEY_ARG then
    if 0 <=? arg_num then ret UsageExit else ret (Returned 0 a)
  else ret (Returned ARGP_ERR_UNKNOWN a).

(** [argp_parse] of the C library, as far as this program sees it: the
    callback is run on each option of the command line, in order, with
    the option's key and argument; the first usage error ends the
    process.  [opts] is the command line as split by the library; a
    positional argument has key [ARGP_KEY_ARG]. *)
Fixpoint argp_parse (opts : list (Z * option string)) (a : arguments)
  : io (parsed) :=
  match opts with
  | [] => ret (Returned 0 a)
  | (key, arg) :: opts' =>
      p <- parse_opt key arg 0 a ;;
      match p with
      | Returned _ a' => argp_parse opts' a'
      | stop => ret stop
      end
  end.

(** The three conditional blocks of [main] on an open device; [r] is
    the value of [main]'s [ret] on entry, the result its value on exit.
    [junk_f] and [junk_p] are the indeterminate initial contents of the
    [status] locals of [fire_missile] and [print_status]. *)
Definition main_move (a : arguments) (r : Z) : io Z :=
  if negb (is_none (arg_movement a))
  then
    rm <- move_turret (arg_movement a) (movement_duration a) ;;
    if negb (rm =? 0)
    then eprintln "Failed to move turret" ;;; ret EXIT_FAILURE
    else ret r
  else ret r.

Definition main_fire (fuel : nat) (junk_f : Z) (a : arguments) (r : Z)
  : io (option Z) :=
  if fire a && (r =? EXIT_SUCCESS)
  then
    rf <- fire_missile fuel junk_f ;;
    match rf with
    | None => ret None
    | Some rf =>
        if negb (rf =? 0)
        then eprintln "Failed to fire missile" ;;; ret (Some EXIT_FAILURE)
        else ret (Some r)
    end
  else ret (Some r).

Definition main_status (junk_p : Z) (a : arguments) (r : Z) : io Z :=
  if display_status a && (r =? EXIT_SUCCESS)
  then
    rp <- print_status junk_p ;;
    if negb (rp =? 0)
    then eprintln "Failed to print status information" ;;; ret EXIT_FAILURE
    else ret r
  else ret r.

(** [main] from [hid_open] on. *)
Definition main_device (fuel : nat) (junk_f junk_p : Z) (a : arguments)
  : io run :=
  opened <- io_hid_open LAUNCHER_VID LAUNCHER_PID ;;
  if negb opened
  then eprintln "Failed to open requested device" ;;; ret (Exit EXIT_FAILURE)
  else
    r1 <- main_move a EXIT_SUCCESS ;;
    r2 <- main_fire fuel junk_f a r1 ;;
    match r2 with
    | None => ret Polling
    | Some r2 =>
        r3 <- main_status junk_p a r2 ;;
        io_hid_close ;;; ret (Exit r3)
    end.

(** [main]: the defaults, the command line, then the device.  A usage
    error ends the process with [EX_USAGE] before the device is opened. *)
Definition main (fuel : nat) (junk_f junk_p : Z)
    (opts : list (Z * option string)) : io run :=
  p <- argp_parse opts default_arguments ;;
  match p with
  | Returned _ a => main_device fuel junk_f junk_p a
  | UsageExit => ret (Exit EX_USAGE)
  | NullDeref => ret Undefined
  end.

End Launcher.

(** ** Shapes of the traces *)

Definition GET_STATUS_REPORT : list Z := [0; CMD_GET_STATUS].
Definition FIRE_REPORT : list Z := [0; CMD_FIRE].
Definition STOP_REPORT : list Z := [0; CMD_STOP].

(** [ret] after a [send_command] whose write returned [r]. *)
Definition sent (r : Z) : Z := if r <? 0 then -1 else 0.

(** The polling loop started with the byte [st] in [status]: round trips
    of a status request and a one-byte read.  The loop goes round again
    on a clear fired bit, ends with [Some 0] on a set one and with
    [Some (-1)] on the first failed call; [None] is a loop still
    running. *)
Inductive polls : Z -> list event -> option Z -> Prop :=
| polls_running st :
    polls st [] None
| polls_write_failed st rw :
    rw < 0 ->
    polls st [HidWrite GET_STATUS_REPORT rw] (Some (-1))
| polls_read_failed st rw rr data :
    0 <= rw -> rr < 0 ->
    polls st [HidWrite GET_STATUS_REPORT rw; HidRead 1 rr data] (Some (-1))
| polls_fired st rw rr data :
    0 <= rw -> 0 <= rr ->
    flag (stored data st) STATUS_DEVICE_FIRED = true ->
    polls st [HidWrite GET_STATUS_REPORT rw; HidRead 1 rr data] (Some 0)
| polls_again st rw rr data tr res :
    0 <= rw -> 0 <= rr ->
    flag (stored data st) STATUS_DEVICE_FIRED = false ->
    polls (stored data st) tr res ->
    polls st (HidWrite GET_STATUS_REPORT rw :: HidRead 1 rr data :: tr) res.

(** A run of [fire_missile]. *)
Inductive fire_run (junk : Z) : list event -> option Z -> Prop :=
| fire_not_sent r :
    r < 0 ->
    fire_run junk [HidWrite FIRE_REPORT r] (Some (-1))
| fire_polling r tr :
    0 <= r -> polls junk tr None ->
    fire_run junk (HidWrite FIRE_REPORT r :: tr) None
| fire_poll_failed r tr :
    0 <= r -> polls junk tr (Some (-1)) ->
    fire_run junk (HidWrite FIRE_REPORT r :: tr) (Some (-1))
| fire_stopped r tr rs :
    0 <= r -> polls junk tr (Some 0) ->
    fire_run junk
      (HidWrite FIRE_REPORT r :: tr ++ [Usleep FIRE_HOLD_TIME_US; HidWrite STOP_REPORT rs])
      (Some (sent rs)).

(** A run of [move_turret] with the command byte [cmd]. *)
Inductive move_run (cmd duration : Z) : list event -> Z -> Prop :=
| move_not_sent r :
    r < 0 ->
    move_run cmd duration [HidWrite [0; cmd] r] (-1)
| move_stopped r rs :
    0 <= r ->
    move_run cmd duration
      [HidWrite [0; cmd] r; Usleep duration; HidWrite STOP_REPORT rs] (sent rs).

(** A run of [print_status]. *)
Inductive status_run : list event -> Z -> Prop :=
| status_not_sent rw :
    rw < 0 ->
    status_run [HidWrite GET_STATUS_REPORT rw] (-1)
| status_read rw rr data :
    0 <= rw ->
    status_run [HidWrite GET_STATUS_REPORT rw; HidRead 1 rr data] (sent rr).

(** The three steps of [main] on an open device.  Each carries the
    running [ret] of [main] (0 or -1 here) from the step before. *)
Definition move_step (a : arguments) (tr : list event) (r : Z) : Prop :=
  (arg_movement a = MOVEMENT_NONE /\ tr = [] /\ r = 0) \/
  (exists cmd, movement_cmd (arg_movement a) = Some cmd /\
               move_run cmd (movement_duration a) tr r).

Definition fire_step (a : arguments) (junk r0 : Z) (tr : list event)
    (r : option Z) : Prop :=
  ((fire a = false \/ r0 <> 0) /\ tr = [] /\ r = Some r0) \/
  (fire a = true /\ r0 = 0 /\ fire_run junk tr r).

Definition status_step (a : arguments) (r0 : Z) (tr : list event) (r : Z)
  : Prop :=
  ((display_status a = false \/ r0 <> 0) /\ tr = [] /\ r = r0) \/
  (display_status a = true /\ r0 = 0 /\ status_run tr r).

Definition exit_status (r : Z) : Z :=
  if r =? 0 then EXIT_SUCCESS else EXIT_FAILURE.

(** A run of [main] from [hid_open] on. *)
Definition device_run (a : arguments) (junk_f : Z) (tr : list event)
    (res : run) : Prop :=
  exists opened rest,
    tr = HidOpen LAUNCHER_VID LAUNCHER_PID opened :: rest /\
    if opened : bool
    then
      exists tm rm tf rf,
        move_step a tm rm /\ fire_step a junk_f rm tf rf /\
        match rf with
        | None => rest = tm ++ tf /\ res = Polling
        | Some r1 =>
            exists ts r2,
              status_step a r1 ts r2 /\
              rest = tm ++ tf ++ ts ++ [HidClose] /\
              res = Exit (exit_status r2)
        end
    else rest = [] /\ res = Exit EXIT_FAILURE.

(** Scripts used to run the driver, and the world a run starts in. *)
Definition always_ok : script := mkScript true [] [].
Definition first_write_fails : script := mkScript true [-1] [].
Definition three_polls_then_fired : script :=
  mkScript true [] [(1, [0]); (1, [0]); (1, [0]); (1, [0x10])].
Definition second_read_fails : script :=
  mkScript true [] [(1, [0]); (-1, [])].

Definition start (s : script) : @world script := mkWorld s [] [] [].

(** ** The protocol in the words of the specification *)

Module Spec.

Inductive command : Type :=
| MoveDown | MoveUp | MoveLeft | MoveRight | Fire | Stop | GetStatus.

Definition wire (c : command) : Z :=
  match c with
  | MoveDown => 0x01
  | MoveUp => 0x02
  | MoveLeft => 0x04
  | MoveRight => 0x08
  | Fire => 0x10
  | Stop => 0x20
  | GetStatus => 0x40
  end.

(** [encode(command)]: the report number, then the wire value. *)
Definition encode (c : command) : list Z := [0x00; wire c].

Record StatusReport : Type := mkStatusReport {
  up_limit    : bool;
  down_limit  : bool;
  left_limit  : bool;
  right_limit : bool;
  fired       : bool
}.

(** [decode(byte)]: each flag is [(byte & mask) != 0]. *)
Definition decode (byte : Z) : StatusReport :=
  {| up_limit    := negb (Z.land byte 0x02 =? 0);
     down_limit  := negb (Z.land byte 0x01 =? 0);
     left_limit  := negb (Z.land byte 0x04 =? 0);
     right_limit := negb (Z.land byte 0x08 =? 0);
     fired       := negb (Z.land byte 0x10 =? 0) |}.

End Spec.

(** The macro of the source that stands for a command. *)
Definition macro (c : Spec.command) : Z :=
  match c with
  | Spec.MoveDown => CMD_MOVE_DOWN
  | Spec.MoveUp => CMD_MOVE_UP
  | Spec.MoveLeft => CMD_MOVE_LEFT
  | Spec.MoveRight => CMD_MOVE_RIGHT
  | Spec.Fire => CMD_FIRE
  | Spec.Stop => CMD_STOP
  | Spec.GetStatus => CMD_GET_STATUS
  end.

(** The command that moves in a direction. *)
Definition move_command (m : movement) : option Spec.command :=
  match m with
  | MOVEMENT_TILT_UP => Some Spec.MoveUp
  | MOVEMENT_TILT_DOWN => Some Spec.MoveDown
  | MOVEMENT_PAN_LEFT => Some Spec.MoveLeft
  | MOVEMENT_PAN_RIGHT => Some Spec.MoveRight
  | MOVEMENT_NONE => None
  end.

(** The five lines [print_status] prints for a status report. *)
Definition status_lines (s : Spec.StatusReport) : list string :=
  [ ("Tilt up limit:      " ++ bool_str (Spec.up_limit s))%string;
    ("Tilt down limit:    " ++ bool_str (Spec.down_limit s))%string;
    ("Pan left limit:     " ++ bool_str (Spec.left_limit s))%string;
    ("Pan right limit:    " ++ bool_str (Spec.right_limit s))%string;
    ("Fire complete:      " ++ bool_str (Spec.fired s))%string ].

Definition status_report_eqb (s t : Spec.StatusReport) : bool :=
  Bool.eqb (Spec.up_limit s) (Spec.up_limit t) &&
  Bool.eqb (Spec.down_limit s) (Spec.down_limit t) &&
  Bool.eqb (Spec.left_limit s) (Spec.left_limit t) &&
  Bool.eqb (Spec.right_limit s) (Spec.right_limit t) &&
  Bool.eqb (Spec.fired s) (Spec.fired t).

(** Bytes 0 to 255. *)
Definition all_bytes : list Z := map Z.of_nat (seq 0 256).

(** ** Observers of a trace *)

(** A write of one of the seven two-byte reports; other events pass. *)
Definition is_report (e : event) : bool :=
  match e with
  | HidWrite buf _ =>
      existsb (fun c => if list_eq_dec Z.eq_dec buf (Spec.encode c) then true else false)
        [Spec.MoveDown; Spec.MoveUp; Spec.MoveLeft; Spec.MoveRight;
         Spec.Fire; Spec.Stop; Spec.GetStatus]
  | _ => true
  end.

(** A library call that reported an error. *)
Definition call_ok (e : event) : bool :=
  match e with
  | HidWrite _ r => 0 <=? r
  | HidRead _ r _ => 0 <=? r
  | _ => true
  end.

(** A failed call of a status round trip: the status request or the read. *)
Definition poll_failed (e : event) : bool :=
  match e with
  | HidWrite [z; c] r => (z =? 0) && (c =? CMD_GET_STATUS) && (r <? 0)
  | HidRead _ r _ => r <? 0
  | _ => false
  end.

(** Only status requests and one-byte reads occur while polling. *)
Definition is_poll_event (e : event) : bool :=
  match e with
  | HidWrite [z; c] _ => (z =? 0) && (c =? CMD_GET_STATUS)
  | HidRead len _ _ => len =? 1
  | _ => false
  end.

Definition is_write_of (cmd : Z) (e : event) : bool :=
  match e with
  | HidWrite [_; c] _ => c =? cmd
  | _ => false
  end.

Definition is_read (e : event) : bool :=
  match e with HidRead _ _ _ => true | _ => false end.

Definition is_sleep (e : event) : bool :=
  match e with Usleep _ => true | _ => false end.

Definition is_close (e : event) : bool :=
  match e with HidClose => true | _ => false end.

Definition count (p : event -> bool) (tr : list event) : nat :=
  List.length (filter p tr).

Definition is_motion (c : Z) : bool :=
  (c =? CMD_MOVE_DOWN) || (c =? CMD_MOVE_UP) || (c =? CMD_MOVE_LEFT) ||
  (c =? CMD_MOVE_RIGHT) || (c =? CMD_FIRE).

(** The start/stop framing of a trace.  [active] says that a Move or
    Fire report was written and no Stop report has been written with
    success since.  The result is [None] when a Move or Fire report is
    written while one is active, and the final [active] otherwise. *)
Fixpoint outstanding (active : bool) (tr : list event) : option bool :=
  match tr with
  | [] => Some active
  | HidWrite [_; c] r :: tr' =>
      if is_motion c then (if active then None else outstanding true tr')
      else if (c =? CMD_STOP) && (0 <=? r) then outstanding false tr'
      else outstanding active tr'
  | _ :: tr' => outstanding active tr'
  end.

(** ** Further observers *)

(** Reads answer requests.  [requested] says that the event before was
    a GetStatus report written with success.  The result is [None] when
    a read occurs without such a request right before it, and the final
    [requested] otherwise. *)
Fixpoint answering (requested : bool) (tr : list event) : option bool :=
  match tr with
  | [] => Some requested
  | HidRead _ _ _ :: tr' => if requested then answering false tr' else None
  | HidWrite [z; c] r :: tr' =>
      answering ((z =? 0) && (c =? CMD_GET_STATUS) && (0 <=? r)) tr'
  | _ :: tr' => answering false tr'
  end.

(** Total time asked of [usleep], in microseconds. *)
Fixpoint slept (tr : list event) : Z :=
  match tr with
  | [] => 0
  | Usleep us :: tr' => us + slept tr'
  | _ :: tr' => slept tr'
  end.

(** A bus whose successful reads always deliver a byte: the status
    bytes to come, [None] for a read that fails.  Writes succeed. *)
Definition filling_read (len : Z) (s : list (option Z))
  : (Z * list Z) * list (option Z) :=
  match s with
  | [] => ((1, [STATUS_DEVICE_FIRED]), [])
  | Some x :: s' => ((1, [x]), s')
  | None :: s' => ((-1, []), s')
  end.

#[export] Instance filling : HidApi (list (option Z)) := {|
  hid_open := fun _ _ s => (true, s);
  hid_write := fun buf s => (Z.of_nat (List.length buf), s);
  hid_read := filling_read;
  hid_close := fun s => s
|}.

(** Numerals: the character of a digit (letters from ten on), a string
    of digits, most significant first, its value in a base, and a
    string of white space. *)
Definition digit_char (d : Z) : ascii :=
  ascii_of_N (Z.to_N (if d <? 10 then 48 + d else 87 + d)).

Fixpoint numeral (ds : list Z) : string :=
  match ds with
  | [] => EmptyString
  | d :: ds' => String (digit_char d) (numeral ds')
  end.

Definition numeral_value (base : Z) (ds : list Z) : Z :=
  fold_left (fun acc d => acc * base + d) ds 0.

Definition digits_below (base : Z) (ds : list Z) : Prop :=
  Forall (fun d => 0 <= d < base) ds.

Fixpoint white (cs : list ascii) : string :=
  match cs with
  | [] => EmptyString
  | c :: cs' => String c (white cs')
  end.

(** A string at which a run of digits of [base] ends. *)
Definition stops (base : Z) (tail : string) : Prop :=
  match tail with
  | EmptyString => True
  | String c _ => is_digit_of base c = false
  end.

(** The world after [line] was written to the error stream. *)
Definition complained {B : Type} (line : string) (w : @world B) : @world B :=
  mkWorld (bus w) (trace w) (stderr w ++ [line]) (stdout w).

(** Options of a command line by key, and command lines as the argument
    parser hands them over: the move and time options carry an
    argument. *)
Definition has_key (c : ascii) (opts : list (Z * option string)) : bool :=
  existsb (fun o => fst o =? code c) opts.


(** A duration of a whole number of milliseconds below ten seconds. *)
Definition whole_ms (d : Z) : Prop :=
  exists q, 0 <= q < 10000 /\ d = 1000 * q.

(** A write of one of the four Move reports. *)
Definition is_move_write (e : event) : bool :=
  match e with
  | HidWrite [_; c] _ =>
      (c =? CMD_MOVE_DOWN) || (c =? CMD_MOVE_UP) || (c =? CMD_MOVE_LEFT) ||
      (c =? CMD_MOVE_RIGHT)
  | _ => false
  end.

(** ** Facts about the driver *)

Section Runs.

Context {B : Type} {hid : HidApi B}.

(** One status round trip on the bus, as [get_status] drives it: the
    status byte and the bus after it, or [None] when a call fails. *)
Definition poll_bus (st : Z) (b : B) : option (Z * B) :=
  let (rw, b1) := hid_write GET_STATUS_REPORT b in
  if rw <? 0 then None
  else
    let '(rr, data, b2) := hid_read 1 b1 in
    if rr <? 0 then None else Some (stored data st, b2).

(** The bus answers [n] round trips with a clear fired bit and the next
    one with the bit set. *)
Fixpoint fires_on_poll (n : nat) (st : Z) (b : B) : bool :=
  match poll_bus st b with
  | None => false
  | Some (st', b') =>
      match n with
      | O => flag st' STATUS_DEVICE_FIRED
      | S n' => negb (flag st' STATUS_DEVICE_FIRED) && fires_on_poll n' st' b'
      end
  end.

Lemma send_command_eq (cmd : Z) (w : world) :
  send_command cmd w =
  let (r, b) := hid_write [0; uint8 cmd] (bus w) in
  (sent r,
   mkWorld b (trace w ++ [HidWrite [0; uint8 cmd] r])
     (if r <? 0 then stderr w ++ ["Output report write failed"%string] else stderr w)
     (stdout w)).
Proof.
  unfold send_command, bind, io_hid_write, sent.
  destruct (hid_write [0; uint8 cmd] (bus w)) as [r b].
  destruct (r <? 0); reflexivity.
Qed.

Lemma sent_cases (r : Z) :
  (r < 0 /\ sent r = -1) \/ (0 <= r /\ sent r = 0).
Proof.
  unfold sent. destruct (Z.ltb_spec r 0); [left | right]; split; auto.
Qed.

Lemma sent_zero (r : Z) : sent r = 0 <-> 0 <= r.
Proof. destruct (sent_cases r) as [[? ->] | [? ->]]; split; intros; try lia. Qed.

Lemma get_status_eq (st : Z) (w : world) :
  get_status st w =
  let (rw, b1) := hid_write GET_STATUS_REPORT (bus w) in
  if rw <? 0
  then (-1, st,
        mkWorld b1 (trace w ++ [HidWrite GET_STATUS_REPORT rw])
          (stderr w ++ ["Output report write failed"; "Failed to send command to fetch status"]%string)
          (stdout w))
  else
    let '(rr, data, b2) := hid_read 1 b1 in
    (sent rr, stored data st,
     mkWorld b2 (trace w ++ [HidWrite GET_STATUS_REPORT rw; HidRead 1 rr data])
       (if rr <? 0 then stderr w ++ ["Failed to read input report"%string] else stderr w)
       (stdout w)).
Proof.
  unfold get_status, bind. rewrite send_command_eq.
  change [0; uint8 CMD_GET_STATUS] with GET_STATUS_REPORT.
  destruct (hid_write GET_STATUS_REPORT (bus w)) as [rw b1].
  unfold sent. destruct (rw <? 0); cbn.
  - rewrite <- app_assoc. reflexivity.
  - unfold io_hid_read; cbn. destruct (hid_read 1 b1) as [[rr data] b2]; cbn.
    destruct (rr <? 0); unfold ret, emit; cbn; rewrite <- app_assoc; reflexivity.
Qed.

Lemma polls_result (st : Z) (tr : list event) (r : Z) :
  polls st tr (Some r) -> r = 0 \/ r = -1.
Proof.
  intros H. remember (Some r) as res eqn:E.
  induction H; try discriminate; try (injection E as <-); auto.
Qed.

Lemma fire_poll_run (fuel : nat) : forall (st : Z) (w : world),
  exists tr,
    trace (snd (fire_poll fuel st w)) = trace w ++ tr /\
    polls st tr (fst (fire_poll fuel st w)) /\
    stdout (snd (fire_poll fuel st w)) = stdout w.
Proof.
  induction fuel as [|fuel IH]; intros st w.
  - exists []. cbn. rewrite app_nil_r. repeat split. constructor.
  - cbn [fire_poll]. unfold bind. rewrite get_status_eq.
    destruct (hid_write GET_STATUS_REPORT (bus w)) as [rw b1].
    destruct (Z.ltb_spec rw 0) as [Hw|Hw].
    + cbn. rewrite Bool.andb_false_r. cbn.
      exists [HidWrite GET_STATUS_REPORT rw]. repeat split.
      now constructor.
    + destruct (hid_read 1 b1) as [[rr data] b2]. unfold sent.
      destruct (Z.ltb_spec rr 0) as [Hr|Hr].
      * cbn. rewrite Bool.andb_false_r. cbn.
        exists [HidWrite GET_STATUS_REPORT rw; HidRead 1 rr data]. repeat split.
        now constructor.
      * cbn. rewrite Bool.andb_true_r.
        destruct (flag (stored data st) STATUS_DEVICE_FIRED) eqn:F; cbn.
        -- exists [HidWrite GET_STATUS_REPORT rw; HidRead 1 rr data]. repeat split.
           now constructor.
        -- match goal with |- context [fire_poll fuel ?s ?w1] =>
             destruct (IH s w1) as (tr & Ht & Hp & Ho)
           end.
           exists (HidWrite GET_STATUS_REPORT rw :: HidRead 1 rr data :: tr).
           rewrite Ht, Ho. cbn. rewrite <- app_assoc. repeat split.
           now constructor.
Qed.

Lemma fire_missile_run (fuel : nat) (junk : Z) (w : world) :
  exists tr,
    trace (snd (fire_missile fuel junk w)) = trace w ++ tr /\
    fire_run junk tr (fst (fire_missile fuel junk w)) /\
    stdout (snd (fire_missile fuel junk w)) = stdout w.
Proof.
  unfold fire_missile, bind. rewrite send_command_eq.
  change [0; uint8 CMD_FIRE] with FIRE_REPORT.
  destruct (hid_write FIRE_REPORT (bus w)) as [r b1].
  destruct (sent_cases r) as [[Hr Es] | [Hr Es]]; rewrite Es; cbn.
  - exists [HidWrite FIRE_REPORT r]. repeat split. now constructor.
  - match goal with |- context [fire_poll fuel junk ?w1] =>
      destruct (fire_poll_run fuel junk w1) as (tr & Ht & Hp & Ho);
      destruct (fire_poll fuel junk w1) as [[r1|] w2]
    end; cbn in Ht, Hp, Ho; rewrite <- app_assoc in Ht; cbn in Ht.
    + destruct (polls_result _ _ _ Hp) as [-> | ->]; cbn.
      * rewrite send_command_eq.
        change [0; uint8 CMD_STOP] with STOP_REPORT. cbn.
        destruct (hid_write STOP_REPORT (bus w2)) as [rs b3].
        exists (HidWrite FIRE_REPORT r :: tr ++ [Usleep FIRE_HOLD_TIME_US; HidWrite STOP_REPORT rs]).
        destruct (sent_cases rs) as [[Hs Ers] | [Hs Ers]]; rewrite Ers; cbn;
          rewrite Ht; rewrite <- !app_assoc; cbn;
          (repeat split; [ | assumption ]);
          pose proof (fire_stopped junk r tr rs Hr Hp) as H; rewrite Ers in H; exact H.
      * exists (HidWrite FIRE_REPORT r :: tr). repeat split; try assumption.
        now constructor.
    + exists (HidWrite FIRE_REPORT r :: tr). repeat split; try assumption.
      now constructor.
Qed.

Lemma move_turret_run (m : movement) (duration cmd : Z) (w : world) :
  movement_cmd m = Some cmd ->
  exists tr,
    trace (snd (move_turret m duration w)) = trace w ++ tr /\
    move_run cmd duration tr (fst (move_turret m duration w)) /\
    stdout (snd (move_turret m duration w)) = stdout w.
Proof.
  intros Hm. unfold move_turret, bind. rewrite Hm. rewrite send_command_eq.
  assert (Hc : uint8 cmd = cmd).
  { destruct m; inversion Hm; reflexivity. }
  rewrite Hc.
  destruct (hid_write [0; cmd] (bus w)) as [r b1].
  destruct (sent_cases r) as [[Hr Es] | [Hr Es]]; rewrite Es; cbn.
  - exists [HidWrite [0; cmd] r]. repeat split. now constructor.
  - rewrite send_command_eq. change [0; uint8 CMD_STOP] with STOP_REPORT. cbn.
    destruct (hid_write STOP_REPORT b1) as [rs b2].
    exists [HidWrite [0; cmd] r; Usleep duration; HidWrite STOP_REPORT rs].
    destruct (sent_cases rs) as [[Hs Ers] | [Hs Ers]]; rewrite Ers; cbn;
      rewrite <- !app_assoc; cbn; (repeat split);
      pose proof (move_stopped cmd duration r rs Hr) as H; rewrite Ers in H; exact H.
Qed.

Lemma print_status_run (junk : Z) (w : world) :
  exists tr,
    trace (snd (print_status junk w)) = trace w ++ tr /\
    status_run tr (fst (print_status junk w)).
Proof.
  unfold print_status, bind. rewrite get_status_eq.
  destruct (hid_write GET_STATUS_REPORT (bus w)) as [rw b1].
  destruct (Z.ltb_spec rw 0) as [Hw|Hw].
  - cbn. exists [HidWrite GET_STATUS_REPORT rw]. split; [reflexivity|].
    now constructor.
  - destruct (hid_read 1 b1) as [[rr data] b2].
    exists [HidWrite GET_STATUS_REPORT rw; HidRead 1 rr data].
    pose proof (status_read rw rr data Hw) as H.
    destruct (sent_cases rr) as [[Hr Er] | [Hr Er]]; rewrite Er in *; cbn;
      (split; [reflexivity|]); exact H.
Qed.

Lemma move_run_result (cmd d : Z) (tr : list event) (r : Z) :
  move_run cmd d tr r -> r = 0 \/ r = -1.
Proof.
  intros [ | ? rs ]; auto. destruct (sent_cases rs) as [[_ ->] | [_ ->]]; auto.
Qed.

Lemma status_run_result (tr : list event) (r : Z) :
  status_run tr r -> r = 0 \/ r = -1.
Proof.
  intros [ | ? rr ]; auto. destruct (sent_cases rr) as [[_ ->] | [_ ->]]; auto.
Qed.

Lemma fire_run_result (junk : Z) (tr : list event) (r : Z) :
  fire_run junk tr (Some r) -> r = 0 \/ r = -1.
Proof.
  intros H. inversion H; subst; auto.
  destruct (sent_cases rs) as [[_ ->] | [_ ->]]; auto.
Qed.

Lemma exit_status_cases (r : Z) :
  r = 0 \/ r = -1 ->
  (r = 0 /\ exit_status r = EXIT_SUCCESS) \/ (r = -1 /\ exit_status r = EXIT_FAILURE).
Proof. intros [-> | ->]; [left | right]; split; reflexivity. Qed.

Lemma main_move_run (a : arguments) (w : world) :
  exists tm rm,
    trace (snd (main_move a EXIT_SUCCESS w)) = trace w ++ tm /\
    move_step a tm rm /\
    fst (main_move a EXIT_SUCCESS w) = exit_status rm /\
    (rm = 0 \/ rm = -1).
Proof.
  unfold main_move.
  destruct (movement_cmd (arg_movement a)) as [cmd|] eqn:Hc.
  - replace (is_none (arg_movement a)) with false
      by (destruct (arg_movement a); [discriminate Hc | reflexivity ..]).
    cbn. unfold bind.
    destruct (move_turret_run _ (movement_duration a) _ w Hc) as (tm & Ht & Hr & _).
    destruct (move_turret (arg_movement a) (movement_duration a) w) as [rm w1].
    cbn in Ht, Hr. exists tm, rm.
    pose proof (move_run_result _ _ _ _ Hr) as Hrm.
    destruct Hrm as [-> | ->]; cbn; repeat split; auto; right; exists cmd; auto.
  - assert (Ha : arg_movement a = MOVEMENT_NONE)
      by (destruct (arg_movement a); [reflexivity | discriminate Hc ..]).
    rewrite Ha. cbn. exists [], 0. rewrite app_nil_r. repeat split; auto.
    left; auto.
Qed.

Lemma main_fire_run (fuel : nat) (junk : Z) (a : arguments) (rm : Z) (w : world) :
  rm = 0 \/ rm = -1 ->
  exists tf rf,
    trace (snd (main_fire fuel junk a (exit_status rm) w)) = trace w ++ tf /\
    fire_step a junk rm tf rf /\
    fst (main_fire fuel junk a (exit_status rm) w) = option_map exit_status rf /\
    (forall r, rf = Some r -> r = 0 \/ r = -1).
Proof.
  intros Hrm. unfold main_fire.
  destruct (fire a) eqn:Hf; cbn [andb].
  - destruct Hrm as [-> | ->]; cbn.
    + unfold bind.
      destruct (fire_missile_run fuel junk w) as (tf & Ht & Hr & _).
      destruct (fire_missile fuel junk w) as [[rf|] w1]; cbn in Ht, Hr.
      * exists tf, (Some rf).
        destruct (fire_run_result _ _ _ Hr) as [-> | ->]; cbn;
          (repeat split; auto; [right; auto | intros ? [= <-]; auto]).
      * exists tf, None. cbn. repeat split; auto; [right; auto | discriminate].
    + exists [], (Some (-1)). rewrite app_nil_r. repeat split; auto.
      * left. repeat split; auto. right; lia.
      * intros ? [= <-]; auto.
  - exists [], (Some rm). cbn. rewrite app_nil_r. repeat split; auto.
    + left; auto.
    + intros ? [= <-]; auto.
Qed.

Lemma main_status_run (junk : Z) (a : arguments) (r1 : Z) (w : world) :
  r1 = 0 \/ r1 = -1 ->
  exists ts r2,
    trace (snd (main_status junk a (exit_status r1) w)) = trace w ++ ts /\
    status_step a r1 ts r2 /\
    fst (main_status junk a (exit_status r1) w) = exit_status r2.
Proof.
  intros Hr1. unfold main_status.
  destruct (display_status a) eqn:Hd; cbn [andb].
  - destruct Hr1 as [-> | ->]; cbn.
    + unfold bind.
      destruct (print_status_run junk w) as (ts & Ht & Hr).
      destruct (print_status junk w) as [rp w1]; cbn in Ht, Hr.
      exists ts, rp.
      destruct (status_run_result _ _ Hr) as [-> | ->]; cbn;
        (repeat split; auto; right; auto).
    + exists [], (-1). rewrite app_nil_r. repeat split; auto.
      left. repeat split; auto. right; lia.
  - exists [], r1. cbn. rewrite app_nil_r. repeat split; auto. left; auto.
Qed.

Lemma main_device_run (fuel : nat) (junk_f junk_p : Z) (a : arguments) (w : world) :
  exists tr,
    trace (snd (main_device fuel junk_f junk_p a w)) = trace w ++ tr /\
    device_run a junk_f tr (fst (main_device fuel junk_f junk_p a w)).
Proof.
  destruct (main_device fuel junk_f junk_p a w) as [res w'] eqn:E. cbn [fst snd].
  unfold main_device, bind, io_hid_open in E.
  destruct (hid_open LAUNCHER_VID LAUNCHER_PID (bus w)) as [opened b0].
  destruct opened; cbn [negb] in E.
  - set (w0 := emit (HidOpen LAUNCHER_VID LAUNCHER_PID true) b0 w) in E.
    destruct (main_move_run a w0) as (tm & rm & Htm & Hm & Erm & Hrm).
    destruct (main_move a EXIT_SUCCESS w0) as [r1 w1]. cbn in Htm, Erm. subst r1.
    destruct (main_fire_run fuel junk_f a rm w1 Hrm) as (tf & rf & Htf & Hf & Erf & Hrf).
    destruct (main_fire fuel junk_f a (exit_status rm) w1) as [r2 w2].
    cbn in Htf, Erf. subst r2.
    destruct rf as [r1|]; cbn [option_map] in E.
    + destruct (main_status_run junk_p a r1 w2 (Hrf r1 eq_refl)) as (ts & r2 & Hts & Hs & Ers).
      destruct (main_status junk_p a (exit_status r1) w2) as [r3 w3].
      cbn in Hts, Ers. subst r3. cbn in E. injection E as <- <-.
      exists (HidOpen LAUNCHER_VID LAUNCHER_PID true :: tm ++ tf ++ ts ++ [HidClose]).
      split.
      * cbn. rewrite Hts, Htf, Htm. subst w0. cbn. rewrite <- !app_assoc. reflexivity.
      * exists true, (tm ++ tf ++ ts ++ [HidClose]). split; [reflexivity|].
        exists tm, rm, tf, (Some r1). repeat split; auto.
        exists ts, r2. auto.
    + cbn in E. injection E as <- <-.
      exists (HidOpen LAUNCHER_VID LAUNCHER_PID true :: tm ++ tf).
      split.
      * rewrite Htf, Htm. subst w0. cbn. rewrite <- !app_assoc. reflexivity.
      * exists true, (tm ++ tf). split; [reflexivity|].
        exists tm, rm, tf, None. repeat split; auto.
  - cbn in E. injection E as <- <-.
    exists [HidOpen LAUNCHER_VID LAUNCHER_PID false]. split; [reflexivity|].
    exists false, []. repeat split.
Qed.

(** *** Firing *)

Lemma polls_ok (st : Z) (tr : list event) (res : option Z) :
  polls st tr res -> res <> Some (-1) -> forallb call_ok tr = true.
Proof.
  induction 1; intros Hres; try congruence; cbn [forallb call_ok].
  - reflexivity.
  - rewrite !(proj2 (Z.leb_le _ _)) by assumption. reflexivity.
  - rewrite !(proj2 (Z.leb_le _ _)) by assumption. cbn. auto.
Qed.

Lemma polls_failed_last (st : Z) (tr : list event) :
  polls st tr (Some (-1)) ->
  exists pre e,
    tr = pre ++ [e] /\ forallb call_ok pre = true /\ poll_failed e = true.
Proof.
  intros H. remember (Some (-1)) as res eqn:E.
  induction H; try discriminate.
  - exists [], (HidWrite GET_STATUS_REPORT rw). repeat split.
    cbn. now apply Z.ltb_lt.
  - exists [HidWrite GET_STATUS_REPORT rw], (HidRead 1 rr data). repeat split.
    + cbn. rewrite (proj2 (Z.leb_le _ _)) by assumption. reflexivity.
    + cbn. now apply Z.ltb_lt.
  - destruct (IHpolls E) as (pre & e & -> & Hpre & He).
    exists (HidWrite GET_STATUS_REPORT rw :: HidRead 1 rr data :: pre), e.
    repeat split; auto. cbn [forallb call_ok].
    rewrite !(proj2 (Z.leb_le _ _)) by assumption. exact Hpre.
Qed.

Lemma polls_events (st : Z) (tr : list event) (res : option Z) :
  polls st tr res -> forallb is_poll_event tr = true.
Proof. induction 1; cbn; auto. Qed.

Lemma count_app (p : event -> bool) (l1 l2 : list event) :
  count p (l1 ++ l2) = (count p l1 + count p l2)%nat.
Proof. unfold count. rewrite filter_app, length_app. reflexivity. Qed.

Lemma count_none (p q : event -> bool) (tr : list event) :
  (forall e, q e = true -> p e = false) ->
  forallb q tr = true -> count p tr = 0%nat.
Proof.
  intros Hpq. unfold count. induction tr as [|e tr IH]; cbn; auto.
  intros [He Htr]%Bool.andb_true_iff. rewrite (Hpq _ He). auto.
Qed.

Lemma poll_event_not_sleep (e : event) : is_poll_event e = true -> is_sleep e = false.
Proof. destruct e; cbn; congruence. Qed.

Lemma poll_event_not_close (e : event) : is_poll_event e = true -> is_close e = false.
Proof. destruct e; cbn; congruence. Qed.

Lemma poll_event_not_write_of (cmd : Z) :
  cmd <> CMD_GET_STATUS ->
  forall e : event, is_poll_event e = true -> is_write_of cmd e = false.
Proof.
  intros Hc e. destruct e as [| buf r | | |]; cbn; try congruence.
  destruct buf as [|z [|c [|]]]; try congruence.
  intros [_ ->%Z.eqb_eq]%Bool.andb_true_iff. now apply Z.eqb_neq.
Qed.

Lemma poll_failed_not_ok (e : event) : poll_failed e = true -> call_ok e = false.
Proof.
  destruct e as [| buf r | len r data | |]; cbn; try congruence.
  - destruct buf as [|z [|c [|]]]; try congruence.
    intros [_ H%Z.ltb_lt]%Bool.andb_true_iff. apply Z.leb_gt. exact H.
  - intros H%Z.ltb_lt. apply Z.leb_gt. exact H.
Qed.

(** In a trace whose calls all succeeded up to the last event, a failed
    call can only be that last event. *)
Lemma failed_call_is_last (pre : list event) :
  forall (pre' : list event) (e e' : event) (post : list event),
    pre ++ e :: post = pre' ++ [e'] ->
    forallb call_ok pre' = true -> call_ok e = false ->
    post = [] /\ pre = pre' /\ e = e'.
Proof.
  induction pre as [|x pre IH]; intros pre' e e' post Heq Hok He.
  - destruct pre' as [|y pre']; cbn in *.
    + injection Heq as -> ->. auto.
    + injection Heq as -> _. apply Bool.andb_true_iff in Hok. destruct Hok. congruence.
  - destruct pre' as [|y pre']; cbn in *.
    + injection Heq as _ Heq. destruct pre; discriminate.
    + injection Heq as -> Heq. apply Bool.andb_true_iff in Hok. destruct Hok as [_ Hok].
      destruct (IH _ _ _ _ Heq Hok He) as (-> & -> & ->). auto.
Qed.

Lemma fire_poll_fires (n : nat) : forall (fuel : nat) (st : Z) (w : world),
  fires_on_poll n st (bus w) = true ->
  (n < fuel)%nat ->
  exists tr,
    fst (fire_poll fuel st w) = Some 0 /\
    trace (snd (fire_poll fuel st w)) = trace w ++ tr /\
    polls st tr (Some 0) /\
    count (is_write_of CMD_GET_STATUS) tr = S n /\
    count is_read tr = S n /\
    List.length tr = (2 * S n)%nat.
Proof.
  induction n as [|n IH]; intros fuel st w Hf Hlt;
    (destruct fuel as [|fuel]; [lia|]);
    cbn [fire_poll fires_on_poll] in *; unfold poll_bus in Hf;
    unfold bind; rewrite get_status_eq;
    destruct (hid_write GET_STATUS_REPORT (bus w)) as [rw b1];
    (destruct (Z.ltb_spec rw 0) as [Hw|Hw]; [discriminate|]);
    destruct (hid_read 1 b1) as [[rr data] b2]; unfold sent;
    (destruct (Z.ltb_spec rr 0) as [Hr|Hr]; [discriminate|]); cbn.
  - rewrite Hf. cbn.
    exists [HidWrite GET_STATUS_REPORT rw; HidRead 1 rr data].
    repeat split. now constructor.
  - apply Bool.andb_true_iff in Hf. destruct Hf as [Hflag Hf].
    rewrite Hflag. cbn. apply Bool.negb_true_iff in Hflag.
    match goal with |- context [fire_poll fuel ?s ?w1] =>
      destruct (IH fuel s w1 Hf ltac:(lia)) as (tr & Hres & Htr & Hp & Hc1 & Hc2 & Hlen)
    end.
    exists (HidWrite GET_STATUS_REPORT rw :: HidRead 1 rr data :: tr).
    rewrite Hres, Htr. cbn [trace]. rewrite <- app_assoc.
    repeat split.
    + now constructor.
    + unfold count in *. cbn. rewrite Hc1. reflexivity.
    + unfold count in *. cbn. rewrite Hc2. reflexivity.
    + cbn [List.length]. rewrite Hlen. lia.
Qed.

(** C1: a run of [fire_missile] has the shape [fire_run]: the Fire
    report; if that write succeeds, status round trips (a GetStatus
    report and a one-byte read) for as long as the byte in [status] has
    the fired bit clear and no call fails; once the bit is set, the
    hold time and one Stop report.  The byte in [status] is the byte
    the read delivered ([stored]).  On a bus that, after the Fire write,
    answers [n] round trips with the bit clear and the next with the bit
    set, the run ends (for any fuel above [n]) after exactly [n + 1]
    round trips followed by the sleep and the one Stop write; with
    [n = 3] that is 4 round trips.  A run that ends returns 0 iff every
    call it made succeeded, and then it ends with its only Stop write. *)
Theorem C1_fire :
  (forall (fuel : nat) (junk : Z) (w : world),
      exists tr,
        trace (snd (fire_missile fuel junk w)) = trace w ++ tr /\
        fire_run junk tr (fst (fire_missile fuel junk w))) /\
  (forall (n fuel : nat) (junk : Z) (w : world) (r : Z) (b1 : B),
      hid_write FIRE_REPORT (bus w) = (r, b1) ->
      0 <= r ->
      fires_on_poll n junk b1 = true ->
      (n < fuel)%nat ->
      exists tr rs,
        trace (snd (fire_missile fuel junk w)) =
          trace w ++ HidWrite FIRE_REPORT r ::
                     tr ++ [Usleep FIRE_HOLD_TIME_US; HidWrite STOP_REPORT rs] /\
        polls junk tr (Some 0) /\
        List.length tr = (2 * S n)%nat /\
        count (is_write_of CMD_GET_STATUS) tr = S n /\
        count is_read tr = S n /\
        count (is_write_of CMD_STOP) tr = 0%nat /\
        fst (fire_missile fuel junk w) = Some (sent rs)) /\
  (forall (fuel : nat) (junk : Z) (w : world) (tr : list event) (r : Z),
      trace (snd (fire_missile fuel junk w)) = trace w ++ tr ->
      fst (fire_missile fuel junk w) = Some r ->
      (r = 0 \/ r = -1) /\
      (r = 0 <-> forallb call_ok tr = true) /\
      (r = 0 ->
       count (is_write_of CMD_STOP) tr = 1%nat /\
       exists r0 polled rs,
         tr = HidWrite FIRE_REPORT r0
              :: polled ++ [Usleep FIRE_HOLD_TIME_US; HidWrite STOP_REPORT rs])).
Proof.
  split; [| split].
  - intros fuel junk w.
    destruct (fire_missile_run fuel junk w) as (tr & Ht & Hr & _). eauto.
  - intros n fuel junk w r b1 Hw Hr Hf Hlt.
    unfold fire_missile, bind. rewrite send_command_eq.
    change [0; uint8 CMD_FIRE] with FIRE_REPORT. rewrite Hw.
    rewrite (proj2 (sent_zero r) Hr). cbn.
    match goal with |- context [fire_poll fuel junk ?w1] =>
      destruct (fire_poll_fires n fuel junk w1 Hf Hlt)
        as (tr & Hres & Htr & Hp & Hc1 & Hc2 & Hlen);
      destruct (fire_poll fuel junk w1) as [res w2]
    end.
    cbn in Hres, Htr. subst res. cbn.
    rewrite send_command_eq. change [0; uint8 CMD_STOP] with STOP_REPORT. cbn.
    destruct (hid_write STOP_REPORT (bus w2)) as [rs b3].
    exists tr, rs.
    assert (Hstop : count (is_write_of CMD_STOP) tr = 0%nat).
    { apply count_none with (q := is_poll_event).
      - apply poll_event_not_write_of. discriminate.
      - eapply polls_events; eassumption. }
    destruct (sent_cases rs) as [[Hs Es] | [Hs Es]]; rewrite Es; cbn;
      rewrite Htr; rewrite <- !app_assoc; cbn; repeat split; auto.
  - intros fuel junk w tr r Htr Hres.
    destruct (fire_missile_run fuel junk w) as (tr' & Htr' & Hrun & _).
    rewrite Htr in Htr'. apply app_inv_head in Htr'. subst tr'.
    rewrite Hres in Hrun. clear Htr Hres.
    inversion Hrun as [r0 Hr0 | | r0 tr0 Hr0 Hp | r0 tr0 rs Hr0 Hp]; subst.
    + split; [auto|]. split; [|discriminate].
      split; [discriminate|]. cbn. rewrite (proj2 (Z.leb_gt _ _) Hr0). discriminate.
    + split; [auto|]. split; [|discriminate].
      split; [discriminate|].
      destruct (polls_failed_last _ _ Hp) as (pre & e & -> & _ & He).
      apply poll_failed_not_ok in He.
      cbn [forallb]. rewrite forallb_app. cbn [forallb]. rewrite He.
      rewrite !Bool.andb_false_r. discriminate.
    + pose proof (polls_ok _ _ _ Hp ltac:(discriminate)) as Hok.
      assert (Hall : forallb call_ok
                (HidWrite FIRE_REPORT r0
                 :: tr0 ++ [Usleep FIRE_HOLD_TIME_US; HidWrite STOP_REPORT rs]) = (0 <=? rs)).
      { cbn [forallb call_ok]. rewrite forallb_app, Hok.
        rewrite (proj2 (Z.leb_le _ _) Hr0). cbn. apply Bool.andb_true_r. }
      rewrite Hall. split; [| split].
      * destruct (sent_cases rs) as [[_ ->] | [_ ->]]; auto.
      * rewrite sent_zero. symmetry. apply Z.leb_le.
      * intros _. split.
        -- change (HidWrite FIRE_REPORT r0 :: tr0 ++ ?l)
             with ([HidWrite FIRE_REPORT r0] ++ tr0 ++ l).
           rewrite !count_app.
           rewrite (count_none (is_write_of CMD_STOP) is_poll_event tr0).
           ++ reflexivity.
           ++ apply poll_event_not_write_of. discriminate.
           ++ eapply polls_events; eassumption.
        -- exists r0, tr0, rs. reflexivity.
Qed.

Lemma fire_poll_stderr (fuel : nat) : forall (st : Z) (w : world),
  fst (fire_poll fuel st w) = Some (-1) ->
  exists lines,
    stderr (snd (fire_poll fuel st w)) =
    stderr w ++ lines ++ ["Failed to get status"%string].
Proof.
  induction fuel as [|fuel IH]; intros st w; [discriminate|].
  cbn [fire_poll]. unfold bind. rewrite get_status_eq.
  destruct (hid_write GET_STATUS_REPORT (bus w)) as [rw b1].
  destruct (Z.ltb_spec rw 0) as [Hw|Hw].
  - cbn. rewrite Bool.andb_false_r. cbn. intros _.
    exists ["Output report write failed"; "Failed to send command to fetch status"]%string.
    rewrite <- !app_assoc. reflexivity.
  - destruct (hid_read 1 b1) as [[rr data] b2]. unfold sent.
    destruct (Z.ltb_spec rr 0) as [Hr|Hr].
    + cbn. rewrite Bool.andb_false_r. cbn. intros _.
      exists ["Failed to read input report"%string].
      rewrite <- !app_assoc. reflexivity.
    + cbn. rewrite Bool.andb_true_r.
      destruct (flag (stored data st) STATUS_DEVICE_FIRED); cbn; [discriminate|].
      intros H. apply IH in H. exact H.
Qed.

Lemma polls_fired_last (st : Z) (tr : list event) :
  polls st tr (Some 0) ->
  exists pre st' rw rr data,
    tr = pre ++ [HidWrite GET_STATUS_REPORT rw; HidRead 1 rr data] /\
    0 <= rw /\ 0 <= rr /\
    flag (stored data st') STATUS_DEVICE_FIRED = true.
Proof.
  intros H. remember (Some 0) as res eqn:E.
  induction H; try discriminate.
  - exists [], st, rw, rr, data. auto.
  - destruct (IHpolls E) as (pre & st' & rw' & rr' & data' & -> & H').
    exists (HidWrite GET_STATUS_REPORT rw :: HidRead 1 rr data :: pre), st', rw', rr', data'.
    auto.
Qed.

Lemma fire_run_success (junk : Z) (tr : list event) (r : Z) :
  fire_run junk tr (Some r) ->
  r = 0 ->
  exists r0 tr0 rs,
    0 <= r0 /\ polls junk tr0 (Some 0) /\ 0 <= rs /\
    tr = HidWrite FIRE_REPORT r0
         :: tr0 ++ [Usleep FIRE_HOLD_TIME_US; HidWrite STOP_REPORT rs].
Proof.
  intros H Hr. inversion H as [ | | | r0 tr0 rs Hr0 Hp Etr Eres]; subst;
    try discriminate.
  exists r0, tr0, rs. repeat split; try assumption. now apply sent_zero.
Qed.

(** C5: when a call of a status round trip of [fire_missile] fails (the
    GetStatus write or the read), that call is the last event of the
    run: no further round trip, no sleep and no Stop write.  Every call
    before it had succeeded, the result is -1 and the failure is
    reported on the error stream; nothing is printed. *)
Theorem C5_poll_failure_aborts (fuel : nat) (junk : Z) (w : world)
    (pre : list event) (e : event) (post : list event) :
  trace (snd (fire_missile fuel junk w)) = trace w ++ pre ++ e :: post ->
  poll_failed e = true ->
  post = [] /\
  fst (fire_missile fuel junk w) = Some (-1) /\
  forallb call_ok pre = true /\
  count is_sleep (pre ++ [e]) = 0%nat /\
  count (is_write_of CMD_STOP) (pre ++ [e]) = 0%nat /\
  stdout (snd (fire_missile fuel junk w)) = stdout w /\
  exists lines,
    stderr (snd (fire_missile fuel junk w)) =
    stderr w ++ lines ++ ["Failed to get status"%string].
Proof.
  intros Htr He. pose proof (poll_failed_not_ok _ He) as Hbad.
  revert Htr. unfold fire_missile, bind. rewrite send_command_eq.
  change [0; uint8 CMD_FIRE] with FIRE_REPORT.
  destruct (hid_write FIRE_REPORT (bus w)) as [r b1].
  destruct (sent_cases r) as [[Hr Es] | [Hr Es]]; rewrite Es; cbn.
  - intros Htr. apply app_inv_head in Htr.
    destruct pre as [|x [|y pre]]; try discriminate.
    injection Htr as <- _. discriminate He.
  - apply Z.ltb_ge in Hr. rewrite Hr. apply Z.ltb_ge in Hr.
    match goal with |- context [fire_poll fuel junk ?w1] =>
      destruct (fire_poll_run fuel junk w1) as (tr & Ht & Hp & Ho);
      pose proof (fire_poll_stderr fuel junk w1) as Herr;
      destruct (fire_poll fuel junk w1) as [[r1|] w2]
    end; cbn in Ht, Hp, Ho, Herr; rewrite <- app_assoc in Ht; cbn in Ht.
    + destruct (polls_result _ _ _ Hp) as [-> | ->]; cbn.
      * (* the loop saw the fired bit: no call of a round trip failed *)
        rewrite send_command_eq. cbn.
        destruct (hid_write [0; 32] (bus w2)) as [rs b3].
        assert (Hnone : forall x,
                   In x (HidWrite FIRE_REPORT r
                         :: tr ++ [Usleep FIRE_HOLD_TIME_US; HidWrite [0; 32] rs]) ->
                   poll_failed x = false).
        { intros x [<- | Hx]; [reflexivity|].
          apply in_app_or in Hx. destruct Hx as [Hx | [<- | [<- | []]]]; try reflexivity.
          pose proof (polls_ok _ _ _ Hp ltac:(discriminate)) as Hok.
          rewrite forallb_forall in Hok. specialize (Hok _ Hx).
          destruct (poll_failed x) eqn:Ex; [|reflexivity].
          apply poll_failed_not_ok in Ex. congruence. }
        intros Htr. exfalso.
        assert (Hin : In e (HidWrite FIRE_REPORT r
                            :: tr ++ [Usleep FIRE_HOLD_TIME_US; HidWrite [0; 32] rs])).
        { destruct (sent rs =? 0); cbn in Htr; rewrite Ht in Htr;
            rewrite <- !app_assoc in Htr; cbn in Htr;
            apply app_inv_head in Htr; rewrite Htr; apply in_elt. }
        apply Hnone in Hin. congruence.
      * (* a call of a round trip failed *)
        intros Htr. rewrite Ht in Htr. apply app_inv_head in Htr.
        destruct (polls_failed_last _ _ Hp) as (pre' & e' & -> & Hpre' & He').
        change (HidWrite FIRE_REPORT r :: pre' ++ [e'])
          with ((HidWrite FIRE_REPORT r :: pre') ++ [e']) in Htr.
        assert (Hall : forallb call_ok (HidWrite FIRE_REPORT r :: pre') = true).
        { cbn. rewrite (proj2 (Z.leb_le _ _) Hr). exact Hpre'. }
        symmetry in Htr.
        destruct (failed_call_is_last _ _ _ _ _ Htr Hall Hbad) as (-> & -> & ->).
        pose proof (polls_events _ _ _ Hp) as Hev.
        split; [reflexivity|]. split; [reflexivity|]. split; [exact Hall|].
        split; [|split; [|split; [exact Ho|]]].
        -- change ((HidWrite FIRE_REPORT r :: pre') ++ [e'])
             with ([HidWrite FIRE_REPORT r] ++ pre' ++ [e']).
           rewrite count_app.
           rewrite (count_none is_sleep is_poll_event (pre' ++ [e']));
             auto using poll_event_not_sleep.
        -- change ((HidWrite FIRE_REPORT r :: pre') ++ [e'])
             with ([HidWrite FIRE_REPORT r] ++ pre' ++ [e']).
           rewrite count_app.
           rewrite (count_none (is_write_of CMD_STOP) is_poll_event (pre' ++ [e'])); auto.
           apply poll_event_not_write_of. discriminate.
        -- destruct (Herr eq_refl) as (lines & ->). exists lines. reflexivity.
    + (* the loop is still running: no call has failed *)
      cbn. intros Htr. exfalso. rewrite Ht in Htr. apply app_inv_head in Htr.
      pose proof (polls_ok _ _ _ Hp ltac:(discriminate)) as Hok.
      assert (Hin : In e (HidWrite FIRE_REPORT r :: tr)) by (rewrite Htr; apply in_elt).
      destruct Hin as [<- | Hin]; [discriminate He|].
      rewrite forallb_forall in Hok. specialize (Hok _ Hin). congruence.
Qed.

(** C10: a successful run of [fire_missile] ends with the read that
    showed the fired bit, one sleep of [FIRE_HOLD_TIME_US] = 500000
    microseconds and the Stop write, and has no other sleep.  The fire
    step of [main] reads nothing of the parsed command line but the
    fire flag, so no option changes that time. *)
Theorem C10_fire_hold_time :
  FIRE_HOLD_TIME_US = 500000 /\
  (forall (fuel : nat) (junk : Z) (w : world) (tr : list event),
      trace (snd (fire_missile fuel junk w)) = trace w ++ tr ->
      fst (fire_missile fuel junk w) = Some 0 ->
      count is_sleep tr = 1%nat /\
      exists pre st rr data rs,
        tr = pre ++ [HidRead 1 rr data; Usleep 500000; HidWrite STOP_REPORT rs] /\
        0 <= rr /\ 0 <= rs /\
        flag (stored data st) STATUS_DEVICE_FIRED = true) /\
  (forall (fuel : nat) (junk : Z) (a a' : arguments) (r : Z) (w : world),
      fire a = fire a' ->
      main_fire fuel junk a r w = main_fire fuel junk a' r w).
Proof.
  split; [reflexivity|]. split.
  - intros fuel junk w tr Htr Hres.
    destruct (fire_missile_run fuel junk w) as (tr' & Htr' & Hrun & _).
    rewrite Htr in Htr'. apply app_inv_head in Htr'. subst tr'.
    rewrite Hres in Hrun. clear Htr Hres.
    destruct (fire_run_success _ _ _ Hrun eq_refl) as (r0 & tr0 & rs & Hr0 & Hp & Hs & ->).
    split.
    + change (HidWrite FIRE_REPORT r0 :: ?l) with ([HidWrite FIRE_REPORT r0] ++ l).
      rewrite !count_app.
      rewrite (count_none is_sleep is_poll_event tr0);
        eauto using poll_event_not_sleep, polls_events.
    + destruct (polls_fired_last _ _ Hp)
        as (pre & st & rw & rr & data & -> & Hrw & Hrr & Hfl).
      exists (HidWrite FIRE_REPORT r0 :: pre ++ [HidWrite GET_STATUS_REPORT rw]), st, rr, data, rs.
      repeat split; auto. cbn. rewrite <- !app_assoc. reflexivity.
  - intros fuel junk a a' r w Hf. unfold main_fire. rewrite Hf. reflexivity.
Qed.

(** *** Command framing *)

Lemma parse_opt_trace (key : Z) (arg : option string) (n : Z) (a : arguments)
    (w : @world B) :
  trace (snd (parse_opt key arg n a w)) = trace w /\
  bus (snd (parse_opt key arg n a w)) = bus w /\
  stdout (snd (parse_opt key arg n a w)) = stdout w.
Proof.
  unfold parse_opt, bind, ret, eprintln.
  repeat match goal with
         | |- context [if ?c then _ else _] => destruct c
         | |- context [match ?x with _ => _ end] => destruct x
         end; cbn; auto.
Qed.

Lemma argp_parse_trace (opts : list (Z * option string)) :
  forall (a : arguments) (w : @world B),
    trace (snd (argp_parse opts a w)) = trace w /\
    bus (snd (argp_parse opts a w)) = bus w /\
    stdout (snd (argp_parse opts a w)) = stdout w.
Proof.
  induction opts as [|[key arg] opts IH]; intros a w; cbn; auto.
  unfold bind.
  destruct (parse_opt_trace key arg 0 a w) as (Ht & Hb & Ho).
  destruct (parse_opt key arg 0 a w) as [[r a'| |] w1]; cbn in *; auto.
  destruct (IH a' w1) as (Ht' & Hb' & Ho'). repeat split; congruence.
Qed.

(** A run of [main]: the parser leaves the device alone; then either
    the process has ended or [main] goes on with the parsed arguments. *)
Lemma main_run (fuel : nat) (junk_f junk_p : Z) (opts : list (Z * option string))
    (w : world) :
  exists tr,
    trace (snd (main fuel junk_f junk_p opts w)) = trace w ++ tr /\
    ((tr = [] /\ fst (argp_parse opts default_arguments w) = UsageExit /\
      fst (main fuel junk_f junk_p opts w) = Exit EX_USAGE) \/
     (tr = [] /\ fst (argp_parse opts default_arguments w) = NullDeref) \/
     (exists r a, fst (argp_parse opts default_arguments w) = Returned r a /\
                  device_run a junk_f tr (fst (main fuel junk_f junk_p opts w)))).
Proof.
  unfold main, bind.
  destruct (argp_parse_trace opts default_arguments w) as (Ht & _).
  destruct (argp_parse opts default_arguments w) as [[r a| |] w1]; cbn in *.
  - destruct (main_device_run fuel junk_f junk_p a w1) as (tr & Htr & Hd).
    exists tr. rewrite Htr, Ht. split; auto. right; right. exists r, a. auto.
  - exists []. rewrite app_nil_r. auto.
  - exists []. rewrite app_nil_r. auto.
Qed.

Lemma polls_reports (st : Z) (tr : list event) (res : option Z) :
  polls st tr res -> forallb is_report tr = true.
Proof. induction 1; cbn; auto. Qed.

Lemma fire_run_reports (junk : Z) (tr : list event) (res : option Z) :
  fire_run junk tr res -> forallb is_report tr = true.
Proof.
  intros [r Hr | r tr' Hr Hp | r tr' Hr Hp | r tr' rs Hr Hp].
  - reflexivity.
  - change (forallb is_report tr' = true). eauto using polls_reports.
  - change (forallb is_report tr' = true). eauto using polls_reports.
  - change (forallb is_report (tr' ++ [Usleep FIRE_HOLD_TIME_US; HidWrite STOP_REPORT rs]) = true).
    rewrite forallb_app. erewrite polls_reports by eassumption. reflexivity.
Qed.

Lemma device_run_reports (a : arguments) (junk : Z) (tr : list event) (res : run) :
  device_run a junk tr res -> forallb is_report tr = true.
Proof.
  intros (opened & rest & -> & H). cbn. destruct opened.
  - destruct H as (tm & rm & tf & rf & Hm & Hf & H).
    assert (Em : forallb is_report tm = true).
    { destruct Hm as [(_ & -> & _) | (cmd & Hc & Hm)]; auto.
      destruct (arg_movement a); inversion Hc; subst; inversion Hm; reflexivity. }
    assert (Ef : forallb is_report tf = true).
    { destruct Hf as [(_ & -> & _) | (_ & _ & Hf)]; eauto using fire_run_reports. }
    destruct rf as [r1|].
    + destruct H as (ts & r2 & Hs & -> & _).
      assert (Es : forallb is_report ts = true).
      { destruct Hs as [(_ & -> & _) | (_ & _ & Hs)]; auto.
        inversion Hs; reflexivity. }
      rewrite !forallb_app, Em, Ef, Es. reflexivity.
    + destruct H as (-> & _). rewrite forallb_app, Em, Ef. reflexivity.
  - destruct H as (-> & _). reflexivity.
Qed.

(** C3: every command of the closed enumeration goes out as the
    two-byte report [0x00; wire value], whatever the state of the world:
    [send_command] on the command's macro hands exactly [Spec.encode c]
    to [hid_write] and fails only if that write does; [move_turret]
    picks the command of its direction; and every write of a whole run
    of [main] is one of the seven reports. *)
Theorem C3_command_frame :
  (forall (c : Spec.command) (w : world),
      List.length (Spec.encode c) = 2%nat /\
      nth 0 (Spec.encode c) 1 = 0x00 /\
      nth 1 (Spec.encode c) 0 = Spec.wire c /\
      macro c = Spec.wire c /\
      send_command (macro c) w =
      (let (r, b) := hid_write (Spec.encode c) (bus w) in
       (sent r,
        mkWorld b (trace w ++ [HidWrite (Spec.encode c) r])
          (if r <? 0 then stderr w ++ ["Output report write failed"%string] else stderr w)
          (stdout w)))) /\
  (forall m : movement, movement_cmd m = option_map Spec.wire (move_command m)) /\
  (forall (fuel : nat) (junk_f junk_p : Z) (opts : list (Z * option string))
          (w : world) (tr : list event),
      trace (snd (main fuel junk_f junk_p opts w)) = trace w ++ tr ->
      forall (buf : list Z) (r : Z),
        In (HidWrite buf r) tr -> exists c, buf = Spec.encode c).
Proof.
  split; [| split].
  - intros c w. repeat split; try (destruct c; reflexivity).
    rewrite send_command_eq.
    replace [0; uint8 (macro c)] with (Spec.encode c) by (destruct c; reflexivity).
    reflexivity.
  - intros m; destruct m; reflexivity.
  - intros fuel junk_f junk_p opts w tr Htr buf r Hin.
    destruct (main_run fuel junk_f junk_p opts w) as (tr' & Htr' & H).
    rewrite Htr in Htr'. apply app_inv_head in Htr'. subst tr'.
    assert (Hall : forallb is_report tr = true).
    { destruct H as [(-> & _) | [(-> & _) | (r0 & a & _ & Hd)]]; auto.
      eapply device_run_reports; eassumption. }
    rewrite forallb_forall in Hall. specialize (Hall _ Hin). cbn in Hall.
    repeat match type of Hall with
           | (if ?d then _ else _) || _ = true =>
               destruct d as [-> | _]; [eexists; reflexivity | cbn in Hall]
           end.
    discriminate.
Qed.

(** *** The sequence of actions *)

Lemma move_run_no_close (cmd d : Z) (tr : list event) (r : Z) :
  move_run cmd d tr r -> count is_close tr = 0%nat.
Proof. intros []; reflexivity. Qed.

Lemma status_run_no_close (tr : list event) (r : Z) :
  status_run tr r -> count is_close tr = 0%nat.
Proof. intros []; reflexivity. Qed.

Lemma fire_run_no_close (junk : Z) (tr : list event) (res : option Z) :
  fire_run junk tr res -> count is_close tr = 0%nat.
Proof.
  intros [r Hr | r tr' Hr Hp | r tr' Hr Hp | r tr' rs Hr Hp];
    try reflexivity;
    change (HidWrite FIRE_REPORT r :: ?l) with ([HidWrite FIRE_REPORT r] ++ l);
    rewrite ?count_app;
    rewrite (count_none is_close is_poll_event tr');
    eauto using poll_event_not_close, polls_events.
Qed.

(** C7: on every run of [main] from [hid_open] on, the trace is the
    open call followed, if a handle was returned, by at most one
    [move_turret] run, then at most one [fire_missile] run, then at most
    one [print_status] run, in this order ([device_run]): the move runs
    iff a movement was requested, the fire run iff firing was requested
    and the move step left [ret] at 0, the status run iff it was
    requested and the steps before left [ret] at 0.  When [main] returns
    with the device open, [hid_close] has been called exactly once, as
    the last event, whatever the steps returned; when no handle was
    returned nothing follows the open call; while [fire_missile] is
    still polling the device has not been closed. *)
Theorem C7_action_sequence (fuel : nat) (junk_f junk_p : Z) (a : arguments)
    (w : world) :
  exists opened rest,
    trace (snd (main_device fuel junk_f junk_p a w)) =
      trace w ++ HidOpen LAUNCHER_VID LAUNCHER_PID opened :: rest /\
    device_run a junk_f (HidOpen LAUNCHER_VID LAUNCHER_PID opened :: rest)
      (fst (main_device fuel junk_f junk_p a w)) /\
    match fst (main_device fuel junk_f junk_p a w) with
    | Exit status =>
        if opened : bool
        then count is_close rest = 1%nat /\ exists body, rest = body ++ [HidClose]
        else rest = [] /\ status = EXIT_FAILURE
    | Polling => opened = true /\ count is_close rest = 0%nat
    | Undefined => False
    end.
Proof.
  destruct (main_device_run fuel junk_f junk_p a w) as (tr & Htr & Hrun).
  pose proof Hrun as (opened & rest & -> & H).
  exists opened, rest. split; [exact Htr|]. split; [exact Hrun|].
  destruct opened.
  - destruct H as (tm & rm & tf & rf & Hm & Hf & H).
    assert (Em : count is_close tm = 0%nat).
    { destruct Hm as [(_ & -> & _) | (cmd & _ & Hm)];
        eauto using move_run_no_close. }
    assert (Ef : count is_close tf = 0%nat).
    { destruct Hf as [(_ & -> & _) | (_ & _ & Hf)];
        eauto using fire_run_no_close. }
    destruct rf as [r1|].
    + destruct H as (ts & r2 & Hs & -> & ->).
      assert (Es : count is_close ts = 0%nat).
      { destruct Hs as [(_ & -> & _) | (_ & _ & Hs)];
          eauto using status_run_no_close. }
      split; [|exists (tm ++ tf ++ ts); now rewrite <- !app_assoc].
      rewrite !count_app, Em, Ef, Es. reflexivity.
    + destruct H as (-> & ->). split; [reflexivity|].
      rewrite count_app, Em, Ef. reflexivity.
  - destruct H as (-> & ->). auto.
Qed.

(** *** Start/stop framing *)

Lemma outstanding_app (l1 : list event) : forall (active : bool) (l2 : list event),
  outstanding active (l1 ++ l2) =
  match outstanding active l1 with
  | Some active' => outstanding active' l2
  | None => None
  end.
Proof.
  induction l1 as [|e l1 IH]; intros active l2; [reflexivity|].
  destruct e as [| buf r | | |]; cbn [app outstanding]; auto.
  destruct buf as [|z [|c [|]]]; auto.
  destruct (is_motion c); [destruct active; auto|].
  destruct ((c =? CMD_STOP) && (0 <=? r)); auto.
Qed.

Lemma outstanding_poll_events (tr : list event) : forall active : bool,
  forallb is_poll_event tr = true -> outstanding active tr = Some active.
Proof.
  induction tr as [|e tr IH]; intros active; [reflexivity|].
  cbn [forallb]. intros [He Htr]%Bool.andb_true_iff.
  destruct e as [| buf r | | |]; try discriminate; cbn [outstanding]; auto.
  destruct buf as [|z [|c [|]]]; try discriminate.
  cbn in He. apply Bool.andb_true_iff in He. destruct He as [_ ->%Z.eqb_eq].
  cbn. auto.
Qed.

Lemma move_run_framed (m : movement) (cmd d : Z) (tr : list event) (r : Z) :
  movement_cmd m = Some cmd ->
  move_run cmd d tr r ->
  outstanding false tr = Some (negb (r =? 0)).
Proof.
  intros Hm Hr.
  assert (Hc : is_motion cmd = true /\ (cmd =? CMD_STOP) = false).
  { destruct m; inversion Hm; split; reflexivity. }
  destruct Hc as [Hc1 Hc2].
  destruct Hr as [r0 Hr0 | r0 rs Hr0]; cbn [outstanding]; rewrite Hc1.
  - reflexivity.
  - unfold STOP_REPORT. cbn [outstanding].
    change (is_motion CMD_STOP) with false. cbn match.
    rewrite Z.eqb_refl. cbn [andb]. unfold sent.
    destruct (Z.ltb_spec rs 0) as [Hs|Hs].
    + rewrite (proj2 (Z.leb_gt _ _) Hs). reflexivity.
    + rewrite (proj2 (Z.leb_le _ _) Hs). reflexivity.
Qed.

Lemma fire_run_framed (junk : Z) (tr : list event) (res : option Z) :
  fire_run junk tr res ->
  exists active, outstanding false tr = Some active.
Proof.
  intros [r Hr | r tr' Hr Hp | r tr' Hr Hp | r tr' rs Hr Hp];
    unfold FIRE_REPORT; cbn [outstanding];
    change (is_motion CMD_FIRE) with true; cbn match.
  - eauto.
  - rewrite outstanding_poll_events; eauto using polls_events.
  - rewrite outstanding_poll_events; eauto using polls_events.
  - rewrite outstanding_app, outstanding_poll_events by eauto using polls_events.
    unfold STOP_REPORT. cbn [outstanding].
    change (is_motion CMD_STOP) with false. cbn match.
    destruct ((CMD_STOP =? CMD_STOP) && (0 <=? rs)); eauto.
Qed.

Lemma status_run_framed (tr : list event) (r : Z) (active : bool) :
  status_run tr r -> outstanding active tr = Some active.
Proof. intros []; reflexivity. Qed.

Lemma device_run_framed (a : arguments) (junk : Z) (tr : list event) (res : run) :
  device_run a junk tr res ->
  exists active, outstanding false tr = Some active.
Proof.
  intros (opened & rest & -> & H). cbn [outstanding]. destruct opened.
  - destruct H as (tm & rm & tf & rf & Hm & Hf & H).
    assert (Hmf : exists active, outstanding false (tm ++ tf) = Some active).
    { rewrite outstanding_app.
      destruct Hm as [(_ & -> & ->) | (cmd & Hc & Hm)].
      - cbn. destruct Hf as [(_ & -> & _) | (_ & _ & Hf)]; cbn; eauto.
        eapply fire_run_framed; eassumption.
      - rewrite (move_run_framed _ _ _ _ _ Hc Hm).
        destruct Hf as [(_ & -> & _) | (_ & -> & Hf)]; cbn; eauto.
        eapply fire_run_framed; eassumption. }
    destruct Hmf as (active & Hmf).
    destruct rf as [r1|].
    + destruct H as (ts & r2 & Hs & -> & _).
      rewrite app_assoc, outstanding_app, Hmf, outstanding_app.
      assert (Es : outstanding active ts = Some active).
      { destruct Hs as [(_ & -> & _) | (_ & _ & Hs)];
          [reflexivity | eapply status_run_framed; eassumption]. }
      rewrite Es. cbn. eauto.
    + destruct H as (-> & _). eauto.
  - destruct H as (-> & _). cbn. eauto.
Qed.

(** C6: in every run of [main], complete or still polling, and in every
    prefix of it, no Move or Fire report is written while another is
    outstanding: between two such writes there is a Stop write that
    succeeded.  Failed writes count as writes. *)
Theorem C6_one_active_movement (fuel : nat) (junk_f junk_p : Z)
    (opts : list (Z * option string)) (w : world) (pre post : list event) :
  trace (snd (main fuel junk_f junk_p opts w)) = trace w ++ pre ++ post ->
  exists active, outstanding false pre = Some active.
Proof.
  intros Hpre.
  destruct (main_run fuel junk_f junk_p opts w) as (tr & Htr & H).
  rewrite Hpre in Htr. apply app_inv_head in Htr. subst tr.
  assert (Hall : exists active, outstanding false (pre ++ post) = Some active).
  { destruct H as [(-> & _) | [(-> & _) | (r & a & _ & Hd)]]; cbn; eauto.
    eapply device_run_framed; eassumption. }
  destruct Hall as (active & Hall).
  rewrite outstanding_app in Hall.
  destruct (outstanding false pre) as [active'|]; [eauto | discriminate].
Qed.

(** *** Command line *)

(** C8: with no option on the command line [main] opens the device and
    closes it again: nothing is written to it, no missile is fired.
    With the fire option alone the first thing [main] does with an open
    device is to write the Fire report.  The two runs differ, against
    the documentation string of the program. *)
Theorem C8_no_flags_sends_nothing (fuel : nat) (junk_f junk_p : Z) (w : world) :
  (exists opened,
      trace (snd (main fuel junk_f junk_p [] w)) =
        trace w ++ HidOpen LAUNCHER_VID LAUNCHER_PID opened
                   :: (if opened then [HidClose] else []) /\
      count (is_write_of CMD_FIRE) (trace (snd (main fuel junk_f junk_p [] w))) =
        count (is_write_of CMD_FIRE) (trace w) /\
      fst (main fuel junk_f junk_p [] w) =
        Exit (if opened then EXIT_SUCCESS else EXIT_FAILURE)) /\
  (exists opened rest,
      trace (snd (main fuel junk_f junk_p [(code "f", None)] w)) =
        trace w ++ HidOpen LAUNCHER_VID LAUNCHER_PID opened :: rest /\
      if opened : bool
      then exists r rest', rest = HidWrite FIRE_REPORT r :: rest'
      else rest = []).
Proof.
  split.
  - destruct (main_run fuel junk_f junk_p [] w) as (tr & Htr & H).
    destruct H as [(_ & H & _) | [(_ & H) | (r & a & [= _ <-] & Hd)]];
      try discriminate H.
    destruct Hd as (opened & rest & -> & Hd). exists opened.
    rewrite Htr, count_app. destruct opened.
    + destruct Hd as (tm & rm & tf & rf & Hm & Hf & Hd).
      destruct Hm as [(_ & -> & ->) | (cmd & Hc & _)]; [|discriminate Hc].
      destruct Hf as [(_ & -> & ->) | (Hf & _)]; [|discriminate Hf].
      destruct Hd as (ts & r2 & Hs & -> & ->).
      destruct Hs as [(_ & -> & ->) | (Hs & _)]; [|discriminate Hs].
      cbn. repeat split. lia.
    + destruct Hd as (-> & ->). cbn. repeat split. lia.
  - destruct (main_run fuel junk_f junk_p [(code "f", None)] w) as (tr & Htr & H).
    destruct H as [(_ & H & _) | [(_ & H) | (r & a & [= _ <-] & Hd)]];
      try discriminate H.
    destruct Hd as (opened & rest & -> & Hd). exists opened, rest.
    split; [exact Htr|]. destruct opened.
    + destruct Hd as (tm & rm & tf & rf & Hm & Hf & Hd).
      destruct Hm as [(_ & -> & ->) | (cmd & Hc & _)]; [|discriminate Hc].
      destruct Hf as [([Hf | Hf] & _) | (_ & _ & Hf)];
        [discriminate Hf | congruence |].
      assert (Hfirst : exists r0 rest', tf = HidWrite FIRE_REPORT r0 :: rest')
        by (inversion Hf; eauto).
      destruct Hfirst as (r0 & rest' & ->).
      destruct rf as [r1|].
      * destruct Hd as (ts & r2 & _ & -> & _). cbn. eauto.
      * destruct Hd as (-> & _). cbn. eauto.
    + destruct Hd as (-> & _). reflexivity.
Qed.

Lemma strtoul_empty : strtoul EmptyString = (0, EmptyString).
Proof. reflexivity. Qed.

(** C9: the time option with the empty string as its argument is
    accepted and sets the duration to 0: [strtoul] converts nothing,
    leaves [endptr] at the terminator, and the test [arg != '\0'] looks
    at the pointer.  A plain numeral up to 9999 is accepted and scaled
    by 1000; 10000 and a non-numeral are refused. *)
Theorem C9_empty_time_accepted (n : Z) (a : arguments) (w : @world B) :
  parse_opt (code "t") (Some EmptyString) n a w = (Returned 0 (set_duration 0 a), w) /\
  fst (argp_parse [(code "t", Some EmptyString)] default_arguments w) =
    Returned 0 (set_duration 0 default_arguments) /\
  fst (parse_opt (code "t") (Some "9999"%string) n a w) =
    Returned 0 (set_duration 9999000 a) /\
  fst (parse_opt (code "t") (Some "10000"%string) n a w) = UsageExit /\
  fst (parse_opt (code "t") (Some "soon"%string) n a w) = UsageExit.
Proof. repeat split. Qed.

(** *** Status query *)

Lemma in_all_bytes (byte : Z) : 0 <= byte < 256 -> In byte all_bytes.
Proof.
  intros H. unfold all_bytes. rewrite <- (Z2Nat.id byte) by lia.
  apply in_map, in_seq. lia.
Qed.

Lemma status_report_eqb_eq (s t : Spec.StatusReport) :
  status_report_eqb s t = true -> s = t.
Proof.
  destruct s, t; unfold status_report_eqb; cbn.
  rewrite !Bool.andb_true_iff, !Bool.eqb_true_iff.
  intros [[[[-> ->] ->] ->] ->]. reflexivity.
Qed.

(** C4: [print_status] writes one GetStatus report and, if that write
    succeeds, makes one read of one byte; it writes nothing else.  It
    returns -1 iff the write or the read fails, and otherwise prints the
    five flags of the byte in [status], each decoded as
    [(byte & mask) != 0].  For each of the 256 bytes the flags are bits
    0 to 4 of the byte (down, up, left, right, fired); 0x05 is
    down-limit and left-limit only. *)
Theorem C4_query_status :
  (forall (junk : Z) (w : world),
      let (rw, b1) := hid_write (Spec.encode Spec.GetStatus) (bus w) in
      let res := print_status junk w in
      if rw <? 0
      then
        fst res = -1 /\
        trace (snd res) = trace w ++ [HidWrite (Spec.encode Spec.GetStatus) rw] /\
        stdout (snd res) = stdout w
      else
        let '(rr, data, b2) := hid_read 1 b1 in
        trace (snd res) =
          trace w ++ [HidWrite (Spec.encode Spec.GetStatus) rw; HidRead 1 rr data] /\
        if rr <? 0
        then fst res = -1 /\ stdout (snd res) = stdout w
        else
          fst res = 0 /\
          stdout (snd res) =
            stdout w ++ status_lines (Spec.decode (stored data junk))) /\
  (forall byte : Z,
      0 <= byte < 256 ->
      Spec.decode byte =
      {| Spec.up_limit := Z.testbit byte 1;
         Spec.down_limit := Z.testbit byte 0;
         Spec.left_limit := Z.testbit byte 2;
         Spec.right_limit := Z.testbit byte 3;
         Spec.fired := Z.testbit byte 4 |}) /\
  Spec.decode 0x05 =
    {| Spec.up_limit := false; Spec.down_limit := true; Spec.left_limit := true;
       Spec.right_limit := false; Spec.fired := false |}.
Proof.
  split; [| split].
  - intros junk w. change (Spec.encode Spec.GetStatus) with GET_STATUS_REPORT.
    unfold print_status, bind. rewrite get_status_eq.
    destruct (hid_write GET_STATUS_REPORT (bus w)) as [rw b1].
    destruct (rw <? 0).
    + cbn. auto.
    + destruct (hid_read 1 b1) as [[rr data] b2]. unfold sent.
      destruct (rr <? 0); cbn.
      * auto.
      * repeat split. rewrite <- !app_assoc. reflexivity.
  - intros byte Hb. apply status_report_eqb_eq.
    assert (Hall : forallb (fun b =>
              status_report_eqb (Spec.decode b)
                (Spec.mkStatusReport (Z.testbit b 1) (Z.testbit b 0) (Z.testbit b 2)
                   (Z.testbit b 3) (Z.testbit b 4))) all_bytes = true)
      by (vm_compute; reflexivity).
    rewrite forallb_forall in Hall. apply Hall, in_all_bytes, Hb.
  - reflexivity.
Qed.

(** *** Timed movement *)

(** C2: for a direction, [move_turret] writes the Move report of that
    direction.  If that write fails, nothing else is sent and the result
    is -1.  Otherwise it sleeps for [duration] and writes the Stop
    report, two writes in all, and returns 0 iff the Stop write
    succeeds. *)
Theorem C2_move (m : movement) (duration : Z) (w : world) :
  m <> MOVEMENT_NONE ->
  exists c,
    move_command m = Some c /\
    let (r1, b1) := hid_write (Spec.encode c) (bus w) in
    let res := move_turret m duration w in
    if r1 <? 0
    then
      fst res = -1 /\
      trace (snd res) = trace w ++ [HidWrite (Spec.encode c) r1]
    else
      let (r2, b2) := hid_write (Spec.encode Spec.Stop) b1 in
      trace (snd res) =
        trace w ++ [HidWrite (Spec.encode c) r1; Usleep duration;
                    HidWrite (Spec.encode Spec.Stop) r2] /\
      bus (snd res) = b2 /\
      (fst res = 0 \/ fst res = -1) /\
      (fst res = 0 <-> 0 <= r2).
Proof.
  intros Hm.
  assert (Hc : exists c, move_command m = Some c /\
                         movement_cmd m = Some (Spec.wire c) /\
                         uint8 (Spec.wire c) = Spec.wire c).
  { destruct m; [congruence | eexists; repeat split ..]. }
  destruct Hc as (c & Hc & Hw & Hu). exists c. split; [exact Hc|].
  unfold move_turret, bind. rewrite Hw, send_command_eq, Hu.
  change [0; Spec.wire c] with (Spec.encode c).
  destruct (hid_write (Spec.encode c) (bus w)) as [r1 b1].
  destruct (sent_cases r1) as [[H1 E1] | [H1 E1]]; rewrite E1.
  - apply Z.ltb_lt in H1. rewrite H1. cbn. auto.
  - apply Z.ltb_ge in H1. rewrite H1. cbn.
    rewrite send_command_eq. cbn.
    change [0; 32] with (Spec.encode Spec.Stop).
    destruct (hid_write (Spec.encode Spec.Stop) b1) as [r2 b2].
    destruct (sent_cases r2) as [[H2 E2] | [H2 E2]]; rewrite E2; cbn;
      rewrite <- !app_assoc; cbn; repeat split; auto; intros; lia.
Qed.

End Runs.

(** ** Further facts about the driver *)

Section More.

Context {B : Type} {hid : HidApi B}.

(** The bus answers [n] round trips with a clear fired bit. *)
Fixpoint quiet_polls (n : nat) (st : Z) (b : B) : bool :=
  match n with
  | O => true
  | S n' =>
      match poll_bus st b with
      | None => false
      | Some (st', b') =>
          negb (flag st' STATUS_DEVICE_FIRED) && quiet_polls n' st' b'
      end
  end.

(** Every read that succeeds puts at least one byte in the buffer. *)
Definition reads_fill : Prop :=
  forall (len : Z) (b : B),
    0 <= fst (fst (hid_read len b)) -> snd (fst (hid_read len b)) <> [].

(** *** Exit status *)

Lemma move_run_ok (cmd d : Z) (tr : list event) (r : Z) :
  move_run cmd d tr r -> (r = 0 <-> forallb call_ok tr = true).
Proof.
  intros [r0 Hr0 | r0 rs Hr0]; cbn [forallb call_ok].
  - rewrite (proj2 (Z.leb_gt _ _) Hr0). cbn. split; discriminate.
  - rewrite (proj2 (Z.leb_le _ _) Hr0), sent_zero, <- Z.leb_le. cbn.
    rewrite Bool.andb_true_r. reflexivity.
Qed.

Lemma status_run_ok (tr : list event) (r : Z) :
  status_run tr r -> (r = 0 <-> forallb call_ok tr = true).
Proof.
  intros [rw Hrw | rw rr data Hrw]; cbn [forallb call_ok].
  - rewrite (proj2 (Z.leb_gt _ _) Hrw). cbn. split; discriminate.
  - rewrite (proj2 (Z.leb_le _ _) Hrw), sent_zero, <- Z.leb_le. cbn.
    rewrite Bool.andb_true_r. reflexivity.
Qed.

Lemma fire_run_ok (junk : Z) (tr : list event) (r : Z) :
  fire_run junk tr (Some r) -> (r = 0 <-> forallb call_ok tr = true).
Proof.
  intros H. inversion H as [r0 Hr0 | | r0 tr0 Hr0 Hp | r0 tr0 rs Hr0 Hp]; subst.
  - cbn. rewrite (proj2 (Z.leb_gt _ _) Hr0). split; discriminate.
  - destruct (polls_failed_last _ _ Hp) as (pre & e & -> & _ & He).
    apply poll_failed_not_ok in He.
    cbn [forallb]. rewrite forallb_app. cbn [forallb]. rewrite He.
    rewrite !Bool.andb_false_r. split; discriminate.
  - pose proof (polls_ok _ _ _ Hp ltac:(discriminate)) as Hok.
    cbn [forallb call_ok]. rewrite forallb_app, Hok.
    rewrite (proj2 (Z.leb_le _ _) Hr0). cbn.
    rewrite Bool.andb_true_r, sent_zero, Z.leb_le. reflexivity.
Qed.

Lemma move_step_ok (a : arguments) (tm : list event) (rm : Z) :
  move_step a tm rm ->
  (rm = 0 \/ rm = -1) /\ (rm = 0 <-> forallb call_ok tm = true).
Proof.
  intros [(_ & -> & ->) | (cmd & _ & Hm)].
  - split; [auto | split; reflexivity].
  - split; [eapply move_run_result | eapply move_run_ok]; eassumption.
Qed.

Lemma fire_step_ok (a : arguments) (junk rm : Z) (tf : list event) (r1 : Z) :
  fire_step a junk rm tf (Some r1) ->
  rm = 0 \/ rm = -1 ->
  (r1 = 0 \/ r1 = -1) /\
  (r1 = 0 <-> rm = 0 /\ forallb call_ok tf = true).
Proof.
  intros [(_ & -> & [= <-]) | (_ & -> & Hf)] Hrm.
  - split; [exact Hrm|]. cbn. intuition.
  - split; [eapply fire_run_result; eassumption|].
    rewrite (fire_run_ok _ _ _ Hf). intuition.
Qed.

Lemma status_step_ok (a : arguments) (r1 : Z) (ts : list event) (r2 : Z) :
  status_step a r1 ts r2 ->
  r1 = 0 \/ r1 = -1 ->
  (r2 = 0 \/ r2 = -1) /\
  (r2 = 0 <-> r1 = 0 /\ forallb call_ok ts = true).
Proof.
  intros [(_ & -> & ->) | (_ & -> & Hs)] Hr1.
  - split; [exact Hr1|]. cbn. intuition.
  - split; [eapply status_run_result; eassumption|].
    rewrite (status_run_ok _ _ Hs). intuition.
Qed.

(** A run of [main] that returned from an open device. *)
Lemma device_run_exit (a : arguments) (junk : Z) (opened : bool)
    (rest : list event) (status : Z) :
  device_run a junk (HidOpen LAUNCHER_VID LAUNCHER_PID opened :: rest) (Exit status) ->
  if opened
  then
    exists tm rm tf r1 ts r2,
      move_step a tm rm /\ fire_step a junk rm tf (Some r1) /\
      status_step a r1 ts r2 /\
      rest = tm ++ tf ++ ts ++ [HidClose] /\
      status = exit_status r2
  else rest = [] /\ status = EXIT_FAILURE.
Proof.
  intros (opened' & rest' & [= <- <-] & H). destruct opened.
  - destruct H as (tm & rm & tf & rf & Hm & Hf & H).
    destruct rf as [r1|].
    + destruct H as (ts & r2 & Hs & -> & [= ->]).
      exists tm, rm, tf, r1, ts, r2. auto.
    + destruct H as (_ & H). discriminate H.
  - destruct H as (-> & [= ->]). auto.
Qed.


(** *** What is left running *)

Lemma fire_run_stopped (junk : Z) (tr : list event) :
  fire_run junk tr (Some 0) -> outstanding false tr = Some false.
Proof.
  intros H.
  destruct (fire_run_success _ _ _ H eq_refl) as (r0 & tr0 & rs & _ & Hp & Hs & ->).
  unfold FIRE_REPORT. cbn [outstanding].
  change (is_motion CMD_FIRE) with true. cbn match.
  rewrite outstanding_app, outstanding_poll_events by eauto using polls_events.
  unfold STOP_REPORT. cbn [outstanding].
  change (is_motion CMD_STOP) with false. cbn match.
  rewrite Z.eqb_refl, (proj2 (Z.leb_le _ _) Hs). reflexivity.
Qed.

(** X2: when [main] exits with status 0, no Move or Fire report is left
    outstanding: each one written was followed by a Stop report written
    with success. *)
Theorem success_leaves_nothing_running (fuel : nat) (junk_f junk_p : Z)
    (opts : list (Z * option string)) (w : world) (tr : list event) :
  fst (main fuel junk_f junk_p opts w) = Exit EXIT_SUCCESS ->
  trace (snd (main fuel junk_f junk_p opts w)) = trace w ++ tr ->
  outstanding false tr = Some false.
Proof.
  intros Hres Htr.
  destruct (main_run fuel junk_f junk_p opts w) as (tr' & Htr' & H).
  rewrite Htr in Htr'. apply app_inv_head in Htr'. subst tr'.
  rewrite Hres in H.
  destruct H as [(_ & _ & H) | [(-> & _) | (r & a & _ & Hd)]];
    [discriminate H | reflexivity |].
  pose proof Hd as (opened & rest & -> & _).
  apply device_run_exit in Hd. destruct opened.
  - destruct Hd as (tm & rm & tf & r1 & ts & r2 & Hm & Hf & Hs & -> & E).
    destruct (move_step_ok _ _ _ Hm) as (Hrm & _).
    destruct (fire_step_ok _ _ _ _ _ Hf Hrm) as (Hr1 & Ef).
    destruct (status_step_ok _ _ _ _ Hs Hr1) as (Hr2 & Es).
    assert (r2 = 0) by (destruct Hr2 as [-> | ->]; [reflexivity | discriminate E]).
    subst r2. destruct (proj1 Es eq_refl) as (-> & _).
    destruct (proj1 Ef eq_refl) as (-> & _).
    cbn [outstanding].
    assert (Em : outstanding false tm = Some false).
    { destruct Hm as [(_ & -> & _) | (cmd & Hc & Hm)]; [reflexivity|].
      apply (move_run_framed _ _ _ _ _ Hc Hm). }
    assert (Ef' : outstanding false tf = Some false).
    { destruct Hf as [(_ & -> & _) | (_ & _ & Hf)]; [reflexivity|].
      apply (fire_run_stopped _ _ Hf). }
    assert (Es' : outstanding false ts = Some false).
    { destruct Hs as [(_ & -> & _) | (_ & _ & Hs)]; [reflexivity|].
      apply (status_run_framed _ _ _ Hs). }
    rewrite outstanding_app, Em. cbv iota beta.
    rewrite outstanding_app, Ef'. cbv iota beta.
    rewrite outstanding_app, Es'. reflexivity.
  - destruct Hd as (_ & Hd). discriminate Hd.
Qed.

(** *** Reads answer requests *)

Lemma answering_app (l1 : list event) : forall (q : bool) (l2 : list event),
  answering q (l1 ++ l2) =
  match answering q l1 with
  | Some q' => answering q' l2
  | None => None
  end.
Proof.
  induction l1 as [|e l1 IH]; intros q l2; [reflexivity|].
  destruct e as [| buf r | | |]; cbn [app answering]; auto.
  - destruct buf as [|z [|c [|]]]; auto.
  - destruct q; auto.
Qed.

Lemma polls_answering (st : Z) (tr : list event) (res : option Z) :
  polls st tr res -> answering false tr = Some false.
Proof.
  induction 1; cbn [answering GET_STATUS_REPORT]; rewrite ?Z.eqb_refl; cbn [andb];
    repeat match goal with
           | H : _ < 0 |- _ => rewrite (proj2 (Z.leb_gt _ _) H)
           | H : 0 <= _ |- _ => rewrite (proj2 (Z.leb_le _ _) H)
           end; auto.
Qed.

Lemma fire_run_answering (junk : Z) (tr : list event) (res : option Z) :
  fire_run junk tr res -> answering false tr = Some false.
Proof.
  intros [r Hr | r tr' Hr Hp | r tr' Hr Hp | r tr' rs Hr Hp];
    unfold FIRE_REPORT; cbn [answering];
    change (CMD_FIRE =? CMD_GET_STATUS) with false;
    rewrite Bool.andb_false_r; cbn [andb].
  - reflexivity.
  - eapply polls_answering; eassumption.
  - eapply polls_answering; eassumption.
  - rewrite answering_app, (polls_answering _ _ _ Hp). reflexivity.
Qed.

Lemma move_run_answering (m : movement) (cmd d : Z) (tr : list event) (r : Z) :
  movement_cmd m = Some cmd ->
  move_run cmd d tr r -> answering false tr = Some false.
Proof.
  intros Hm Hr.
  assert (Hc : (cmd =? CMD_GET_STATUS) = false)
    by (destruct m; inversion Hm; reflexivity).
  destruct Hr; cbn [answering];
    [rewrite Hc, Bool.andb_false_r; reflexivity | reflexivity].
Qed.

Lemma status_run_answering (tr : list event) (r : Z) :
  status_run tr r -> answering false tr = Some false.
Proof.
  intros [rw Hrw | rw rr data Hrw]; cbn [answering GET_STATUS_REPORT];
    rewrite ?Z.eqb_refl; cbn [andb].
  - rewrite (proj2 (Z.leb_gt _ _) Hrw). reflexivity.
  - rewrite (proj2 (Z.leb_le _ _) Hrw). reflexivity.
Qed.

Lemma device_run_answering (a : arguments) (junk : Z) (tr : list event) (res : run) :
  device_run a junk tr res -> answering false tr = Some false.
Proof.
  intros (opened & rest & -> & H). cbn [answering]. destruct opened.
  - destruct H as (tm & rm & tf & rf & Hm & Hf & H).
    assert (Em : answering false tm = Some false).
    { destruct Hm as [(_ & -> & _) | (cmd & Hc & Hm)]; [reflexivity|].
      eapply move_run_answering; eassumption. }
    assert (Ef : answering false tf = Some false).
    { destruct Hf as [(_ & -> & _) | (_ & _ & Hf)]; [reflexivity|].
      eapply fire_run_answering; eassumption. }
    destruct rf as [r1|].
    + destruct H as (ts & r2 & Hs & -> & _).
      assert (Es : answering false ts = Some false).
      { destruct Hs as [(_ & -> & _) | (_ & _ & Hs)]; [reflexivity|].
        eapply status_run_answering; eassumption. }
      rewrite answering_app, Em. cbv iota beta.
      rewrite answering_app, Ef. cbv iota beta.
      rewrite answering_app, Es. reflexivity.
    + destruct H as (-> & _). rewrite answering_app, Em. exact Ef.
  - destruct H as (-> & _). reflexivity.
Qed.

(** X3: [main] never reads from the device unless the call right before
    the read was a GetStatus report written with success; this holds at
    every point of a run. *)
Theorem reads_answer_requests (fuel : nat) (junk_f junk_p : Z)
    (opts : list (Z * option string)) (w : world) (pre post : list event) :
  trace (snd (main fuel junk_f junk_p opts w)) = trace w ++ pre ++ post ->
  exists q, answering false pre = Some q.
Proof.
  intros Hpre.
  destruct (main_run fuel junk_f junk_p opts w) as (tr & Htr & H).
  rewrite Hpre in Htr. apply app_inv_head in Htr. subst tr.
  assert (Hall : answering false (pre ++ post) = Some false).
  { destruct H as [(-> & _) | [(-> & _) | (r & a & _ & Hd)]]; try reflexivity.
    eapply device_run_answering; eassumption. }
  rewrite answering_app in Hall.
  destruct (answering false pre) as [q|]; [eauto | discriminate].
Qed.

(** *** Time asleep *)

Lemma slept_app (l1 l2 : list event) : slept (l1 ++ l2) = slept l1 + slept l2.
Proof.
  induction l1 as [|e l1 IH]; [reflexivity|].
  destruct e; cbn [app slept]; lia.
Qed.

Lemma polls_slept (st : Z) (tr : list event) (res : option Z) :
  polls st tr res -> slept tr = 0.
Proof. induction 1; cbn [slept]; auto. Qed.

Lemma fire_run_slept (junk : Z) (tr : list event) (res : option Z) :
  fire_run junk tr res -> slept tr = 0 \/ slept tr = FIRE_HOLD_TIME_US.
Proof.
  intros [r Hr | r tr' Hr Hp | r tr' Hr Hp | r tr' rs Hr Hp]; cbn [slept];
    rewrite ?slept_app, ?(polls_slept _ _ _ Hp); cbn; auto.
Qed.

Lemma device_run_slept (a : arguments) (junk : Z) (tr : list event) (res : run) :
  device_run a junk tr res ->
  0 <= movement_duration a ->
  0 <= slept tr <= movement_duration a + FIRE_HOLD_TIME_US.
Proof.
  intros (opened & rest & -> & H) Hd. cbn [slept].
  assert (HF : FIRE_HOLD_TIME_US = 500000) by reflexivity.
  destruct opened.
  - destruct H as (tm & rm & tf & rf & Hm & Hf & H).
    assert (Em : slept tm = 0 \/ slept tm = movement_duration a).
    { destruct Hm as [(_ & -> & _) | (cmd & _ & Hm)]; [auto|].
      destruct Hm; cbn; auto. right; lia. }
    assert (Ef : slept tf = 0 \/ slept tf = FIRE_HOLD_TIME_US).
    { destruct Hf as [(_ & -> & _) | (_ & _ & Hf)]; [auto|].
      eapply fire_run_slept; eassumption. }
    destruct rf as [r1|].
    + destruct H as (ts & r2 & Hs & -> & _).
      assert (Es : slept ts = 0).
      { destruct Hs as [(_ & -> & _) | (_ & _ & Hs)]; [auto|].
        destruct Hs; reflexivity. }
      rewrite !slept_app, Es. cbn. lia.
    + destruct H as (-> & _). rewrite slept_app. lia.
  - destruct H as (-> & _). cbn. lia.
Qed.

(** *** Polling without a bound *)

Lemma fire_poll_quiet (fuel : nat) : forall (st : Z) (w : world),
  quiet_polls fuel st (bus w) = true ->
  fst (fire_poll fuel st w) = None /\
  exists tr,
    trace (snd (fire_poll fuel st w)) = trace w ++ tr /\
    List.length tr = (2 * fuel)%nat /\
    count (is_write_of CMD_GET_STATUS) tr = fuel /\
    count is_read tr = fuel /\
    forallb is_poll_event tr = true.
Proof.
  induction fuel as [|fuel IH]; intros st w Hq.
  - split; [reflexivity|]. exists []. cbn. rewrite app_nil_r. auto.
  - cbn [fire_poll quiet_polls] in *. unfold poll_bus in Hq.
    unfold bind. rewrite get_status_eq.
    destruct (hid_write GET_STATUS_REPORT (bus w)) as [rw b1].
    destruct (Z.ltb_spec rw 0) as [Hw|Hw]; [discriminate|].
    destruct (hid_read 1 b1) as [[rr data] b2]. unfold sent.
    destruct (Z.ltb_spec rr 0) as [Hr|Hr]; [discriminate|]. cbn.
    apply Bool.andb_true_iff in Hq. destruct Hq as [Hflag Hq].
    rewrite Hflag. cbn.
    match goal with |- context [fire_poll fuel ?s ?w1] =>
      destruct (IH s w1 Hq) as (Hres & tr & Htr & Hlen & Hc1 & Hc2 & Hev)
    end.
    split; [exact Hres|].
    exists (HidWrite GET_STATUS_REPORT rw :: HidRead 1 rr data :: tr).
    rewrite Htr. cbn [trace]. rewrite <- app_assoc.
    split; [reflexivity|]. split; [cbn [List.length]; lia|].
    unfold count in *. cbn. rewrite Hc1, Hc2. auto.
Qed.

(** X4: the polling loop of [fire_missile] has no bound: on a bus that,
    after the Fire report, answers [n] status round trips with the fired
    bit clear, [fire_missile] makes all [n] round trips and is still
    polling; it has not slept and has not written the Stop report. *)
Theorem fire_polls_without_bound (n : nat) (junk : Z) (w : world) (r : Z) (b1 : B) :
  hid_write FIRE_REPORT (bus w) = (r, b1) ->
  0 <= r ->
  quiet_polls n junk b1 = true ->
  fst (fire_missile n junk w) = None /\
  exists tr,
    trace (snd (fire_missile n junk w)) = trace w ++ HidWrite FIRE_REPORT r :: tr /\
    List.length tr = (2 * n)%nat /\
    count (is_write_of CMD_GET_STATUS) tr = n /\
    count is_read tr = n /\
    count is_sleep tr = 0%nat /\
    count (is_write_of CMD_STOP) tr = 0%nat.
Proof.
  intros Hw Hr Hq.
  unfold fire_missile, bind. rewrite send_command_eq.
  change [0; uint8 CMD_FIRE] with FIRE_REPORT. rewrite Hw.
  rewrite (proj2 (sent_zero r) Hr). cbn.
  match goal with |- context [fire_poll n junk ?w1] =>
    destruct (fire_poll_quiet n junk w1 Hq) as (Hres & tr & Htr & Hlen & Hc1 & Hc2 & Hev);
    destruct (fire_poll n junk w1) as [res w2]
  end.
  cbn in Hres, Htr. subst res. cbn. split; [reflexivity|].
  exists tr. rewrite Htr, <- app_assoc. repeat split; auto.
  - apply count_none with (q := is_poll_event); auto using poll_event_not_sleep.
  - apply count_none with (q := is_poll_event); auto.
    apply poll_event_not_write_of. discriminate.
Qed.

(** *** The uninitialised status byte *)

Lemma get_status_junk (j1 j2 : Z) (w : world) :
  reads_fill ->
  snd (get_status j1 w) = snd (get_status j2 w) /\
  fst (fst (get_status j1 w)) = fst (fst (get_status j2 w)) /\
  (fst (fst (get_status j1 w)) = 0 \/ fst (fst (get_status j1 w)) = -1) /\
  (fst (fst (get_status j1 w)) = 0 ->
   snd (fst (get_status j1 w)) = snd (fst (get_status j2 w))).
Proof.
  intros Hfill. rewrite !get_status_eq.
  destruct (hid_write GET_STATUS_REPORT (bus w)) as [rw b1].
  destruct (rw <? 0); cbn.
  - repeat split; auto. discriminate.
  - pose proof (Hfill 1 b1) as Hf.
    destruct (hid_read 1 b1) as [[rr data] b2]. cbn in *.
    repeat split.
    + destruct (sent_cases rr) as [[_ ->] | [_ ->]]; auto.
    + intros Hs%sent_zero. destruct data as [|x data]; [now elim Hf | reflexivity].
Qed.

Lemma fire_poll_junk (fuel : nat) : forall (j1 j2 : Z) (w : world),
  reads_fill -> fire_poll fuel j1 w = fire_poll fuel j2 w.
Proof.
  induction fuel as [|fuel IH]; intros j1 j2 w Hfill; [reflexivity|].
  cbn [fire_poll]. unfold bind.
  destruct (get_status_junk j1 j2 w Hfill) as (Ew & Er & Hr & Es).
  destruct (get_status j1 w) as [[r1 s1] w1], (get_status j2 w) as [[r2 s2] w2].
  cbn in Ew, Er, Hr, Es. subst w2 r2.
  destruct Hr as [-> | ->]; cbn.
  - rewrite <- (Es eq_refl). reflexivity.
  - rewrite !Bool.andb_false_r. reflexivity.
Qed.

(** X5: provided every read that succeeds delivers at least one byte,
    the uninitialised [status] locals of [fire_missile] and
    [print_status] are never observable: whatever they hold, a run of
    [main] returns the same, makes the same calls and prints the same. *)
Theorem uninitialised_status_unobservable (fuel : nat)
    (junk_f junk_p junk_f' junk_p' : Z) (opts : list (Z * option string))
    (w : world) :
  reads_fill ->
  main fuel junk_f junk_p opts w = main fuel junk_f' junk_p' opts w.
Proof.
  intros Hfill.
  assert (Hfire : forall w0, fire_missile fuel junk_f w0 = fire_missile fuel junk_f' w0).
  { intros w0. unfold fire_missile, bind.
    destruct (send_command CMD_FIRE w0) as [r w1].
    destruct (negb (r =? 0)); [reflexivity|].
    rewrite (fire_poll_junk fuel junk_f junk_f' w1 Hfill). reflexivity. }
  assert (Hprint : forall w0, print_status junk_p w0 = print_status junk_p' w0).
  { intros w0. unfold print_status, bind.
    destruct (get_status_junk junk_p junk_p' w0 Hfill) as (Ew & Er & Hr & Es).
    destruct (get_status junk_p w0) as [[r1 s1] w1],
             (get_status junk_p' w0) as [[r2 s2] w2].
    cbn in Ew, Er, Hr, Es. subst w2 r2.
    destruct Hr as [-> | ->]; cbn; [|reflexivity].
    rewrite <- (Es eq_refl). reflexivity. }
  unfold main, bind.
  destruct (argp_parse opts default_arguments w) as [[r a| |] w1]; try reflexivity.
  unfold main_device, bind.
  destruct (io_hid_open LAUNCHER_VID LAUNCHER_PID w1) as [opened w2].
  destruct (negb opened); [reflexivity|].
  destruct (main_move a EXIT_SUCCESS w2) as [r1 w3].
  assert (Hmf : main_fire fuel junk_f a r1 w3 = main_fire fuel junk_f' a r1 w3).
  { unfold main_fire, bind. destruct (fire a && (r1 =? EXIT_SUCCESS)); [|reflexivity].
    rewrite Hfire. reflexivity. }
  rewrite Hmf. destruct (main_fire fuel junk_f' a r1 w3) as [[r2|] w4]; [|reflexivity].
  assert (Hms : main_status junk_p a r2 w4 = main_status junk_p' a r2 w4).
  { unfold main_status, bind. destruct (display_status a && (r2 =? EXIT_SUCCESS)); [|reflexivity].
    rewrite Hprint. reflexivity. }
  rewrite Hms. reflexivity.
Qed.

(** *** The time option *)

Lemma parse_time (s : string) (n : Z) (a : arguments) (w : @world B) :
  parse_opt (code "t") (Some s) n a w =
  if (snd (strtoul s) =? EmptyString)%string && (fst (strtoul s) <? 10000)
  then (Returned 0 (set_duration (useconds (fst (strtoul s) * 1000)) a), w)
  else (UsageExit, complained "Invalid duration specified" w).
Proof.
  unfold parse_opt.
  change (code "t" =? code "m") with false.
  change (code "t" =? code "f") with false.
  change (code "t" =? code "t") with true. cbv iota.
  destruct (strtoul s) as [d e]. cbn [fst snd andb].
  destruct ((e =? EmptyString)%string && (d <? 10000)); reflexivity.
Qed.

Lemma strtoul_steps (nptr : string) (neg : bool) (s1 : string) (base : Z)
    (s2 : string) (v : Z) (rest : string) :
  strip_sign (skip_space nptr) = (neg, s1) ->
  detect_base s1 = (base, s2) ->
  scan_digits base 0 false s2 = (v, true, rest) ->
  strtoul nptr =
  (if ULONG_MAX <? v then ULONG_MAX
   else if neg then (- v) mod 2 ^ 64 else v, rest).
Proof.
  intros H1 H2 H3. unfold strtoul. rewrite H1, H2, H3. cbn [negb].
  destruct (ULONG_MAX <? v); reflexivity.
Qed.

Lemma digit_value_char (d : Z) :
  0 <= d < 36 -> digit_value (digit_char d) = Some d.
Proof.
  intros Hd.
  assert (Hall : forallb (fun x => match digit_value (digit_char x) with
                                   | Some y => y =? x
                                   | None => false
                                   end) (map Z.of_nat (seq 0 36)) = true)
    by (vm_compute; reflexivity).
  rewrite forallb_forall in Hall.
  assert (Hin : In d (map Z.of_nat (seq 0 36))).
  { rewrite <- (Z2Nat.id d) by lia. apply in_map, in_seq. lia. }
  specialize (Hall d Hin).
  destruct (digit_value (digit_char d)) as [y|]; [|discriminate].
  apply Z.eqb_eq in Hall. now subst.
Qed.

Lemma scan_numeral (base : Z) (tail : string) :
  base <= 36 -> stops base tail ->
  forall (ds : list Z) (acc : Z) (any : bool),
    digits_below base ds ->
    scan_digits base acc any (numeral ds ++ tail)%string =
    (fold_left (fun x d => x * base + d) ds acc,
     any || negb (match ds with [] => true | _ => false end), tail).
Proof.
  intros Hb Ht. induction ds as [|d ds IH]; intros acc any Hds.
  - cbn. rewrite Bool.orb_false_r. destruct tail as [|c rest]; [reflexivity|].
    cbn in *. unfold is_digit_of in Ht.
    destruct (digit_value c) as [x|]; [rewrite Ht|]; reflexivity.
  - inversion Hds as [|? ? Hd Hds']; subst.
    cbn [numeral append scan_digits fold_left].
    rewrite digit_value_char by lia.
    rewrite (proj2 (Z.ltb_lt _ _) (proj2 Hd)).
    rewrite IH by assumption. rewrite Bool.orb_true_r. reflexivity.
Qed.

Lemma digits_fold_nonneg (base : Z) (ds : list Z) :
  0 <= base -> digits_below base ds ->
  forall acc : Z, 0 <= acc -> 0 <= fold_left (fun x d => x * base + d) ds acc.
Proof.
  intros Hb Hds. induction Hds as [|d ds Hd _ IH]; intros acc Hacc; cbn;
    [exact Hacc|].
  apply IH. nia.
Qed.

Lemma numeral_value_nonneg (base : Z) (ds : list Z) :
  0 <= base -> digits_below base ds -> 0 <= numeral_value base ds.
Proof. intros Hb Hds. apply digits_fold_nonneg; auto. lia. Qed.

Lemma digits_fold_pos (base : Z) (ds : list Z) :
  1 <= base -> digits_below base ds ->
  forall acc : Z, 1 <= acc -> 1 <= fold_left (fun x d => x * base + d) ds acc.
Proof.
  intros Hb Hds. induction Hds as [|d ds Hd _ IH]; intros acc Hacc; cbn;
    [exact Hacc|].
  apply IH. nia.
Qed.

Lemma string_app_empty (s : string) : (s ++ EmptyString)%string = s.
Proof. induction s as [|c s IH]; cbn; [reflexivity | now rewrite IH]. Qed.

Lemma skip_space_white (cs : list ascii) (s : string) :
  Forall (fun c => isspace c = true) cs ->
  skip_space (white cs ++ s)%string = skip_space s.
Proof.
  induction 1 as [|c cs Hc _ IH]; [reflexivity|].
  cbn [white append skip_space]. rewrite Hc. exact IH.
Qed.

Lemma decimal_digit_cases (d : Z) :
  0 <= d <= 9 ->
  d = 0 \/ d = 1 \/ d = 2 \/ d = 3 \/ d = 4 \/ d = 5 \/ d = 6 \/ d = 7 \/
  d = 8 \/ d = 9.
Proof. lia. Qed.

Ltac each_decimal_digit H :=
  apply decimal_digit_cases in H;
  repeat (destruct H as [-> | H]; [reflexivity|]); subst; reflexivity.

Lemma skip_space_digit (d : Z) (s : string) :
  0 <= d <= 9 ->
  skip_space (String (digit_char d) s) = String (digit_char d) s.
Proof. intros H. each_decimal_digit H. Qed.

Lemma strip_sign_digit (d : Z) (s : string) :
  0 <= d <= 9 ->
  strip_sign (String (digit_char d) s) = (false, String (digit_char d) s).
Proof. intros H. each_decimal_digit H. Qed.

Lemma digit_not_x (d : Z) :
  0 <= d <= 9 ->
  (code (digit_char d) =? code "x") || (code (digit_char d) =? code "X") = false.
Proof. intros H. each_decimal_digit H. Qed.

Lemma detect_base_decimal (d : Z) (s : string) :
  1 <= d <= 9 ->
  detect_base (String (digit_char d) s) = (10, String (digit_char d) s).
Proof.
  intros H. assert (H' : 0 <= d <= 9) by lia.
  apply decimal_digit_cases in H'.
  destruct H' as [-> | H']; [lia|].
  repeat (destruct H' as [-> | H']; [reflexivity|]); subst; reflexivity.
Qed.

Lemma detect_base_zero (s : string) :
  match s with
  | String x _ => (code x =? code "x") || (code x =? code "X") = false
  | EmptyString => True
  end ->
  detect_base (String "0" s) = (8, String "0" s).
Proof.
  destruct s as [|x [|h t]]; cbn [detect_base]; intros H; try reflexivity.
  rewrite H. reflexivity.
Qed.

Lemma useconds_small (v : Z) : 0 <= v < 10000 -> useconds (v * 1000) = 1000 * v.
Proof.
  intros H. unfold useconds. change (2 ^ 32) with 4294967296.
  rewrite Z.mod_small; lia.
Qed.

(** The outcome of the time option when [strtoul] converts the whole
    of a numeral of value [v], or stops at [tail]. *)
Lemma parse_time_value (s tail : string) (v : Z) (n : Z) (a : arguments)
    (w : @world B) :
  strtoul s = ((if ULONG_MAX <? v then ULONG_MAX else v), tail) ->
  0 <= v ->
  parse_opt (code "t") (Some s) n a w =
  if (tail =? EmptyString)%string && (v <? 10000)
  then (Returned 0 (set_duration (1000 * v) a), w)
  else (UsageExit, complained "Invalid duration specified" w).
Proof.
  intros Hs Hv. rewrite parse_time, Hs. cbn [fst snd].
  destruct (tail =? EmptyString)%string; cbn [andb]; [|reflexivity].
  destruct (Z.ltb_spec ULONG_MAX v) as [Hbig|Hbig].
  - change (ULONG_MAX <? 10000) with false.
    unfold ULONG_MAX in Hbig. rewrite (proj2 (Z.ltb_ge _ _)) by lia. reflexivity.
  - destruct (Z.ltb_spec v 10000); [|reflexivity].
    rewrite useconds_small by lia. reflexivity.
Qed.

(** X6: the time option on a decimal numeral without a leading zero,
    possibly after white space and a plus sign: the numeral is accepted
    iff nothing follows it and its value is below 10000, and the
    duration becomes that many milliseconds; anything after the digits
    (a unit, a trailing blank) makes the option a usage error. *)
Theorem time_decimal (cs : list ascii) (plus : bool) (d0 : Z) (ds : list Z)
    (tail : string) (n : Z) (a : arguments) (w : @world B) :
  Forall (fun c => isspace c = true) cs ->
  1 <= d0 <= 9 ->
  digits_below 10 ds ->
  stops 10 tail ->
  parse_opt (code "t")
    (Some (white cs ++ (if plus then "+" else EmptyString)
           ++ numeral (d0 :: ds) ++ tail)%string) n a w =
  if (tail =? EmptyString)%string && (numeral_value 10 (d0 :: ds) <? 10000)
  then (Returned 0 (set_duration (1000 * numeral_value 10 (d0 :: ds)) a), w)
  else (UsageExit, complained "Invalid duration specified" w).
Proof.
  intros Hcs Hd0 Hds Htail.
  assert (Hall : digits_below 10 (d0 :: ds)) by (constructor; [lia | exact Hds]).
  apply parse_time_value; [|apply numeral_value_nonneg; [lia | exact Hall]].
  pose proof (scan_numeral 10 tail ltac:(lia) Htail (d0 :: ds) 0 false Hall) as Hscan.
  cbn [orb negb] in Hscan.
  eapply (strtoul_steps _ false (numeral (d0 :: ds) ++ tail)%string 10
            (numeral (d0 :: ds) ++ tail)%string); [| |exact Hscan].
  - rewrite skip_space_white by assumption.
    cbn [numeral append]. destruct plus; cbn [append].
    + reflexivity.
    + rewrite skip_space_digit by lia. apply strip_sign_digit. lia.
  - cbn [numeral append]. apply detect_base_decimal. exact Hd0.
Qed.

(** X7: the time option reads its argument in the bases of C: after a
    leading 0 the digits are octal (and 8 or 9 end the numeral, so the
    option is refused), after 0x or 0X they are hexadecimal.  The
    numeral is accepted iff its value in that base is below 10000. *)
Theorem time_octal_hex (n : Z) (a : arguments) (w : @world B) :
  (forall os : list Z,
      digits_below 8 os ->
      parse_opt (code "t") (Some (numeral (0 :: os))) n a w =
      if numeral_value 8 os <? 10000
      then (Returned 0 (set_duration (1000 * numeral_value 8 os) a), w)
      else (UsageExit, complained "Invalid duration specified" w)) /\
  (forall (os : list Z) (d : Z) (rest : string),
      digits_below 8 os -> 8 <= d <= 9 ->
      parse_opt (code "t")
        (Some (numeral (0 :: os) ++ String (digit_char d) rest)%string) n a w =
      (UsageExit, complained "Invalid duration specified" w)) /\
  (forall (upper : bool) (h0 : Z) (hs : list Z),
      digits_below 16 (h0 :: hs) ->
      parse_opt (code "t")
        (Some (String "0" (String (if upper then "X" else "x")%char
                             (numeral (h0 :: hs))))) n a w =
      if numeral_value 16 (h0 :: hs) <? 10000
      then (Returned 0 (set_duration (1000 * numeral_value 16 (h0 :: hs)) a), w)
      else (UsageExit, complained "Invalid duration specified" w)).
Proof.
  split; [| split].
  - intros os Hos.
    assert (Hall : digits_below 8 (0 :: os)) by (constructor; [lia | exact Hos]).
    replace (numeral_value 8 os) with (numeral_value 8 (0 :: os)) by reflexivity.
    replace (if numeral_value 8 (0 :: os) <? 10000
             then (Returned 0 (set_duration (1000 * numeral_value 8 (0 :: os)) a), w)
             else (UsageExit, complained "Invalid duration specified" w))
      with (if (EmptyString =? EmptyString)%string && (numeral_value 8 (0 :: os) <? 10000)
            then (Returned 0 (set_duration (1000 * numeral_value 8 (0 :: os)) a), w)
            else (UsageExit, complained "Invalid duration specified" w))
      by reflexivity.
    apply parse_time_value; [|apply numeral_value_nonneg; [lia | exact Hall]].
    pose proof (scan_numeral 8 EmptyString ltac:(lia) I (0 :: os) 0 false Hall) as Hscan.
    rewrite string_app_empty in Hscan. cbn [orb negb] in Hscan.
    eapply (strtoul_steps _ false (numeral (0 :: os)) 8 (numeral (0 :: os)));
      [reflexivity | | exact Hscan].
    cbn [numeral]. change (digit_char 0) with "0"%char.
    apply detect_base_zero.
    destruct Hos as [|o os' Ho _]; [exact I|].
    cbn [numeral]. apply digit_not_x. lia.
  - intros os d rest Hos Hd.
    assert (Hall : digits_below 8 (0 :: os)) by (constructor; [lia | exact Hos]).
    assert (Hstop : stops 8 (String (digit_char d) rest)).
    { cbn. unfold is_digit_of. rewrite digit_value_char by lia.
      apply Z.ltb_ge. lia. }
    replace (UsageExit, complained "Invalid duration specified" w)
      with (if (String (digit_char d) rest =? EmptyString)%string
               && (numeral_value 8 (0 :: os) <? 10000)
            then (Returned 0 (set_duration (1000 * numeral_value 8 (0 :: os)) a), w)
            else (UsageExit, complained "Invalid duration specified" w))
      by reflexivity.
    apply parse_time_value; [|apply numeral_value_nonneg; [lia | exact Hall]].
    pose proof (scan_numeral 8 _ ltac:(lia) Hstop (0 :: os) 0 false Hall) as Hscan.
    cbn [orb negb] in Hscan.
    eapply (strtoul_steps _ false _ 8 _); [reflexivity | | exact Hscan].
    cbn [numeral append]. change (digit_char 0) with "0"%char.
    apply detect_base_zero.
    destruct Hos as [|o os' Ho _]; cbn [numeral append]; apply digit_not_x; lia.
  - intros upper h0 hs Hhs.
    assert (Hh0 : 0 <= h0 < 16) by (inversion Hhs; assumption).
    replace (if numeral_value 16 (h0 :: hs) <? 10000
             then (Returned 0 (set_duration (1000 * numeral_value 16 (h0 :: hs)) a), w)
             else (UsageExit, complained "Invalid duration specified" w))
      with (if (EmptyString =? EmptyString)%string && (numeral_value 16 (h0 :: hs) <? 10000)
            then (Returned 0 (set_duration (1000 * numeral_value 16 (h0 :: hs)) a), w)
            else (UsageExit, complained "Invalid duration specified" w))
      by reflexivity.
    apply parse_time_value; [|apply numeral_value_nonneg; [lia | exact Hhs]].
    pose proof (scan_numeral 16 EmptyString ltac:(lia) I (h0 :: hs) 0 false Hhs) as Hscan.
    rewrite string_app_empty in Hscan. cbn [orb negb] in Hscan.
    assert (Hdig : is_digit_of 16 (digit_char h0) = true).
    { unfold is_digit_of. rewrite digit_value_char by lia. apply Z.ltb_lt. lia. }
    destruct upper.
    + eapply (strtoul_steps (String "0" (String "X" (numeral (h0 :: hs)))) false
                (String "0" (String "X" (numeral (h0 :: hs)))) 16 (numeral (h0 :: hs)));
        [reflexivity | | exact Hscan].
      cbn [numeral detect_base]. rewrite Hdig. reflexivity.
    + eapply (strtoul_steps (String "0" (String "x" (numeral (h0 :: hs)))) false
                (String "0" (String "x" (numeral (h0 :: hs)))) 16 (numeral (h0 :: hs)));
        [reflexivity | | exact Hscan].
      cbn [numeral detect_base]. rewrite Hdig. reflexivity.
Qed.

(** X8: the time option on a minus sign and a decimal numeral of value
    [v] >= 1: [strtoul] negates in the 64-bit unsigned type, so the
    option is refused, unless [v] lies within 9999 below 2^64, where the
    wrapped value 2^64 - [v] is taken as the duration. *)
Theorem time_negative (d0 : Z) (ds : list Z) (n : Z) (a : arguments)
    (w : @world B) :
  1 <= d0 <= 9 ->
  digits_below 10 ds ->
  parse_opt (code "t") (Some (String "-" (numeral (d0 :: ds)))) n a w =
  if (2 ^ 64 - 10000 <? numeral_value 10 (d0 :: ds))
     && (numeral_value 10 (d0 :: ds) <? 2 ^ 64)
  then (Returned 0
          (set_duration (1000 * (2 ^ 64 - numeral_value 10 (d0 :: ds))) a), w)
  else (UsageExit, complained "Invalid duration specified" w).
Proof.
  intros Hd0 Hds.
  assert (Hall : digits_below 10 (d0 :: ds)) by (constructor; [lia | exact Hds]).
  assert (Hv : 1 <= numeral_value 10 (d0 :: ds)).
  { unfold numeral_value. cbn [fold_left]. apply digits_fold_pos; [lia | exact Hds | lia]. }
  set (v := numeral_value 10 (d0 :: ds)) in *.
  pose proof (scan_numeral 10 EmptyString ltac:(lia) I (d0 :: ds) 0 false Hall) as Hscan.
  rewrite string_app_empty in Hscan. cbn [orb negb] in Hscan.
  assert (Hs : strtoul (String "-" (numeral (d0 :: ds))) =
               ((if ULONG_MAX <? v then ULONG_MAX else (- v) mod 2 ^ 64), EmptyString)).
  { eapply (strtoul_steps _ true (numeral (d0 :: ds)) 10 (numeral (d0 :: ds)));
      [reflexivity | | exact Hscan].
    cbn [numeral]. apply detect_base_decimal. exact Hd0. }
  rewrite parse_time, Hs. cbn [fst snd]. cbn [String.eqb andb].
  unfold ULONG_MAX. change (2 ^ 64) with 18446744073709551616 in *.
  destruct (Z.ltb_spec (18446744073709551616 - 1) v) as [Hbig|Hbig].
  - rewrite (proj2 (Z.ltb_ge v 18446744073709551616)) by lia.
    rewrite Bool.andb_false_r. reflexivity.
  - assert (Hneg : (- v) mod 18446744073709551616 = 18446744073709551616 - v).
    { rewrite <- (Z.mod_add (- v) 1 18446744073709551616) by lia.
      rewrite Z.mod_small by lia. lia. }
    rewrite Hneg. rewrite (proj2 (Z.ltb_lt v 18446744073709551616)) by lia.
    rewrite Bool.andb_true_r.
    destruct (Z.ltb_spec (18446744073709551616 - 10000) v) as [Hnear|Hfar].
    + rewrite (proj2 (Z.ltb_lt _ _)) by lia.
      rewrite useconds_small by lia. reflexivity.
    + rewrite (proj2 (Z.ltb_ge _ _)) by lia. reflexivity.
Qed.

(** *** The parsed command line *)

Lemma digit_value_nonneg (c : ascii) (d : Z) : digit_value c = Some d -> 0 <= d.
Proof.
  unfold digit_value.
  repeat match goal with
         | |- context [if ?t then _ else _] => destruct t eqn:?
         end; intros [= <-];
    repeat match goal with
           | H : _ && _ = true |- _ =>
               apply Bool.andb_true_iff in H; destruct H as [H _];
               apply Z.leb_le in H
           end; lia.
Qed.

Lemma scan_digits_nonneg (base : Z) (s : string) : forall (acc : Z) (any : bool),
  0 <= base -> 0 <= acc -> 0 <= fst (fst (scan_digits base acc any s)).
Proof.
  induction s as [|c s IH]; intros acc any Hb Hacc; cbn [scan_digits]; [exact Hacc|].
  destruct (digit_value c) as [d|] eqn:Hd; [|exact Hacc].
  apply digit_value_nonneg in Hd.
  destruct (d <? base); [|exact Hacc].
  apply IH; [exact Hb | nia].
Qed.

Lemma detect_base_nonneg (s : string) : 0 <= fst (detect_base s).
Proof.
  unfold detect_base.
  repeat match goal with
         | |- context [match ?x with _ => _ end] => destruct x
         end; cbn; lia.
Qed.

Lemma strtoul_nonneg (s : string) : 0 <= fst (strtoul s).
Proof.
  unfold strtoul.
  destruct (strip_sign (skip_space s)) as [neg s1].
  pose proof (detect_base_nonneg s1) as Hb.
  destruct (detect_base s1) as [base s2]. cbn [fst] in Hb.
  pose proof (scan_digits_nonneg base s2 0 false Hb ltac:(lia)) as Hv.
  destruct (scan_digits base 0 false s2) as [[v any] rest]. cbn [fst] in Hv.
  destruct any; cbn [negb fst]; [|lia].
  destruct (ULONG_MAX <? v); cbn [fst]; [unfold ULONG_MAX; lia|].
  destruct neg; cbn [fst]; [|exact Hv].
  apply Z.mod_pos_bound. lia.
Qed.

(** What one option does to the parsed arguments. *)
Lemma parse_opt_step (k : Z) (arg : option string) (n : Z) (a : arguments)
    (w : @world B) (r : Z) (a' : arguments) :
  fst (parse_opt k arg n a w) = Returned r a' ->
  fire a' = fire a || (k =? code "f") /\
  display_status a' = display_status a || (k =? code "p") /\
  is_none (arg_movement a') = is_none (arg_movement a) && negb (k =? code "m") /\
  ((k =? code "t") = false -> movement_duration a' = movement_duration a) /\
  ((k =? code "t") = true -> whole_ms (movement_duration a')).
Proof.
  unfold parse_opt.
  destruct (Z.eqb_spec k (code "m")) as [-> | Hm].
  { destruct arg as [s|]; [|discriminate].
    change (code "m" =? code "f") with false.
    change (code "m" =? code "p") with false.
    change (code "m" =? code "t") with false.
    repeat match goal with
           | |- context [if ?c then _ else _] => destruct c
           end; cbn; try discriminate; intros [= <- <-]; cbn;
      rewrite ?Bool.orb_false_r, ?Bool.andb_false_r; repeat split; auto; discriminate. }
  destruct (Z.eqb_spec k (code "f")) as [-> | Hf].
  { change (code "f" =? code "p") with false.
    change (code "f" =? code "t") with false.
    cbn. intros [= <- <-]. cbn.
    rewrite ?Bool.orb_false_r, ?Bool.orb_true_r, ?Bool.andb_true_r.
    repeat split; auto; discriminate. }
  destruct (Z.eqb_spec k (code "t")) as [-> | Ht].
  { destruct arg as [s|]; [|discriminate].
    change (code "t" =? code "p") with false.
    pose proof (strtoul_nonneg s) as Hd.
    destruct (strtoul s) as [d e]. cbn [fst] in Hd. cbn [andb].
    destruct (e =? EmptyString)%string; cbn [andb]; [|discriminate].
    destruct (Z.ltb_spec d 10000) as [Hlt|]; [|discriminate].
    cbn. intros [= <- <-]. cbn.
    rewrite ?Bool.orb_false_r, ?Bool.andb_true_r.
    repeat split; auto; try discriminate.
    intros _. exists d. split; [lia|]. rewrite useconds_small; lia. }
  destruct (Z.eqb_spec k (code "p")) as [-> | Hp].
  { cbn. intros [= <- <-]. cbn.
    rewrite ?Bool.orb_false_r, ?Bool.orb_true_r, ?Bool.andb_true_r.
    repeat split; auto; discriminate. }
  destruct (k =? ARGP_KEY_ARG).
  { destruct (0 <=? n); cbn; [discriminate|].
    intros [= <- <-].
    rewrite ?Bool.orb_false_r, ?Bool.andb_true_r. repeat split; auto; discriminate. }
  cbn. intros [= <- <-].
  rewrite ?Bool.orb_false_r, ?Bool.andb_true_r. repeat split; auto; discriminate.
Qed.

Lemma argp_parse_step (opts : list (Z * option string)) :
  forall (a : arguments) (w : @world B) (r : Z) (a' : arguments),
    fst (argp_parse opts a w) = Returned r a' ->
    fire a' = fire a || has_key "f" opts /\
    display_status a' = display_status a || has_key "p" opts /\
    is_none (arg_movement a') = is_none (arg_movement a) && negb (has_key "m" opts) /\
    (has_key "t" opts = false -> movement_duration a' = movement_duration a) /\
    (whole_ms (movement_duration a) -> whole_ms (movement_duration a')).
Proof.
  induction opts as [|[k arg] opts IH]; intros a w r a'.
  - cbn. intros [= <- <-].
    rewrite ?Bool.orb_false_r, ?Bool.andb_true_r. auto.
  - cbn [argp_parse]. unfold bind.
    pose proof (parse_opt_step k arg 0 a w) as Hstep.
    destruct (parse_opt k arg 0 a w) as [[r1 a1| |] w1]; cbn [fst] in *;
      try discriminate.
    intros H. apply IH in H. destruct H as (Hf & Hp & Hm & Ht & Hw).
    destruct (Hstep r1 a1 eq_refl) as (Hf1 & Hp1 & Hm1 & Ht1 & Hw1).
    unfold has_key in *. cbn [existsb fst].
    rewrite Hf, Hp, Hm, Hf1, Hp1, Hm1.
    rewrite !Bool.orb_assoc, Bool.negb_orb, !Bool.andb_assoc.
    repeat split; auto.
    + intros [Hk Ho]%Bool.orb_false_iff. rewrite (Ht Ho). auto.
    + intros Ha. apply Hw. destruct (k =? code "t") eqn:Ek; [auto|].
      rewrite (Ht1 eq_refl). exact Ha.
Qed.

Lemma argp_parse_default (opts : list (Z * option string)) (w : @world B)
    (r : Z) (a : arguments) :
  fst (argp_parse opts default_arguments w) = Returned r a ->
  fire a = has_key "f" opts /\
  display_status a = has_key "p" opts /\
  is_none (arg_movement a) = negb (has_key "m" opts) /\
  (has_key "t" opts = false -> movement_duration a = MOVE_HOLD_TIME_US) /\
  whole_ms (movement_duration a).
Proof.
  intros H. apply argp_parse_step in H. cbn in H.
  destruct H as (Hf & Hp & Hm & Ht & Hw).
  repeat split; auto.
  apply Hw. exists 100. split; [lia | reflexivity].
Qed.

(** X9: what the command line leaves in the parsed arguments: firing is
    requested iff the fire option occurs, the status iff the status
    option occurs, a movement iff the move option occurs, and without
    the time option the duration is the default of 100000 microseconds.
    In every case the duration is a whole number of milliseconds below
    ten seconds, so that it fits [useconds_t]. *)
Theorem parsed_arguments (opts : list (Z * option string)) (w : @world B)
    (r : Z) (a : arguments) :
  fst (argp_parse opts default_arguments w) = Returned r a ->
  fire a = has_key "f" opts /\
  display_status a = has_key "p" opts /\
  is_none (arg_movement a) = negb (has_key "m" opts) /\
  (has_key "t" opts = false -> movement_duration a = MOVE_HOLD_TIME_US) /\
  whole_ms (movement_duration a) /\
  useconds (movement_duration a) = movement_duration a.
Proof.
  intros H. destruct (argp_parse_default _ _ _ _ H) as (Hf & Hp & Hm & Ht & Hms).
  repeat split; auto.
  destruct Hms as (q & Hq & ->). rewrite (Z.mul_comm 1000 q).
  rewrite useconds_small by exact Hq. lia.
Qed.

(** X10: a run of [main] asks [usleep] for at most 10499000
    microseconds in all: the movement time, below ten seconds, and the
    hold time after firing. *)
Theorem main_sleeps_bounded (fuel : nat) (junk_f junk_p : Z)
    (opts : list (Z * option string)) (w : world) (tr : list event) :
  trace (snd (main fuel junk_f junk_p opts w)) = trace w ++ tr ->
  0 <= slept tr <= 9999000 + FIRE_HOLD_TIME_US.
Proof.
  intros Htr.
  destruct (main_run fuel junk_f junk_p opts w) as (tr' & Htr' & H).
  rewrite Htr in Htr'. apply app_inv_head in Htr'. subst tr'.
  destruct H as [(-> & _) | [(-> & _) | (r & a & Ha & Hd)]];
    [cbn; lia | cbn; lia |].
  destruct (argp_parse_default _ _ _ _ Ha) as (_ & _ & _ & _ & (q & Hq & Eq)).
  pose proof (device_run_slept _ _ _ _ Hd ltac:(lia)) as Hs.
  lia.
Qed.

(** *** Nothing without its option *)

Lemma polls_no_move (st : Z) (tr : list event) (res : option Z) :
  polls st tr res ->
  count is_move_write tr = 0%nat /\ count (is_write_of CMD_FIRE) tr = 0%nat.
Proof.
  intros Hp. pose proof (polls_events _ _ _ Hp) as Hev. split.
  - apply count_none with (q := is_poll_event); [|exact Hev].
    intros e. destruct e as [| buf r | | |]; cbn; try congruence.
    destruct buf as [|z [|c [|]]]; try congruence.
    intros [_ ->%Z.eqb_eq]%Bool.andb_true_iff. reflexivity.
  - apply count_none with (q := is_poll_event); [|exact Hev].
    apply poll_event_not_write_of. discriminate.
Qed.

Lemma fire_run_no_move (junk : Z) (tr : list event) (res : option Z) :
  fire_run junk tr res -> count is_move_write tr = 0%nat.
Proof.
  intros [r Hr | r tr' Hr Hp | r tr' Hr Hp | r tr' rs Hr Hp];
    try reflexivity;
    change (HidWrite FIRE_REPORT r :: ?l) with ([HidWrite FIRE_REPORT r] ++ l);
    rewrite ?count_app, (proj1 (polls_no_move _ _ _ Hp)); reflexivity.
Qed.

Lemma move_run_no_fire (m : movement) (cmd d : Z) (tr : list event) (r : Z) :
  movement_cmd m = Some cmd ->
  move_run cmd d tr r ->
  count (is_write_of CMD_FIRE) tr = 0%nat /\
  count (is_write_of CMD_GET_STATUS) tr = 0%nat /\
  count is_read tr = 0%nat.
Proof.
  intros Hm Hr.
  destruct m; inversion Hm; subst; destruct Hr; repeat split; reflexivity.
Qed.

(** X11: [main] does nothing that was not asked for.  Without the fire
    option no Fire report is written; without the move option no Move
    report is written; with neither the fire nor the status option no
    GetStatus report is written and nothing is read. *)
Theorem nothing_without_its_option (fuel : nat) (junk_f junk_p : Z)
    (opts : list (Z * option string)) (w : world) (tr : list event) :
  trace (snd (main fuel junk_f junk_p opts w)) = trace w ++ tr ->
  (has_key "f" opts = false -> count (is_write_of CMD_FIRE) tr = 0%nat) /\
  (has_key "m" opts = false -> count is_move_write tr = 0%nat) /\
  (has_key "f" opts = false -> has_key "p" opts = false ->
   count (is_write_of CMD_GET_STATUS) tr = 0%nat /\ count is_read tr = 0%nat).
Proof.
  intros Htr.
  destruct (main_run fuel junk_f junk_p opts w) as (tr' & Htr' & H).
  rewrite Htr in Htr'. apply app_inv_head in Htr'. subst tr'.
  destruct H as [(-> & _) | [(-> & _) | (r & a & Ha & Hd)]];
    [repeat split; reflexivity | repeat split; reflexivity |].
  destruct (argp_parse_default _ _ _ _ Ha) as (Hf & Hp & Hm & _).
  destruct Hd as (opened & rest & -> & Hd).
  change (HidOpen ?v ?p opened :: rest) with ([HidOpen v p opened] ++ rest).
  destruct opened; [|destruct Hd as (-> & _); repeat split; reflexivity].
  destruct Hd as (tm & rm & tf & rf & Hsm & Hsf & Hd).
  assert (Hrest : exists ts, rest = tm ++ tf ++ ts ++
                               (match rf with Some _ => [HidClose] | None => [] end) /\
                             (ts = [] \/ (display_status a = true /\ exists r2, status_run ts r2))).
  { destruct rf as [r1|].
    - destruct Hd as (ts & r2 & Hs & -> & _). exists ts. split; [reflexivity|].
      destruct Hs as [(_ & -> & _) | (Hds & _ & Hs)]; eauto.
    - destruct Hd as (-> & _). exists []. rewrite app_nil_r. auto. }
  destruct Hrest as (ts & -> & Hts). clear Hd.
  split; [| split].
  - intros Hnf. rewrite Hnf in Hf. rewrite !count_app.
    assert (Em : count (is_write_of CMD_FIRE) tm = 0%nat).
    { destruct Hsm as [(_ & -> & _) | (cmd & Hc & Hr)]; [reflexivity|].
      apply (move_run_no_fire _ _ _ _ _ Hc Hr). }
    assert (Ef : tf = []).
    { destruct Hsf as [(_ & -> & _) | (Hfa & _)]; [reflexivity | congruence]. }
    assert (Es : count (is_write_of CMD_FIRE) ts = 0%nat).
    { destruct Hts as [-> | (_ & r2 & Hs)]; [reflexivity|]. destruct Hs; reflexivity. }
    rewrite Em, Ef, Es. destruct rf; reflexivity.
  - intros Hnm. rewrite Hnm in Hm. rewrite !count_app.
    assert (Em : tm = []).
    { destruct Hsm as [(_ & -> & _) | (cmd & Hc & _)]; [reflexivity|].
      destruct (arg_movement a); [discriminate Hc | discriminate Hm ..]. }
    assert (Ef : count is_move_write tf = 0%nat).
    { destruct Hsf as [(_ & -> & _) | (_ & _ & Hr)]; [reflexivity|].
      apply (fire_run_no_move _ _ _ Hr). }
    assert (Es : count is_move_write ts = 0%nat).
    { destruct Hts as [-> | (_ & r2 & Hs)]; [reflexivity|]. destruct Hs; reflexivity. }
    rewrite Em, Ef, Es. destruct rf; reflexivity.
  - intros Hnf Hnp. rewrite Hnf in Hf. rewrite Hnp in Hp.
    assert (Ef : tf = []).
    { destruct Hsf as [(_ & -> & _) | (Hfa & _)]; [reflexivity | congruence]. }
    assert (Es : ts = []).
    { destruct Hts as [-> | (Hds & _)]; [reflexivity | congruence]. }
    subst tf ts.
    assert (Em : count (is_write_of CMD_GET_STATUS) tm = 0%nat /\ count is_read tm = 0%nat).
    { destruct Hsm as [(_ & -> & _) | (cmd & Hc & Hr)]; [split; reflexivity|].
      destruct (move_run_no_fire _ _ _ _ _ Hc Hr) as (_ & H1 & H2). auto. }
    destruct Em as [Em1 Em2].
    rewrite !count_app, Em1, Em2. destruct rf; split; reflexivity.
Qed.

(** *** Usage errors *)




(** *** Repeated options *)

Lemma argp_parse_app (o1 o2 : list (Z * option string)) :
  forall (a : arguments) (w : @world B),
    argp_parse (o1 ++ o2) a w =
    match argp_parse o1 a w with
    | (Returned _ a1, w1) => argp_parse o2 a1 w1
    | (stop, w1) => (stop, w1)
    end.
Proof.
  induction o1 as [|[k arg] o1 IH]; intros a w; [reflexivity|].
  cbn [app argp_parse]. unfold bind.
  destruct (parse_opt k arg 0 a w) as [[r1 a1| |] w1]; [apply IH | reflexivity ..].
Qed.

Lemma parse_opt_keeps_movement (k : Z) (arg : option string) (n : Z)
    (a : arguments) (w : @world B) (r : Z) (a' : arguments) :
  fst (parse_opt k arg n a w) = Returned r a' ->
  (k =? code "m") = false ->
  arg_movement a' = arg_movement a.
Proof.
  intros H Hk. revert H. unfold parse_opt. rewrite Hk.
  destruct (k =? code "f"); [cbn; intros [= <- <-]; reflexivity|].
  destruct (k =? code "t").
  { destruct arg as [s|]; [|discriminate].
    destruct (strtoul s) as [d e].
    destruct (_ && _); cbn; [intros [= <- <-]; reflexivity | discriminate]. }
  destruct (k =? code "p"); [cbn; intros [= <- <-]; reflexivity|].
  destruct (k =? ARGP_KEY_ARG).
  { destruct (0 <=? n); cbn; [discriminate | intros [= <- <-]; reflexivity]. }
  cbn. intros [= <- <-]. reflexivity.
Qed.

Lemma argp_parse_keeps_movement (opts : list (Z * option string)) :
  forall (a : arguments) (w : @world B) (r : Z) (a' : arguments),
    fst (argp_parse opts a w) = Returned r a' ->
    has_key "m" opts = false ->
    arg_movement a' = arg_movement a.
Proof.
  induction opts as [|[k arg] opts IH]; intros a w r a'.
  - cbn. intros [= <- <-] _. reflexivity.
  - cbn [argp_parse]. unfold bind, has_key. cbn [existsb fst].
    pose proof (parse_opt_keeps_movement k arg 0 a w) as Hstep.
    destruct (parse_opt k arg 0 a w) as [[r1 a1| |] w1]; cbn [fst] in *;
      try discriminate.
    intros H [Hk Ho]%Bool.orb_false_iff.
    rewrite (IH _ _ _ _ H Ho). apply (Hstep _ _ eq_refl Hk).
Qed.

Lemma parse_move_word (s : string) (n : Z) (a : arguments) (w : @world B)
    (r : Z) (a' : arguments) :
  fst (parse_opt (code "m") (Some s) n a w) = Returned r a' ->
  forall (n0 : Z) (a0 : arguments) (w0 : @world B),
    parse_opt (code "m") (Some s) n0 a0 w0 =
    (Returned 0 (set_movement (arg_movement a') a0), w0).
Proof.
  unfold parse_opt. change (code "m" =? code "m") with true. cbv iota.
  repeat match goal with
         | |- context [if ?c then _ else _] => destruct c
         end; cbn; try discriminate; intros [= <- <-]; reflexivity.
Qed.

(** X15: of several move options the last one counts, and of several
    time options the last one: the parsed movement and duration are
    those the last such option sets by itself, whatever stood before
    it. *)
Theorem last_option_wins (o1 o2 : list (Z * option string)) (s : string)
    (w : @world B) (r : Z) (a : arguments) :
  (fst (argp_parse (o1 ++ (code "m", Some s) :: o2) default_arguments w)
     = Returned r a ->
   has_key "m" o2 = false ->
   exists a1,
     fst (parse_opt (code "m") (Some s) 0 default_arguments w) = Returned 0 a1 /\
     arg_movement a = arg_movement a1 /\
     arg_movement a <> MOVEMENT_NONE) /\
  (fst (argp_parse (o1 ++ (code "t", Some s) :: o2) default_arguments w)
     = Returned r a ->
   has_key "t" o2 = false ->
   exists a1,
     fst (parse_opt (code "t") (Some s) 0 default_arguments w) = Returned 0 a1 /\
     movement_duration a = movement_duration a1).
Proof.
  split.
  - rewrite argp_parse_app.
    destruct (argp_parse o1 default_arguments w) as [[r1 a1| |] w1];
      try discriminate.
    cbn [argp_parse]. unfold bind.
    pose proof (parse_move_word s 0 a1 w1) as Hword.
    pose proof (parse_opt_step (code "m") (Some s) 0 a1 w1) as Hstep.
    destruct (parse_opt (code "m") (Some s) 0 a1 w1) as [[r2 a2| |] w2];
      cbn [fst] in *; try discriminate.
    intros H Hno.
    rewrite (argp_parse_keeps_movement _ _ _ _ _ H Hno).
    exists (set_movement (arg_movement a2) default_arguments).
    rewrite (Hword _ _ eq_refl 0 default_arguments w).
    split; [reflexivity|]. split; [reflexivity|].
    destruct (Hstep _ _ eq_refl) as (_ & _ & Hm & _).
    change (code "m" =? code "m") with true in Hm.
    rewrite Bool.andb_false_r in Hm.
    intros E. rewrite E in Hm. discriminate Hm.
  - rewrite argp_parse_app.
    destruct (argp_parse o1 default_arguments w) as [[r1 a1| |] w1];
      try discriminate.
    cbn [argp_parse]. unfold bind. rewrite !parse_time.
    destruct (_ && _); cbn [fst]; [|discriminate].
    intros H Hno. apply argp_parse_step in H.
    destruct H as (_ & _ & _ & Ht & _). rewrite (Ht Hno).
    eexists. split; reflexivity.
Qed.

(** X16: the time option on an argument that is not a number: when the
    text after white space and an optional sign does not begin with a
    decimal digit, [strtoul] converts nothing and, unless the argument
    is empty, the option is a usage error. *)
Theorem time_not_a_number (s : string) (n : Z) (a : arguments) (w : @world B) :
  s <> EmptyString ->
  stops 10 (snd (strip_sign (skip_space s))) ->
  parse_opt (code "t") (Some s) n a w =
  (UsageExit, complained "Invalid duration specified" w).
Proof.
  intros Hne Hstop. rewrite parse_time.
  assert (Hs : strtoul s = (0, s)).
  { unfold strtoul. destruct (strip_sign (skip_space s)) as [neg s1].
    cbn [snd] in Hstop.
    assert (Hb : detect_base s1 = (10, s1)).
    { destruct s1 as [|c t]; [reflexivity|]. cbn in Hstop.
      destruct c as [[] [] [] [] [] [] [] []];
        try reflexivity; discriminate Hstop. }
    rewrite Hb.
    assert (Hscan : scan_digits 10 0 false s1 = (0, false, s1)).
    { destruct s1 as [|c t]; [reflexivity|]. cbn in *.
      unfold is_digit_of in Hstop.
      destruct (digit_value c) as [d|]; [rewrite Hstop|]; reflexivity. }
    rewrite Hscan. reflexivity. }
  rewrite Hs. cbn [fst snd].
  destruct s as [|c t]; [now elim Hne | reflexivity].
Qed.

(** *** The two output streams *)

Lemma send_command_said (cmd : Z) (w : world) :
  stdout (snd (send_command cmd w)) = stdout w /\
  exists l,
    stderr (snd (send_command cmd w)) = stderr w ++ l /\
    (fst (send_command cmd w) = 0 /\ l = [] \/
     fst (send_command cmd w) = -1 /\ l <> []).
Proof.
  rewrite send_command_eq.
  destruct (hid_write [0; uint8 cmd] (bus w)) as [r b]. unfold sent.
  destruct (r <? 0); cbn; (split; [reflexivity|]).
  - eexists. split; [reflexivity|]. right. split; [reflexivity | discriminate].
  - exists []. rewrite app_nil_r. auto.
Qed.

Lemma get_status_said (st : Z) (w : world) :
  stdout (snd (get_status st w)) = stdout w /\
  exists l,
    stderr (snd (get_status st w)) = stderr w ++ l /\
    (fst (fst (get_status st w)) = 0 /\ l = [] \/
     fst (fst (get_status st w)) = -1 /\ l <> []).
Proof.
  rewrite get_status_eq.
  destruct (hid_write GET_STATUS_REPORT (bus w)) as [rw b1].
  destruct (rw <? 0); cbn.
  - split; [reflexivity|]. eexists. split; [reflexivity|].
    right. split; [reflexivity | discriminate].
  - destruct (hid_read 1 b1) as [[rr data] b2]. unfold sent.
    destruct (rr <? 0); cbn; (split; [reflexivity|]).
    + eexists. split; [reflexivity|]. right. split; [reflexivity | discriminate].
    + exists []. rewrite app_nil_r. auto.
Qed.

Lemma said_more (l : list string) (x : string) : l ++ [x] <> [].
Proof. destruct l; discriminate. Qed.

Lemma fire_poll_said (fuel : nat) : forall (st : Z) (w : world),
  exists l,
    stderr (snd (fire_poll fuel st w)) = stderr w ++ l /\
    match fst (fire_poll fuel st w) with
    | None => l = []
    | Some r => r = 0 /\ l = [] \/ r = -1 /\ l <> []
    end.
Proof.
  induction fuel as [|fuel IH]; intros st w.
  - exists []. cbn. rewrite app_nil_r. auto.
  - cbn [fire_poll]. unfold bind.
    destruct (get_status_said st w) as (_ & l & Hl & Hr).
    destruct (get_status st w) as [[r s] w1]. cbn [fst snd] in *.
    destruct Hr as [(-> & ->) | (-> & Hne)]; cbn.
    + rewrite app_nil_r in Hl. rewrite Bool.andb_true_r.
      destruct (flag s STATUS_DEVICE_FIRED); cbn.
      * exists []. rewrite app_nil_r. auto.
      * destruct (IH s w1) as (l' & Hl' & Hr'). exists l'. rewrite Hl', Hl. auto.
    + rewrite Bool.andb_false_r. cbn.
      exists (l ++ ["Failed to get status"%string]).
      rewrite Hl, <- app_assoc. split; [reflexivity|].
      right. split; [reflexivity | apply said_more].
Qed.

Lemma fire_missile_said (fuel : nat) (junk : Z) (w : world) :
  exists l,
    stderr (snd (fire_missile fuel junk w)) = stderr w ++ l /\
    match fst (fire_missile fuel junk w) with
    | None => l = []
    | Some r => r = 0 /\ l = [] \/ r = -1 /\ l <> []
    end.
Proof.
  unfold fire_missile, bind.
  destruct (send_command_said CMD_FIRE w) as (_ & l & Hl & Hr).
  destruct (send_command CMD_FIRE w) as [r w1]. cbn [fst snd] in *.
  destruct Hr as [(-> & ->) | (-> & Hne)]; cbn.
  - rewrite app_nil_r in Hl.
    destruct (fire_poll_said fuel junk w1) as (l1 & Hl1 & Hr1).
    destruct (fire_poll fuel junk w1) as [[r1|] w2]; cbn [fst snd] in *.
    + destruct Hr1 as [(-> & ->) | (-> & Hne)]; cbn.
      * rewrite app_nil_r in Hl1.
        match goal with |- context [send_command CMD_STOP ?w3] =>
          destruct (send_command_said CMD_STOP w3) as (_ & l2 & Hl2 & Hr2);
          destruct (send_command CMD_STOP w3) as [r2 w4]
        end.
        cbn [fst snd stderr emit] in *.
        destruct Hr2 as [(-> & ->) | (-> & Hne)]; cbn.
        -- exists []. rewrite Hl2, Hl1, Hl. auto.
        -- exists (l2 ++ ["Failed to stop firing"%string]).
           rewrite Hl2, Hl1, Hl, <- app_assoc. split; [reflexivity|].
           right. split; [reflexivity | apply said_more].
      * exists l1. rewrite Hl1, Hl. auto.
    + cbn. exists l1. rewrite Hl1, Hl. auto.
  - exists (l ++ ["Failed to perform requested movement"%string]).
    rewrite Hl, <- app_assoc. split; [reflexivity|].
    right. split; [reflexivity | apply said_more].
Qed.

Lemma move_turret_said (m : movement) (d : Z) (w : world) :
  stdout (snd (move_turret m d w)) = stdout w /\
  exists l,
    stderr (snd (move_turret m d w)) = stderr w ++ l /\
    (fst (move_turret m d w) = 0 /\ l = [] \/
     fst (move_turret m d w) = -1 /\ l <> []).
Proof.
  unfold move_turret, bind.
  destruct (movement_cmd m) as [cmd|].
  - destruct (send_command_said cmd w) as (Ho & l & Hl & Hr).
    destruct (send_command cmd w) as [r w1]. cbn [fst snd] in *.
    destruct Hr as [(-> & ->) | (-> & Hne)]; cbn.
    + rewrite app_nil_r in Hl.
      match goal with |- context [send_command CMD_STOP ?w3] =>
        destruct (send_command_said CMD_STOP w3) as (Ho2 & l2 & Hl2 & Hr2);
        destruct (send_command CMD_STOP w3) as [r2 w4]
      end.
      cbn [fst snd stderr stdout emit] in *.
      destruct Hr2 as [(-> & ->) | (-> & Hne)]; cbn.
      * split; [congruence|]. exists []. rewrite Hl2, Hl. auto.
      * split; [congruence|]. exists (l2 ++ ["Failed to stop movement"%string]).
        rewrite Hl2, Hl, <- app_assoc. split; [reflexivity|].
        right. split; [reflexivity | apply said_more].
    + split; [exact Ho|]. exists (l ++ ["Failed to perform requested movement"%string]).
      rewrite Hl, <- app_assoc. split; [reflexivity|].
      right. split; [reflexivity | apply said_more].
  - cbn. split; [reflexivity|]. eexists. split; [reflexivity|].
    right. split; [reflexivity | discriminate].
Qed.

Lemma print_status_said (junk : Z) (w : world) :
  exists l lines,
    stderr (snd (print_status junk w)) = stderr w ++ l /\
    stdout (snd (print_status junk w)) = stdout w ++ lines /\
    (fst (print_status junk w) = 0 /\ l = [] /\
     (exists st, lines = status_lines (Spec.decode st)) \/
     fst (print_status junk w) = -1 /\ l <> [] /\ lines = []).
Proof.
  unfold print_status, bind.
  destruct (get_status_said junk w) as (Ho & l & Hl & Hr).
  destruct (get_status junk w) as [[r s] w1]. cbn [fst snd] in *.
  destruct Hr as [(-> & ->) | (-> & Hne)]; cbn.
  - exists [], (status_lines (Spec.decode s)).
    rewrite Hl, Ho, <- !app_assoc. repeat split. left. eauto.
  - exists (l ++ ["Failed to retrieve status information"%string]), [].
    rewrite Hl, Ho, <- app_assoc, app_nil_r. repeat split.
    right. repeat split. apply said_more.
Qed.

Lemma main_move_said (a : arguments) (w : world) :
  stdout (snd (main_move a EXIT_SUCCESS w)) = stdout w /\
  exists l,
    stderr (snd (main_move a EXIT_SUCCESS w)) = stderr w ++ l /\
    (fst (main_move a EXIT_SUCCESS w) = EXIT_SUCCESS /\ l = [] \/
     fst (main_move a EXIT_SUCCESS w) = EXIT_FAILURE /\ l <> []).
Proof.
  unfold main_move, bind.
  destruct (negb (is_none (arg_movement a))).
  - destruct (move_turret_said (arg_movement a) (movement_duration a) w)
      as (Ho & l & Hl & Hr).
    destruct (move_turret (arg_movement a) (movement_duration a) w) as [rm w1].
    cbn [fst snd] in *.
    destruct Hr as [(-> & ->) | (-> & Hne)]; cbn.
    + split; [exact Ho|]. exists []. auto.
    + split; [exact Ho|]. exists (l ++ ["Failed to move turret"%string]).
      rewrite Hl, <- app_assoc. split; [reflexivity|].
      right. split; [reflexivity | apply said_more].
  - cbn. split; [reflexivity|]. exists []. rewrite app_nil_r. auto.
Qed.

Lemma main_fire_said (fuel : nat) (junk : Z) (a : arguments) (w : world) :
  stdout (snd (main_fire fuel junk a EXIT_SUCCESS w)) = stdout w /\
  exists l,
    stderr (snd (main_fire fuel junk a EXIT_SUCCESS w)) = stderr w ++ l /\
    match fst (main_fire fuel junk a EXIT_SUCCESS w) with
    | None => l = []
    | Some r => r = EXIT_SUCCESS /\ l = [] \/ r = EXIT_FAILURE /\ l <> []
    end.
Proof.
  unfold main_fire, bind.
  change (EXIT_SUCCESS =? EXIT_SUCCESS) with true. rewrite Bool.andb_true_r.
  destruct (fire a).
  - destruct (fire_missile_said fuel junk w) as (l & Hl & Hr).
    destruct (fire_missile_run fuel junk w) as (_ & _ & _ & Ho).
    destruct (fire_missile fuel junk w) as [[rf|] w1]; cbn [fst snd] in *.
    + destruct Hr as [(-> & ->) | (-> & Hne)]; cbn.
      * split; [exact Ho|]. exists []. auto.
      * split; [exact Ho|]. exists (l ++ ["Failed to fire missile"%string]).
        rewrite Hl, <- app_assoc. split; [reflexivity|].
        right. split; [reflexivity | apply said_more].
    + cbn. split; [exact Ho|]. exists l. auto.
  - cbn. split; [reflexivity|]. exists []. rewrite app_nil_r. auto.
Qed.

Lemma main_status_said (junk : Z) (a : arguments) (w : world) :
  exists l lines,
    stderr (snd (main_status junk a EXIT_SUCCESS w)) = stderr w ++ l /\
    stdout (snd (main_status junk a EXIT_SUCCESS w)) = stdout w ++ lines /\
    (fst (main_status junk a EXIT_SUCCESS w) = EXIT_SUCCESS /\ l = [] /\
     (display_status a = true /\ (exists st, lines = status_lines (Spec.decode st)) \/
      display_status a = false /\ lines = []) \/
     fst (main_status junk a EXIT_SUCCESS w) = EXIT_FAILURE /\ l <> [] /\ lines = []).
Proof.
  unfold main_status, bind.
  change (EXIT_SUCCESS =? EXIT_SUCCESS) with true. rewrite Bool.andb_true_r.
  destruct (display_status a).
  - destruct (print_status_said junk w) as (l & lines & Hl & Ho & Hr).
    destruct (print_status junk w) as [rp w1]. cbn [fst snd] in *.
    destruct Hr as [(-> & -> & Hlines) | (-> & Hne & ->)]; cbn.
    + exists [], lines. split; [exact Hl|]. split; [exact Ho|]. left. auto.
    + exists (l ++ ["Failed to print status information"%string]), [].
      rewrite Hl, Ho, <- app_assoc. repeat split.
      right. repeat split. apply said_more.
  - cbn. exists [], []. rewrite !app_nil_r. repeat split. left. auto.
Qed.

Lemma main_steps_skipped (fuel : nat) (junk_f junk_p : Z) (a : arguments) (w : world) :
  main_fire fuel junk_f a EXIT_FAILURE w = (Some EXIT_FAILURE, w) /\
  main_status junk_p a EXIT_FAILURE w = (EXIT_FAILURE, w).
Proof.
  unfold main_fire, main_status.
  change (EXIT_FAILURE =? EXIT_SUCCESS) with false.
  rewrite !Bool.andb_false_r. split; reflexivity.
Qed.

(** What a run of [main] on the device writes to its two streams. *)
Lemma main_device_said (fuel : nat) (junk_f junk_p : Z) (a : arguments) (w : world) :
  exists l lines,
    stderr (snd (main_device fuel junk_f junk_p a w)) = stderr w ++ l /\
    stdout (snd (main_device fuel junk_f junk_p a w)) = stdout w ++ lines /\
    match fst (main_device fuel junk_f junk_p a w) with
    | Exit status =>
        status = EXIT_SUCCESS /\ l = [] /\
        (display_status a = true /\ (exists st, lines = status_lines (Spec.decode st)) \/
         display_status a = false /\ lines = []) \/
        status = EXIT_FAILURE /\ l <> [] /\ lines = []
    | Polling => l = [] /\ lines = []
    | Undefined => False
    end.
Proof.
  unfold main_device, bind, io_hid_open.
  destruct (hid_open LAUNCHER_VID LAUNCHER_PID (bus w)) as [opened b0].
  destruct opened; cbn [negb].
  2:{ cbn. exists ["Failed to open requested device"%string], [].
      rewrite app_nil_r.
      split; [reflexivity|]. split; [reflexivity|].
      right. repeat split. discriminate. }
  set (w0 := emit (HidOpen LAUNCHER_VID LAUNCHER_PID true) b0 w).
  assert (E0 : stderr w0 = stderr w /\ stdout w0 = stdout w) by (split; reflexivity).
  destruct E0 as [E0 O0].
  destruct (main_move_said a w0) as (Om & lm & Hlm & Hrm).
  destruct (main_move a EXIT_SUCCESS w0) as [r1 w1]. cbn [fst snd] in *.
  destruct Hrm as [(-> & ->) | (-> & Hne)].
  - rewrite app_nil_r in Hlm.
    destruct (main_fire_said fuel junk_f a w1) as (Of & lf & Hlf & Hrf).
    destruct (main_fire fuel junk_f a EXIT_SUCCESS w1) as [[r2|] w2];
      cbn [fst snd] in *.
    + destruct Hrf as [(-> & ->) | (-> & Hne)].
      * rewrite app_nil_r in Hlf.
        destruct (main_status_said junk_p a w2) as (ls & lines & Hls & Os & Hrs).
        destruct (main_status junk_p a EXIT_SUCCESS w2) as [r3 w3].
        cbn [fst snd] in *. cbn.
        exists ls, lines. rewrite Hls, Hlf, Hlm, E0, Os, Of, Om, O0.
        split; [reflexivity|]. split; [reflexivity|].
        destruct Hrs as [(-> & -> & Hd) | (-> & Hne & ->)]; [left | right]; auto.
      * rewrite (proj2 (main_steps_skipped fuel junk_f junk_p a w2)). cbn.
        exists lf, []. rewrite Hlf, Hlm, E0, Of, Om, O0, app_nil_r.
        split; [reflexivity|]. split; [reflexivity|]. right. auto.
    + cbn. subst lf. exists [], []. rewrite Hlf, Hlm, E0, Of, Om, O0, !app_nil_r. auto.
  - rewrite (proj1 (main_steps_skipped fuel junk_f junk_p a w1)).
    rewrite (proj2 (main_steps_skipped fuel junk_f junk_p a w1)). cbn.
    exists lm, []. rewrite Hlm, E0, Om, O0, app_nil_r.
    split; [reflexivity|]. split; [reflexivity|]. right. auto.
Qed.

(** X13: a run of [main] on the device reports on the error stream
    exactly when it fails: it exits with status 0 iff it wrote nothing
    to the error stream, and while [fire_missile] is still polling
    nothing has been written. *)
Theorem errors_are_reported (fuel : nat) (junk_f junk_p : Z) (a : arguments)
    (w : world) :
  exists l,
    stderr (snd (main_device fuel junk_f junk_p a w)) = stderr w ++ l /\
    match fst (main_device fuel junk_f junk_p a w) with
    | Exit status =>
        status = EXIT_SUCCESS /\ l = [] \/ status = EXIT_FAILURE /\ l <> []
    | Polling => l = []
    | Undefined => False
    end.
Proof.
  destruct (main_device_said fuel junk_f junk_p a w) as (l & lines & Hl & _ & H).
  exists l. split; [exact Hl|].
  destruct (fst (main_device fuel junk_f junk_p a w)); intuition.
Qed.

(** X14: a run of [main] on the device prints either nothing or the five
    status lines of one status byte.  It prints them exactly when the
    status was requested and the exit status is 0; a failing run and a
    run still polling print nothing. *)
Theorem status_is_printed_on_success (fuel : nat) (junk_f junk_p : Z)
    (a : arguments) (w : world) :
  exists lines,
    stdout (snd (main_device fuel junk_f junk_p a w)) = stdout w ++ lines /\
    (lines = [] \/ exists st, lines = status_lines (Spec.decode st)) /\
    match fst (main_device fuel junk_f junk_p a w) with
    | Exit status =>
        lines <> [] <-> display_status a = true /\ status = EXIT_SUCCESS
    | Polling => lines = []
    | Undefined => False
    end.
Proof.
  destruct (main_device_said fuel junk_f junk_p a w) as (l & lines & _ & Ho & H).
  exists lines. split; [exact Ho|].
  destruct (fst (main_device fuel junk_f junk_p a w)) as [status| |].
  - destruct H as [(-> & _ & [(Hd & st & ->) | (Hd & ->)]) | (-> & _ & ->)].
    + split; [eauto|]. split; [auto | discriminate].
    + split; [auto|]. split; [congruence | intros [Hd' _]; congruence].
    + split; [auto|]. split; [congruence | intros [_ Hs]; discriminate Hs].
  - destruct H as (_ & ->). auto.
  - destruct H.
Qed.

End More.

(** ** Runs on the scripted bus *)

Lemma C1_fire_witness :
  let w := start three_polls_then_fired in
  let polled :=
    [HidWrite GET_STATUS_REPORT 2; HidRead 1 1 [0];
     HidWrite GET_STATUS_REPORT 2; HidRead 1 1 [0];
     HidWrite GET_STATUS_REPORT 2; HidRead 1 1 [0];
     HidWrite GET_STATUS_REPORT 2; HidRead 1 1 [0x10]] in
  let tr :=
    HidWrite FIRE_REPORT 2
    :: polled ++ [Usleep FIRE_HOLD_TIME_US; HidWrite STOP_REPORT 2] in
  fire_missile 10 0xFF w =
    (Some 0, mkWorld (mkScript true [] []) tr [] []) /\
  (exists tr' rs,
      trace (snd (fire_missile 10 0xFF w)) =
        trace w ++ HidWrite FIRE_REPORT 2 ::
                   tr' ++ [Usleep FIRE_HOLD_TIME_US; HidWrite STOP_REPORT rs] /\
      polls 0xFF tr' (Some 0) /\
      List.length tr' = 8%nat /\
      count (is_write_of CMD_GET_STATUS) tr' = 4%nat /\
      count is_read tr' = 4%nat /\
      count (is_write_of CMD_STOP) tr' = 0%nat /\
      fst (fire_missile 10 0xFF w) = Some (sent rs)) /\
  ((0 = 0 \/ 0 = -1) /\
   (0 = 0 <-> forallb call_ok tr = true) /\
   (0 = 0 ->
    count (is_write_of CMD_STOP) tr = 1%nat /\
    exists r0 polled' rs,
      tr = HidWrite FIRE_REPORT r0
           :: polled' ++ [Usleep FIRE_HOLD_TIME_US; HidWrite STOP_REPORT rs])).
Proof.
  intros w polled tr. split; [reflexivity|]. split.
  - apply (proj1 (proj2 (C1_fire (hid := scripted))) 3%nat 10%nat 0xFF w 2 (bus w));
      [reflexivity | lia | reflexivity | lia].
  - apply (proj2 (proj2 (C1_fire (hid := scripted))) 10%nat 0xFF w tr 0);
      reflexivity.
Defined.

Lemma C2_move_witness :
  (MOVEMENT_TILT_UP <> MOVEMENT_NONE /\
   move_turret MOVEMENT_TILT_UP 250000 (start always_ok) =
     (0, mkWorld always_ok
           [HidWrite [0; 0x02] 2; Usleep 250000; HidWrite [0; 0x20] 2] [] []) /\
   exists c,
     move_command MOVEMENT_TILT_UP = Some c /\
     let (r1, b1) := hid_write (Spec.encode c) (bus (start always_ok)) in
     let res := move_turret MOVEMENT_TILT_UP 250000 (start always_ok) in
     if r1 <? 0
     then fst res = -1 /\
          trace (snd res) = trace (start always_ok) ++ [HidWrite (Spec.encode c) r1]
     else
       let (r2, b2) := hid_write (Spec.encode Spec.Stop) b1 in
       trace (snd res) =
         trace (start always_ok) ++
         [HidWrite (Spec.encode c) r1; Usleep 250000; HidWrite (Spec.encode Spec.Stop) r2] /\
       bus (snd res) = b2 /\
       (fst res = 0 \/ fst res = -1) /\
       (fst res = 0 <-> 0 <= r2)) /\
  (trace (snd (move_turret MOVEMENT_PAN_LEFT 250000 (start first_write_fails))) =
     [HidWrite [0; 0x04] (-1)] /\
   fst (move_turret MOVEMENT_PAN_LEFT 250000 (start first_write_fails)) = -1).
Proof.
  split; [split; [discriminate | split; [reflexivity|]] | split; reflexivity].
  apply (C2_move (hid := scripted) MOVEMENT_TILT_UP 250000 (start always_ok)).
  discriminate.
Defined.

Lemma C3_command_frame_witness :
  let w := start always_ok in
  let tr :=
    [HidOpen LAUNCHER_VID LAUNCHER_PID true; HidWrite [0; 0x10] 2;
     HidWrite [0; 0x40] 2; HidRead 1 1 [0x10];
     Usleep 500000; HidWrite [0; 0x20] 2; HidClose] in
  trace (snd (main 10 0 0 [(code "f", None)] w)) = trace w ++ tr /\
  In (HidWrite [0; 0x10] 2) tr /\
  exists c, [0; 0x10] = Spec.encode c.
Proof.
  intros w tr. split; [reflexivity|]. split; [right; left; reflexivity|].
  apply (proj2 (proj2 (C3_command_frame (hid := scripted)))
           10%nat 0 0 [(code "f", None)] w tr eq_refl [0; 0x10] 2).
  right; left; reflexivity.
Defined.

Lemma C4_query_status_witness :
  0 <= 0x15 < 256 /\
  Spec.decode 0x15 =
    {| Spec.up_limit := Z.testbit 0x15 1;
       Spec.down_limit := Z.testbit 0x15 0;
       Spec.left_limit := Z.testbit 0x15 2;
       Spec.right_limit := Z.testbit 0x15 3;
       Spec.fired := Z.testbit 0x15 4 |} /\
  print_status 0 (start (mkScript true [] [(1, [0x05])])) =
    (0, mkWorld (mkScript true [] [])
          [HidWrite [0; 0x40] 2; HidRead 1 1 [0x05]] []
          ["Tilt up limit:      false"; "Tilt down limit:    true";
           "Pan left limit:     true"; "Pan right limit:    false";
           "Fire complete:      false"]%string).
Proof.
  split; [lia|]. split; [|reflexivity].
  apply (proj1 (proj2 (C4_query_status (hid := scripted)))). lia.
Defined.

Lemma C5_poll_failure_aborts_witness :
  let w := start second_read_fails in
  let pre :=
    [HidWrite FIRE_REPORT 2; HidWrite GET_STATUS_REPORT 2; HidRead 1 1 [0];
     HidWrite GET_STATUS_REPORT 2] in
  let e := HidRead 1 (-1) [] in
  trace (snd (fire_missile 10 0 w)) = trace w ++ pre ++ e :: [] /\
  poll_failed e = true /\
  fst (fire_missile 10 0 w) = Some (-1) /\
  forallb call_ok pre = true /\
  count is_sleep (pre ++ [e]) = 0%nat /\
  count (is_write_of CMD_STOP) (pre ++ [e]) = 0%nat /\
  stdout (snd (fire_missile 10 0 w)) = stdout w /\
  exists lines,
    stderr (snd (fire_missile 10 0 w)) =
    stderr w ++ lines ++ ["Failed to get status"%string].
Proof.
  intros w pre e. split; [reflexivity|]. split; [reflexivity|].
  apply (C5_poll_failure_aborts (hid := scripted) 10 0 w pre e [] eq_refl eq_refl).
Defined.

Lemma C6_one_active_movement_witness :
  let w := start always_ok in
  let opts := [(code "m", Some "left"%string); (code "f", None)] in
  let pre :=
    [HidOpen LAUNCHER_VID LAUNCHER_PID true; HidWrite [0; 0x04] 2;
     Usleep MOVE_HOLD_TIME_US; HidWrite [0; 0x20] 2; HidWrite [0; 0x10] 2] in
  let post :=
    [HidWrite [0; 0x40] 2; HidRead 1 1 [0x10]; Usleep FIRE_HOLD_TIME_US;
     HidWrite [0; 0x20] 2; HidClose] in
  trace (snd (main 10 0 0 opts w)) = trace w ++ pre ++ post /\
  exists active, outstanding false pre = Some active.
Proof.
  intros w opts pre post. split; [reflexivity|].
  apply (C6_one_active_movement (hid := scripted) 10 0 0 opts w pre post eq_refl).
Defined.

Lemma C10_fire_hold_time_witness :
  let w := start three_polls_then_fired in
  let tr :=
    [HidWrite FIRE_REPORT 2;
     HidWrite GET_STATUS_REPORT 2; HidRead 1 1 [0];
     HidWrite GET_STATUS_REPORT 2; HidRead 1 1 [0];
     HidWrite GET_STATUS_REPORT 2; HidRead 1 1 [0];
     HidWrite GET_STATUS_REPORT 2; HidRead 1 1 [0x10];
     Usleep 500000; HidWrite STOP_REPORT 2] in
  let a := mkArguments MOVEMENT_NONE MOVE_HOLD_TIME_US true false in
  let a' := mkArguments MOVEMENT_TILT_UP 9999000 true true in
  (trace (snd (fire_missile 10 0 w)) = trace w ++ tr /\
   fst (fire_missile 10 0 w) = Some 0 /\
   count is_sleep tr = 1%nat /\
   exists pre st rr data rs,
     tr = pre ++ [HidRead 1 rr data; Usleep 500000; HidWrite STOP_REPORT rs] /\
     0 <= rr /\ 0 <= rs /\
     flag (stored data st) STATUS_DEVICE_FIRED = true) /\
  (fire a = fire a' /\
   main_fire 10 0 a EXIT_SUCCESS w = main_fire 10 0 a' EXIT_SUCCESS w).
Proof.
  intros w tr a a'. split.
  - split; [reflexivity|]. split; [reflexivity|].
    apply (proj1 (proj2 (C10_fire_hold_time (hid := scripted))) 10%nat 0 w tr);
      reflexivity.
  - split; [reflexivity|].
    apply (proj2 (proj2 (C10_fire_hold_time (hid := scripted))) 10%nat 0 a a' EXIT_SUCCESS w).
    reflexivity.
Defined.

Lemma C7_action_sequence_witness :
  let w := start (mkScript true [] [(1, [0x10]); (1, [0x05])]) in
  let a := mkArguments MOVEMENT_TILT_DOWN MOVE_HOLD_TIME_US true true in
  main_device 10 0 0 a w =
    (Exit EXIT_SUCCESS,
     mkWorld (mkScript true [] [])
       [HidOpen LAUNCHER_VID LAUNCHER_PID true;
        HidWrite [0; 0x01] 2; Usleep MOVE_HOLD_TIME_US; HidWrite [0; 0x20] 2;
        HidWrite [0; 0x10] 2; HidWrite [0; 0x40] 2; HidRead 1 1 [0x10];
        Usleep FIRE_HOLD_TIME_US; HidWrite [0; 0x20] 2;
        HidWrite [0; 0x40] 2; HidRead 1 1 [0x05];
        HidClose]
       []
       ["Tilt up limit:      false"; "Tilt down limit:    true";
        "Pan left limit:     true"; "Pan right limit:    false";
        "Fire complete:      false"]%string) /\
  exists opened rest,
    trace (snd (main_device 10 0 0 a w)) =
      trace w ++ HidOpen LAUNCHER_VID LAUNCHER_PID opened :: rest /\
    device_run a 0 (HidOpen LAUNCHER_VID LAUNCHER_PID opened :: rest)
      (fst (main_device 10 0 0 a w)) /\
    match fst (main_device 10 0 0 a w) with
    | Exit status =>
        if opened : bool
        then count is_close rest = 1%nat /\ exists body, rest = body ++ [HidClose]
        else rest = [] /\ status = EXIT_FAILURE
    | Polling => opened = true /\ count is_close rest = 0%nat
    | Undefined => False
    end.
Proof.
  intros w a. split; [reflexivity|].
  exact (C7_action_sequence (hid := scripted) 10 0 0 a w).
Defined.

(** ** Further runs on the scripted bus *)


Lemma success_leaves_nothing_running_witness :
  let w := start always_ok in
  let opts := [(code "m", Some "down"%string); (code "f", None)] in
  let tr :=
    [HidOpen LAUNCHER_VID LAUNCHER_PID true;
     HidWrite [0; 0x01] 2; Usleep 100000; HidWrite [0; 0x20] 2;
     HidWrite [0; 0x10] 2; HidWrite [0; 0x40] 2; HidRead 1 1 [0x10];
     Usleep 500000; HidWrite [0; 0x20] 2; HidClose] in
  fst (main 10 0 0 opts w) = Exit EXIT_SUCCESS /\
  trace (snd (main 10 0 0 opts w)) = trace w ++ tr /\
  outstanding false tr = Some false.
Proof.
  intros w opts tr. split; [reflexivity|]. split; [reflexivity|].
  exact (success_leaves_nothing_running (hid := scripted) 10 0 0 opts w tr
           eq_refl eq_refl).
Defined.

Lemma reads_answer_requests_witness :
  let w := start second_read_fails in
  let opts := [(code "f", None); (code "p", None)] in
  let pre :=
    [HidOpen LAUNCHER_VID LAUNCHER_PID true; HidWrite [0; 0x10] 2;
     HidWrite [0; 0x40] 2; HidRead 1 1 [0]; HidWrite [0; 0x40] 2] in
  let post := [HidRead 1 (-1) []; HidClose] in
  trace (snd (main 10 0 0 opts w)) = trace w ++ pre ++ post /\
  exists q, answering false pre = Some q.
Proof.
  intros w opts pre post. split; [reflexivity|].
  exact (reads_answer_requests (hid := scripted) 10 0 0 opts w pre post eq_refl).
Defined.

Lemma fire_polls_without_bound_witness :
  let w := start three_polls_then_fired in
  hid_write FIRE_REPORT (bus w) = (2, bus w) /\
  quiet_polls 3 0 (bus w) = true /\
  fst (fire_missile 3 0 w) = None /\
  exists tr,
    trace (snd (fire_missile 3 0 w)) = trace w ++ HidWrite FIRE_REPORT 2 :: tr /\
    List.length tr = 6%nat /\
    count (is_write_of CMD_GET_STATUS) tr = 3%nat /\
    count is_read tr = 3%nat /\
    count is_sleep tr = 0%nat /\
    count (is_write_of CMD_STOP) tr = 0%nat.
Proof.
  intros w. split; [reflexivity|]. split; [reflexivity|].
  apply (fire_polls_without_bound (hid := scripted) 3 0 w 2 (bus w));
    [reflexivity | lia | reflexivity].
Defined.

Lemma filling_reads_fill : reads_fill (hid := filling).
Proof.
  intros len b. destruct b as [|[x|] b]; cbn; intros H; [discriminate .. | lia].
Defined.

Lemma uninitialised_status_unobservable_witness :
  let w : @world (list (option Z)) := mkWorld [Some 0; Some 0x10; Some 0x05] [] [] [] in
  let opts := [(code "f", None); (code "p", None)] in
  reads_fill (hid := filling) /\
  main 10 0xFF 0xFF opts w = main 10 0 0x10 opts w.
Proof.
  intros w opts. split; [exact filling_reads_fill|].
  exact (uninitialised_status_unobservable (hid := filling) 10 0xFF 0xFF 0 0x10 opts w
           filling_reads_fill).
Defined.

Lemma time_decimal_witness :
  Forall (fun c => isspace c = true) [" "%char] /\
  digits_below 10 [2; 5] /\
  parse_opt (code "t") (Some " +125"%string) 0 default_arguments (start always_ok) =
    (Returned 0 (set_duration 125000 default_arguments), start always_ok) /\
  fst (parse_opt (code "t") (Some "125ms"%string) 0 default_arguments (start always_ok)) =
    UsageExit.
Proof.
  assert (Hsp : Forall (fun c => isspace c = true) [" "%char])
    by (constructor; [reflexivity | constructor]).
  assert (Hds : digits_below 10 [2; 5])
    by (constructor; [lia | constructor; [lia | constructor]]).
  split; [exact Hsp|]. split; [exact Hds|]. split.
  - exact (time_decimal (B := script) [" "%char] true 1 [2; 5] EmptyString 0
             default_arguments (start always_ok) Hsp ltac:(lia) Hds I).
  - exact (f_equal fst
             (time_decimal (B := script) [] false 1 [2; 5] "ms"%string 0
                default_arguments (start always_ok) (Forall_nil _) ltac:(lia) Hds
                eq_refl)).
Defined.

Lemma time_octal_hex_witness :
  digits_below 8 [1; 0; 0] /\
  digits_below 16 [1; 15] /\
  parse_opt (code "t") (Some "0100"%string) 0 default_arguments (start always_ok) =
    (Returned 0 (set_duration 64000 default_arguments), start always_ok) /\
  fst (parse_opt (code "t") (Some "08"%string) 0 default_arguments (start always_ok)) =
    UsageExit /\
  parse_opt (code "t") (Some "0x1f"%string) 0 default_arguments (start always_ok) =
    (Returned 0 (set_duration 31000 default_arguments), start always_ok).
Proof.
  assert (Ho : digits_below 8 [1; 0; 0])
    by (repeat (constructor; [lia|]); constructor).
  assert (Hh : digits_below 16 [1; 15])
    by (repeat (constructor; [lia|]); constructor).
  split; [exact Ho|]. split; [exact Hh|].
  destruct (time_octal_hex (B := script) 0 default_arguments (start always_ok))
    as (Hoct & Hbad & Hhex).
  split; [exact (Hoct [1; 0; 0] Ho)|]. split.
  - exact (f_equal fst (Hbad [] 8 EmptyString (Forall_nil _) ltac:(lia))).
  - exact (Hhex false 1 [15] Hh).
Defined.

Lemma time_negative_witness :
  digits_below 10 [0; 0] /\
  fst (parse_opt (code "t") (Some "-500"%string) 0 default_arguments (start always_ok)) =
    UsageExit.
Proof.
  assert (Hds : digits_below 10 [0; 0])
    by (repeat (constructor; [lia|]); constructor).
  split; [exact Hds|].
  exact (f_equal fst
           (time_negative (B := script) 5 [0; 0] 0 default_arguments (start always_ok)
              ltac:(lia) Hds)).
Defined.

Lemma parsed_arguments_witness :
  let opts :=
    [(code "m", Some "up"%string); (code "t", Some "250"%string); (code "f", None)] in
  let a := mkArguments MOVEMENT_TILT_UP 250000 true false in
  fst (argp_parse opts default_arguments (start always_ok)) = Returned 0 a /\
  (fire a = has_key "f" opts /\
   display_status a = has_key "p" opts /\
   is_none (arg_movement a) = negb (has_key "m" opts) /\
   (has_key "t" opts = false -> movement_duration a = MOVE_HOLD_TIME_US) /\
   whole_ms (movement_duration a) /\
   useconds (movement_duration a) = movement_duration a).
Proof.
  intros opts a. split; [reflexivity|].
  exact (parsed_arguments (B := script) opts (start always_ok) 0 a eq_refl).
Defined.

Lemma main_sleeps_bounded_witness :
  let w := start always_ok in
  let opts :=
    [(code "m", Some "right"%string); (code "t", Some "9999"%string); (code "f", None)] in
  let tr :=
    [HidOpen LAUNCHER_VID LAUNCHER_PID true;
     HidWrite [0; 0x08] 2; Usleep 9999000; HidWrite [0; 0x20] 2;
     HidWrite [0; 0x10] 2; HidWrite [0; 0x40] 2; HidRead 1 1 [0x10];
     Usleep 500000; HidWrite [0; 0x20] 2; HidClose] in
  trace (snd (main 10 0 0 opts w)) = trace w ++ tr /\
  slept tr = 10499000 /\
  0 <= slept tr <= 9999000 + FIRE_HOLD_TIME_US.
Proof.
  intros w opts tr. split; [reflexivity|]. split; [reflexivity|].
  exact (main_sleeps_bounded (hid := scripted) 10 0 0 opts w tr eq_refl).
Defined.

Lemma nothing_without_its_option_witness :
  let w := start always_ok in
  let opts := [(code "m", Some "left"%string); (code "t", Some "20"%string)] in
  let tr :=
    [HidOpen LAUNCHER_VID LAUNCHER_PID true;
     HidWrite [0; 0x04] 2; Usleep 20000; HidWrite [0; 0x20] 2; HidClose] in
  trace (snd (main 10 0 0 opts w)) = trace w ++ tr /\
  has_key "f" opts = false /\ has_key "p" opts = false /\
  count (is_write_of CMD_FIRE) tr = 0%nat /\
  count (is_write_of CMD_GET_STATUS) tr = 0%nat /\ count is_read tr = 0%nat.
Proof.
  intros w opts tr.
  destruct (nothing_without_its_option (hid := scripted) 10 0 0 opts w tr eq_refl)
    as (Hf & _ & Hp).
  split; [reflexivity|]. split; [reflexivity|]. split; [reflexivity|].
  split; [exact (Hf eq_refl) | exact (Hp eq_refl eq_refl)].
Defined.


Lemma last_option_wins_witness :
  let w := start always_ok in
  let o1 := [(code "m", Some "up"%string); (code "t", Some "5"%string)] in
  let o2 := [(code "f", None)] in
  let a := mkArguments MOVEMENT_PAN_LEFT 5000 true false in
  fst (argp_parse (o1 ++ (code "m", Some "left"%string) :: o2) default_arguments w)
    = Returned 0 a /\
  has_key "m" o2 = false /\
  exists a1,
    fst (parse_opt (code "m") (Some "left"%string) 0 default_arguments w) = Returned 0 a1 /\
    arg_movement a = arg_movement a1 /\
    arg_movement a <> MOVEMENT_NONE.
Proof.
  intros w o1 o2 a. split; [reflexivity|]. split; [reflexivity|].
  exact (proj1 (last_option_wins (B := script) o1 o2 "left"%string w 0 a)
           eq_refl eq_refl).
Defined.

Lemma time_not_a_number_witness :
  "soon"%string <> EmptyString /\
  stops 10 (snd (strip_sign (skip_space "soon"))) /\
  parse_opt (code "t") (Some "soon"%string) 0 default_arguments (start always_ok) =
    (UsageExit, complained "Invalid duration specified" (start always_ok)).
Proof.
  split; [discriminate|]. split; [reflexivity|].
  exact (time_not_a_number (B := script) "soon"%string 0 default_arguments
           (start always_ok) ltac:(discriminate) eq_refl).
Defined.
